(** * lab2-otel: the CEP gateway (servico-a) and the weather orchestrator
    (servico-b)

    A shallow embedding of [servico-a/main.go] and [servico-b/main.go].
    Go strings are byte strings ([string], one [ascii] per byte), Go's
    [float64] is the primitive binary64 [float], an [error] is the text
    of its [Error()] method.  Handlers are written in a small state
    monad over the process state they touch: the identifier generator
    of the tracing SDK, the spans started so far, the requests handed
    to the HTTP transport and the [http.ResponseWriter] of the request
    being served. *)

From Stdlib Require Import ZArith NArith String Ascii List Lia.
From Stdlib Require Import PrimFloat.
From stdpp Require Import base option gmap strings list.

Set Warnings "-inexact-float,-register-all,-abstract-large-number".
Local Open Scope string_scope.
Local Open Scope list_scope.

(** Go's [error] interface, seen through [Error()]. *)
Definition error := string.

(** ** regexp: the fragment of RE2 syntax used by [validateCEP] *)
Module regexp.

(** The operators of [regexp/syntax] that the pattern [^\d{8}$]
    parses to.  No flag is set, so [^] is [OpBeginText] and [$] is
    [OpEndText] (end of the text, not before a final newline). *)
Inductive Regexp : Type :=
| OpEmptyMatch
| OpBeginText
| OpEndText
| OpCharClass (ranges : list (N * N))
| OpConcat (r1 r2 : Regexp)
| OpRepeat (min max : nat) (r : Regexp).

(** Perl class [\d]: the ASCII digits only. *)
Definition perl_d : Regexp := OpCharClass [(48, 57)%N].

Definition inClass (ranges : list (N * N)) (c : ascii) : bool :=
  existsb (fun '(lo, hi) => (lo <=? N_of_ascii c)%N && (N_of_ascii c <=? hi)%N)
          ranges.

(** Backtracking matcher in continuation-passing style.  [bot] tells
    whether the current position is the beginning of the text, [s] is
    the rest of the text, [k] receives the position after the match.
    A digit is a single byte in UTF-8 and no byte of a longer
    encoding lies in a class of ASCII characters, so matching byte
    by byte agrees with matching rune by rune for such classes. *)
Fixpoint matchK (r : Regexp) (bot : bool) (s : string)
         (k : bool -> string -> bool) : bool :=
  match r with
  | OpEmptyMatch => k bot s
  | OpBeginText => bot && k bot s
  | OpEndText => match s with EmptyString => k bot s | String _ _ => false end
  | OpCharClass ranges =>
      match s with
      | EmptyString => false
      | String c s' => inClass ranges c && k false s'
      end
  | OpConcat r1 r2 => matchK r1 bot s (fun b s' => matchK r2 b s' k)
  | OpRepeat min max r =>
      let fix optional (n : nat) (b : bool) (t : string) : bool :=
        match n with
        | O => k b t
        | S n' => matchK r b t (optional n') || k b t
        end in
      let fix required (n : nat) (b : bool) (t : string) : bool :=
        match n with
        | O => optional (max - min) b t
        | S n' => matchK r b t (required n')
        end in
      required min bot s
  end.

Fixpoint search (r : Regexp) (bot : bool) (s : string) : bool :=
  matchK r bot s (fun _ _ => true)
  || match s with
     | EmptyString => false
     | String _ s' => search r false s'
     end.

(** The [MatchString] method: is there a match anywhere in [s]? *)
Definition MatchString (re : Regexp) (s : string) : bool := search re true s.

End regexp.

(** ** encoding/json: decoding at the level of JSON values *)
Module json.

(** A JSON value as the scanner delimits it.  A number keeps its
    literal, a string is already unquoted. *)
Inductive Value : Type :=
| Null
| Bool (b : bool)
| Number (literal : string)
| Str (s : string)
| Array (elems : list Value)
| Object (members : list (string * Value)).

(** What reading the next value from a body gives: a syntax error
    (or [io.EOF] on an empty body), or the value. *)
Definition Scanned : Type := error + Value.

Definition kind (v : Value) : string :=
  match v with
  | Null => "null"
  | Bool _ => "bool"
  | Number _ => "number"
  | Str _ => "string"
  | Array _ => "array"
  | Object _ => "object"
  end.

(** [foldName]: ASCII letters are upper-cased.  (Longer runes are
    folded to the least rune of their case orbit; none of them folds
    to an ASCII letter other than K and S, so for names without
    those two letters the bytes decide.) *)
Definition foldByte (c : ascii) : ascii :=
  let n := N_of_ascii c in
  if (97 <=? n)%N && (n <=? 122)%N then ascii_of_N (n - 32) else c.

Fixpoint foldName (s : string) : string :=
  match s with
  | EmptyString => EmptyString
  | String c s' => String (foldByte c) (foldName s')
  end.

(** An object key selects the struct field of that name: by exact
    name first, else by folded name. *)
Definition keyMatches (name key : string) : bool :=
  String.eqb key name || String.eqb (foldName key) (foldName name).

(** [d.saveError]: only the first error is kept; decoding goes on. *)
Definition saveError (saved : option error) (e : error) : option error :=
  match saved with
  | Some _ => saved
  | None => Some e
  end.

Definition UnmarshalTypeError (v : Value) (target : string) : error :=
  "json: cannot unmarshal " +:+ kind v +:+ " into Go " +:+ target.

(** Storing a value into a destination of kind [reflect.String]:
    [null] leaves it as it is, a string sets it, anything else is
    skipped and reported. *)
Definition storeString (target : string) (v : Value)
           (cur : string) (saved : option error) : string * option error :=
  match v with
  | Null => (cur, saved)
  | Str s => (s, saved)
  | _ => (cur, saveError saved (UnmarshalTypeError v target))
  end.

(** *** The scanner: the first value of a body, from its bytes *)

(** [io.EOF], [io.ErrUnexpectedEOF], and the [*SyntaxError] of the
    scanner at the first offending byte.  The text of the latter,
    which quotes the byte and names the place, is not spelled out. *)
Definition EOF : error := "EOF".
Definition ErrUnexpectedEOF : error := "unexpected EOF".
Definition SyntaxError : error := "invalid character".

(** What is read from the front of a text, and the rest of it. *)
Definition Read (A : Type) : Type := error + (A * string).

Definition then_ {A B : Type} (f : A -> B) (r : Read A) : Read B :=
  match r with
  | inl e => inl e
  | inr (a, rest) => inr (f a, rest)
  end.

Definition quote : ascii := "034".

Definition between (lo hi : N) (c : ascii) : bool :=
  ((lo <=? N_of_ascii c) && (N_of_ascii c <=? hi))%N.

Definition isSpace (c : ascii) : bool :=
  match c with
  | " " | "009" | "013" | "010" => true
  | _ => false
  end%char.

Fixpoint skipSpace (s : string) : string :=
  match s with
  | EmptyString => s
  | String c s' => if isSpace c then skipSpace s' else s
  end.

Definition hex (c : ascii) : option N :=
  if between 48 57 c then Some (N_of_ascii c - 48)%N
  else if between 97 102 c then Some (N_of_ascii c - 87)%N
  else if between 65 70 c then Some (N_of_ascii c - 55)%N
  else None.

Definition hex4 (a b c d : ascii) : option N :=
  match hex a, hex b, hex c, hex d with
  | Some x, Some y, Some z, Some u => Some (((x * 16 + y) * 16 + z) * 16 + u)%N
  | _, _, _, _ => None
  end.

(** The error of an escape [\u] cut short: the first byte that is
    no hexadecimal digit, else the end of the text. *)
Fixpoint shortHex (s : string) : error :=
  match s with
  | EmptyString => ErrUnexpectedEOF
  | String c s' => match hex c with Some _ => shortHex s' | None => SyntaxError end
  end.

(** [utf8.EncodeRune]; a surrogate or a value past U+10FFFF is written
    as U+FFFD. *)
Definition byte (n : N) : ascii := ascii_of_N n.

Definition replacement : string :=
  String (byte 239) (String (byte 191) (String (byte 189) "")).

Definition EncodeRune (r : N) : string :=
  (if r <? 128 then String (byte r) ""
   else if r <? 2048 then String (byte (192 + r / 64)) (String (byte (128 + r mod 64)) "")
   else if (55296 <=? r) && (r <=? 57343) then replacement
   else if r <? 65536 then
     String (byte (224 + r / 4096))
            (String (byte (128 + (r / 64) mod 64)) (String (byte (128 + r mod 64)) ""))
   else if r <? 1114112 then
     String (byte (240 + r / 262144))
            (String (byte (128 + (r / 4096) mod 64))
                    (String (byte (128 + (r / 64) mod 64))
                            (String (byte (128 + r mod 64)) "")))
   else replacement)%N.

(** The first byte of an encoding of more than one byte: its length
    and the range of its second byte. *)
Definition lead (c : ascii) : option (nat * N * N) :=
  if between 194 223 c then Some (2%nat, 128%N, 191%N)
  else if between 224 224 c then Some (3%nat, 160%N, 191%N)
  else if between 225 236 c then Some (3%nat, 128%N, 191%N)
  else if between 237 237 c then Some (3%nat, 128%N, 159%N)
  else if between 238 239 c then Some (3%nat, 128%N, 191%N)
  else if between 240 240 c then Some (4%nat, 144%N, 191%N)
  else if between 241 243 c then Some (4%nat, 128%N, 191%N)
  else if between 244 244 c then Some (4%nat, 128%N, 143%N)
  else None.

(** The number of bytes that follow [c] in a well-formed encoding
    that starts with [c] at the front of [String c s]; none when
    there is no such encoding. *)
Definition followers (c : ascii) (s : string) : nat :=
  match lead c, s with
  | Some (2, lo, hi), String c2 _ => if between lo hi c2 then 1 else 0
  | Some (3, lo, hi), String c2 (String c3 _) =>
      if between lo hi c2 && between 128 191 c3 then 2 else 0
  | Some (4, lo, hi), String c2 (String c3 (String c4 _)) =>
      if between lo hi c2 && between 128 191 c3 && between 128 191 c4 then 3 else 0
  | _, _ => 0
  end.

(** The byte an escape of one letter stands for. *)
Definition escape (c : ascii) : option ascii :=
  match c with
  | "034" => Some "034"
  | "\" => Some "\"
  | "/" => Some "/"
  | "b" => Some "008"
  | "f" => Some "012"
  | "n" => Some "010"
  | "r" => Some "013"
  | "t" => Some "009"
  | _ => None
  end%char.

(** The low half of a surrogate pair written [\uXXXX] at the front
    of [s]. *)
Definition lowSurrogate (s : string) : option N :=
  match s with
  | String "\" (String "u" (String a (String b (String c (String d _))))) =>
      match hex4 a b c d with
      | Some r => if ((56320 <=? r) && (r <=? 57343))%N then Some r else None
      | None => None
      end
  | _ => None
  end.

(** A string literal after its opening quote, unquoted as [unquote]
    does: escapes are replaced, a half of a surrogate pair on its own
    and every byte that is not part of well-formed UTF-8 become
    U+FFFD.  [pending] counts the bytes still to copy of an encoding
    already checked. *)
Fixpoint stringBody (pending : nat) (s : string) {struct s} : Read string :=
  match s with
  | EmptyString => inl ErrUnexpectedEOF
  | String c s' =>
      match pending with
      | S k => then_ (String c) (stringBody k s')
      | O =>
          if Ascii.eqb c quote then inr ("", s')
          else if Ascii.eqb c "\" then
            match s' with
            | EmptyString => inl ErrUnexpectedEOF
            | String e s2 =>
                match escape e with
                | Some b => then_ (String b) (stringBody 0 s2)
                | None =>
                    if Ascii.eqb e "u" then
                      match s2 with
                      | String h1 (String h2 (String h3 (String h4 s6))) =>
                          match hex4 h1 h2 h3 h4 with
                          | None => inl (shortHex s2)
                          | Some r =>
                              if ((55296 <=? r) && (r <=? 56319))%N then
                                match lowSurrogate s6, s6 with
                                | Some lo,
                                  String _ (String _ (String _ (String _
                                    (String _ (String _ s12))))) =>
                                    let pair := ((r - 55296) * 1024 + (lo - 56320)
                                                 + 65536)%N in
                                    then_ (append (EncodeRune pair)) (stringBody 0 s12)
                                | _, _ =>
                                    then_ (append replacement) (stringBody 0 s6)
                                end
                              else then_ (append (EncodeRune r)) (stringBody 0 s6)
                          end
                      | _ => inl (shortHex s2)
                      end
                    else inl SyntaxError
                end
            end
          else if (N_of_ascii c <? 32)%N then inl SyntaxError
          else if (N_of_ascii c <? 128)%N then then_ (String c) (stringBody 0 s')
          else
            match followers c s' with
            | O => then_ (append replacement) (stringBody 0 s')
            | S k => then_ (String c) (stringBody (S k) s')
            end
      end
  end.

(** The rest of a literal name. *)
Fixpoint literal (expected : string) (v : Value) (s : string) : Read Value :=
  match expected with
  | EmptyString => inr (v, s)
  | String e expected' =>
      match s with
      | EmptyString => inl ErrUnexpectedEOF
      | String c s' => if Ascii.eqb c e then literal expected' v s' else inl SyntaxError
      end
  end.

Definition isDigit (c : ascii) : bool := between 48 57 c.

(** The digits at the front of a text. *)
Fixpoint digits (s : string) : string * string :=
  match s with
  | String c s' =>
      if isDigit c then let '(ds, rest) := digits s' in (String c ds, rest) else ("", s)
  | EmptyString => ("", s)
  end.

(** At least one digit. *)
Definition digits1 (s : string) : Read string :=
  match s with
  | EmptyString => inl ErrUnexpectedEOF
  | String c _ => if isDigit c then inr (digits s) else inl SyntaxError
  end.

(** A number, kept as its literal: an optional minus sign, a zero or
    digits that do not start with one, an optional fraction, an
    optional exponent. *)
Definition number (s : string) : Read string :=
  let signed (s : string) : string * string :=
    match s with
    | String "-" s' => ("-", s')
    | _ => ("", s)
    end in
  let integer (s : string) : Read string :=
    match s with
    | EmptyString => inl ErrUnexpectedEOF
    | String "0" s' => inr ("0", s')
    | String c _ => if isDigit c then inr (digits s) else inl SyntaxError
    end in
  let fraction (s : string) : Read string :=
    match s with
    | String "." s' => then_ (String ".") (digits1 s')
    | _ => inr ("", s)
    end in
  let exponent (s : string) : Read string :=
    match s with
    | String c s' =>
        if Ascii.eqb c "e" || Ascii.eqb c "E" then
          match s' with
          | String d s2 =>
              if Ascii.eqb d "+" || Ascii.eqb d "-"
              then then_ (fun ds => String c (String d ds)) (digits1 s2)
              else then_ (String c) (digits1 s')
          | EmptyString => inl ErrUnexpectedEOF
          end
        else inr ("", s)
    | EmptyString => inr ("", s)
    end in
  let '(sign, s1) := signed s in
  match integer s1 with
  | inl e => inl e
  | inr (int, s2) =>
      match fraction s2 with
      | inl e => inl e
      | inr (frac, s3) =>
          then_ (fun exp => sign +:+ int +:+ frac +:+ exp) (exponent s3)
      end
  end.

(** The elements of an array after its opening bracket, given the
    reader of one value; [n] bounds their number. *)
Fixpoint elements (value : string -> Read Value) (n : nat) (s : string)
  : Read (list Value) :=
  match n with
  | O => inl SyntaxError
  | S n' =>
      match value s with
      | inl e => inl e
      | inr (v, s1) =>
          match skipSpace s1 with
          | EmptyString => inl ErrUnexpectedEOF
          | String "," s2 => then_ (cons v) (elements value n' s2)
          | String "]" s2 => inr ([v], s2)
          | String _ _ => inl SyntaxError
          end
      end
  end.

(** The members of an object after its opening brace or a comma. *)
Fixpoint members (value : string -> Read Value) (n : nat) (s : string)
  : Read (list (string * Value)) :=
  match n with
  | O => inl SyntaxError
  | S n' =>
      match skipSpace s with
      | EmptyString => inl ErrUnexpectedEOF
      | String c s1 =>
          if Ascii.eqb c quote then
            match stringBody 0 s1 with
            | inl e => inl e
            | inr (key, s2) =>
                match skipSpace s2 with
                | EmptyString => inl ErrUnexpectedEOF
                | String ":" s3 =>
                    match value s3 with
                    | inl e => inl e
                    | inr (v, s4) =>
                        match skipSpace s4 with
                        | EmptyString => inl ErrUnexpectedEOF
                        | String "," s5 => then_ (cons (key, v)) (members value n' s5)
                        | String "}" s5 => inr ([(key, v)], s5)
                        | String _ _ => inl SyntaxError
                        end
                    end
                | String _ _ => inl SyntaxError
                end
            end
          else inl SyntaxError
      end
  end.

(** One value at the front of a text, spaces skipped.  [depth] is
    the number of arrays and objects that may still be opened inside
    one another. *)
Fixpoint value (depth : nat) (s : string) {struct depth} : Read Value :=
  match skipSpace s with
  | EmptyString => inl ErrUnexpectedEOF
  | String c s' =>
      if Ascii.eqb c "{" then
        match depth with
        | O => inl SyntaxError
        | S d =>
            match skipSpace s' with
            | String "}" s2 => inr (Object [], s2)
            | _ => then_ Object (members (value d) (S (String.length s')) s')
            end
        end
      else if Ascii.eqb c "[" then
        match depth with
        | O => inl SyntaxError
        | S d =>
            match skipSpace s' with
            | String "]" s2 => inr (Array [], s2)
            | _ => then_ Array (elements (value d) (S (String.length s')) s')
            end
        end
      else if Ascii.eqb c quote then then_ Str (stringBody 0 s')
      else if Ascii.eqb c "t" then literal "rue" (Bool true) s'
      else if Ascii.eqb c "f" then literal "alse" (Bool false) s'
      else if Ascii.eqb c "n" then literal "ull" Null s'
      else if Ascii.eqb c "-" || isDigit c then then_ Number (number (String c s'))
      else inl SyntaxError
  end.

(** The scanner gives up past this many arrays and objects inside
    one another. *)
Definition maxNestingDepth : nat := 10000.

(** What [Decoder.Decode] reads from a body that holds [bytes]: the
    first value; what follows it is left in the stream. *)
Definition readValue (bytes : string) : Scanned :=
  match skipSpace bytes with
  | EmptyString => inl EOF
  | _ =>
      match value maxNestingDepth bytes with
      | inl e => inl e
      | inr (v, _) => inr v
      end
  end.

(** [json.Valid]: the text is one value, with spaces around it at
    most. *)
Definition Valid (bytes : string) : bool :=
  match value maxNestingDepth bytes with
  | inl _ => false
  | inr (_, rest) => String.eqb (skipSpace rest) ""
  end.

End json.

(** ** net/url: query strings *)
Module url.

Definition isAlnum (c : ascii) : bool :=
  let n := N_of_ascii c in
  ((97 <=? n) && (n <=? 122) || (65 <=? n) && (n <=? 90)
   || (48 <=? n) && (n <=? 57))%N.

(** [shouldEscape(c, encodeQueryComponent)] *)
Definition shouldEscape (c : ascii) : bool :=
  if isAlnum c then false
  else match c with
       | "-" | "_" | "." | "~" => false
       | _ => true
       end%char.

Definition upperhex (n : N) : ascii :=
  if (n <? 10)%N then ascii_of_N (48 + n) else ascii_of_N (55 + n).

Fixpoint QueryEscape (s : string) : string :=
  match s with
  | EmptyString => EmptyString
  | String c s' =>
      if Ascii.eqb c " " then String "+" (QueryEscape s')
      else if shouldEscape c then
        let n := N_of_ascii c in
        String "%" (String (upperhex (n / 16)) (String (upperhex (n mod 16))
                                                      (QueryEscape s')))
      else String c (QueryEscape s')
  end.

Definition unhex (c : ascii) : option N :=
  let n := N_of_ascii c in
  if (48 <=? n)%N && (n <=? 57)%N then Some (n - 48)%N
  else if (97 <=? n)%N && (n <=? 102)%N then Some (n - 97 + 10)%N
  else if (65 <=? n)%N && (n <=? 70)%N then Some (n - 65 + 10)%N
  else None.

(** [QueryUnescape]: [None] stands for the [EscapeError]. *)
Fixpoint QueryUnescape (s : string) : option string :=
  match s with
  | EmptyString => Some EmptyString
  | String "%" (String a (String b s')) =>
      match unhex a, unhex b with
      | Some x, Some y => String (ascii_of_N (16 * x + y)) <$> QueryUnescape s'
      | _, _ => None
      end
  | String "%" _ => None
  | String "+" s' => String " " <$> QueryUnescape s'
  | String c s' => String c <$> QueryUnescape s'
  end.

(** The pieces of [s] between occurrences of [sep]. *)
Fixpoint split (sep : ascii) (s : string) : list string :=
  match s with
  | EmptyString => [EmptyString]
  | String c s' =>
      if Ascii.eqb c sep then EmptyString :: split sep s'
      else match split sep s' with
           | piece :: rest => String c piece :: rest
           | [] => [String c EmptyString]
           end
  end.

(** [strings.Cut]: around the first occurrence of [sep]. *)
Fixpoint Cut (sep : ascii) (s : string) : string * string :=
  match s with
  | EmptyString => (EmptyString, EmptyString)
  | String c s' =>
      if Ascii.eqb c sep then (EmptyString, s')
      else let '(before, after) := Cut sep s' in (String c before, after)
  end.

Fixpoint contains (c : ascii) (s : string) : bool :=
  match s with
  | EmptyString => false
  | String d s' => Ascii.eqb c d || contains c s'
  end.

(** [url.Values], in the order the pairs were added. *)
Definition Values : Type := list (string * string).

(** One round of the loop of [parseQuery]; a pair with a semicolon
    or a bad escape is dropped (the error is discarded by [Query]). *)
Definition parsePair (piece : string) : Values :=
  if contains ";" piece then []
  else if String.eqb piece "" then []
  else
    let '(key, value) := Cut "=" piece in
    match QueryUnescape key, QueryUnescape value with
    | Some k, Some v => [(k, v)]
    | _, _ => []
    end.

(** [u.Query()] on the raw query of a URL. *)
Definition Query (rawQuery : string) : Values :=
  flat_map parsePair (split "&" rawQuery).

(** [Values.Get]: the first value of the key, else the empty string. *)
Fixpoint Get (vs : Values) (key : string) : string :=
  match vs with
  | [] => ""
  | (k, v) :: rest => if String.eqb k key then v else Get rest key
  end.

(** The raw query of a request target, as [ParseRequestURI] splits it
    off: what follows the first question mark. *)
Definition RawQuery (target : string) : string := snd (Cut "?" target).

(** [PathUnescape]: as [QueryUnescape], but a plus sign stays. *)
Fixpoint PathUnescape (s : string) : option string :=
  match s with
  | EmptyString => Some EmptyString
  | String "%" (String a (String b s')) =>
      match unhex a, unhex b with
      | Some x, Some y => String (ascii_of_N (16 * x + y)) <$> PathUnescape s'
      | _, _ => None
      end
  | String "%" _ => None
  | String c s' => String c <$> PathUnescape s'
  end.

(** The path of a request target, decoded; [None] when the target
    does not parse. *)
Definition Path (target : string) : option string := PathUnescape (fst (Cut "?" target)).

End url.

(** ** go.opentelemetry.io/otel: span contexts and their propagation *)
Module trace.

(** Identifiers are non-zero, hence valid.  [Sampled] is the sampled
    bit of the trace flags. *)
Record SpanContext : Type :=
  { TraceID : positive; SpanID : positive; Sampled : bool }.

End trace.

Module baggage.

(** A list member once parsed: its value, percent-decoded, and its
    properties. *)
Abbreviation Item := (string * list (string * option string))%type.

(** [baggage.Baggage]: the members by key.  How a baggage is
    written in a header field (the order of its members, which bytes
    of a value are percent-encoded) is left to the library. *)
Abbreviation Baggage := (gmap string Item).

End baggage.

Module context.

(** What a [context.Context] carries here: the span context of the
    current span, if any, and the baggage (empty when there is none). *)
Record Context : Type :=
  { spanContext : option trace.SpanContext; baggage : baggage.Baggage }.

Definition Background : Context := {| spanContext := None; baggage := ∅ |}.

Definition withSpanContext (ctx : Context) (sc : trace.SpanContext) : Context :=
  {| spanContext := Some sc; baggage := baggage ctx |}.

Definition withBaggage (ctx : Context) (b : baggage.Baggage) : Context :=
  {| spanContext := spanContext ctx; baggage := b |}.

End context.

Module propagation.

(** A header field.  A well-formed [traceparent] field is given by
    its content (of the version, trace id, parent id and flags of the
    W3C format, the two identifiers and the sampled flag are kept); a
    [baggage] field that [baggage.Parse] accepts is given by the
    members it lists; any other field is given by its text.  Under
    the names [Traceparent] and [Baggage] a [Text] is therefore a
    value the propagator cannot parse. *)
Inductive FieldValue : Type :=
| Text (s : string)
| TraceParent (sc : trace.SpanContext)
| Members (b : baggage.Baggage).

(** [propagation.HeaderCarrier], keys in canonical form. *)
Abbreviation HeaderCarrier := (gmap string FieldValue).

Inductive TextMapPropagator : Type := TraceContext | Baggage.

Definition inject (p : TextMapPropagator) (ctx : context.Context)
           (carrier : HeaderCarrier) : HeaderCarrier :=
  match p with
  | TraceContext =>
      match context.spanContext ctx with
      | Some sc => <["Traceparent" := TraceParent sc]> carrier
      | None => carrier
      end
  | Baggage =>
      if decide (context.baggage ctx = ∅) then carrier
      else <["Baggage" := Members (context.baggage ctx)]> carrier
  end.

Definition extract (p : TextMapPropagator) (ctx : context.Context)
           (carrier : HeaderCarrier) : context.Context :=
  match p with
  | TraceContext =>
      match carrier !! "Traceparent" with
      | Some (TraceParent sc) => context.withSpanContext ctx sc
      | _ => ctx
      end
  | Baggage =>
      match carrier !! "Baggage" with
      | Some (Members b) => if decide (b = ∅) then ctx else context.withBaggage ctx b
      | _ => ctx
      end
  end.

(** [NewCompositeTextMapPropagator]: each propagator in turn; the
    empty composite does nothing. *)
Definition Inject (ps : list TextMapPropagator) (ctx : context.Context)
           (carrier : HeaderCarrier) : HeaderCarrier :=
  fold_left (fun c p => inject p ctx c) ps carrier.

Definition Extract (ps : list TextMapPropagator) (ctx : context.Context)
           (carrier : HeaderCarrier) : context.Context :=
  fold_left (fun c p => extract p c carrier) ps ctx.

End propagation.

Module otel.

(** The globals of package [otel].  Until [SetTracerProvider] is
    called the tracers do nothing; until [SetTextMapPropagator] is
    called [GetTextMapPropagator] returns a propagator that does
    nothing. *)
Record Globals : Type :=
  { tracerProvider : option string;
    textMapPropagator : list propagation.TextMapPropagator }.

Definition initial : Globals :=
  {| tracerProvider := None; textMapPropagator := [] |}.

Definition SetTracerProvider (serviceName : string) (g : Globals) : Globals :=
  {| tracerProvider := Some serviceName;
     textMapPropagator := textMapPropagator g |}.

Definition SetTextMapPropagator (ps : list propagation.TextMapPropagator)
           (g : Globals) : Globals :=
  {| tracerProvider := tracerProvider g; textMapPropagator := ps |}.

Definition GetTextMapPropagator (g : Globals) : list propagation.TextMapPropagator :=
  textMapPropagator g.

End otel.

(** ** net/http *)
Module http.

Abbreviation Header := (gmap string propagation.FieldValue).

(** A request, inbound or outbound.  [URL] is the target as written:
    the request URI on the server side, the absolute URL on the
    client side.  [Body] is what a JSON decoder reads from the body,
    [json.readValue] of its bytes: the first value of the stream, or
    the error met before the end of that value. *)
Record Request : Type :=
  { Method : string;
    URL : string;
    Header_ : Header;
    Body : json.Scanned;
    Context : context.Context }.

Definition NewRequestWithContext (ctx : context.Context) (method url : string)
  : Request :=
  {| Method := method; URL := url; Header_ := ∅;
     Body := inl "EOF"; Context := ctx |}.

Definition WithContext (r : Request) (ctx : context.Context) : Request :=
  {| Method := Method r; URL := URL r; Header_ := Header_ r;
     Body := Body r; Context := ctx |}.

Definition withHeader (r : Request) (h : Header) : Request :=
  {| Method := Method r; URL := URL r; Header_ := h;
     Body := Body r; Context := Context r |}.

(** [r.URL.Query()] *)
Definition Query (r : Request) : url.Values := url.Query (url.RawQuery (URL r)).

(** A response as the client sees it: the status code and what
    [io.ReadAll] returns on its body.  There is no header: a response
    here carries no [Location], so [http.Client] has nothing to
    follow and returns it as it is, whatever its status. *)
Record Response : Type :=
  { StatusCode : Z; ReadAll : string * option error }.

(** The state of a [ResponseWriter]: the header map, the status once
    written, the bytes written. *)
Record ResponseWriter : Type :=
  { header : Header; status : option Z; written : string }.

Definition newResponseWriter : ResponseWriter :=
  {| header := ∅; status := None; written := "" |}.

Definition Set_ (key value : string) (w : ResponseWriter) : ResponseWriter :=
  {| header := <[key := propagation.Text value]> (header w);
     status := status w; written := written w |}.

Definition Del (key : string) (w : ResponseWriter) : ResponseWriter :=
  {| header := delete key (header w); status := status w; written := written w |}.

(** Only the first [WriteHeader] counts. *)
Definition WriteHeader (code : Z) (w : ResponseWriter) : ResponseWriter :=
  match status w with
  | Some _ => w
  | None => {| header := header w; status := Some code; written := written w |}
  end.

(** [Write] sends the header with [StatusOK] if none was sent. *)
Definition Write (data : string) (w : ResponseWriter) : ResponseWriter :=
  let w' := WriteHeader 200%Z w in
  {| header := header w'; status := status w'; written := written w' +:+ data |}.

Definition StatusBadRequest : Z := 400%Z.
Definition StatusNotFound : Z := 404%Z.
Definition StatusMethodNotAllowed : Z := 405%Z.
Definition StatusUnprocessableEntity : Z := 422%Z.
Definition StatusInternalServerError : Z := 500%Z.
Definition MethodPost : string := "POST".

(** [http.Error] *)
Definition Error (msg : string) (code : Z) (w : ResponseWriter) : ResponseWriter :=
  let w := Del "Content-Length" w in
  let w := Set_ "Content-Type" "text/plain; charset=utf-8" w in
  let w := Set_ "X-Content-Type-Options" "nosniff" w in
  let w := WriteHeader code w in
  Write (msg +:+ String "010" "") w.

(** The status the client receives: [StatusOK] when the handler
    returns without having written one. *)
Definition sentStatus (w : ResponseWriter) : Z := default 200%Z (status w).

(** What the server answers by itself to a request it cannot parse. *)
Definition badRequest : ResponseWriter :=
  {| header := {[ "Content-Type" := propagation.Text "text/plain; charset=utf-8";
                  "Connection" := propagation.Text "close" ]};
     status := Some StatusBadRequest;
     written := "400 Bad Request" |}.

End http.

(** The pattern both services compile: [regexp.MustCompile(`^\d{8}$`)]. *)
Definition cepPattern : regexp.Regexp :=
  regexp.OpConcat regexp.OpBeginText
    (regexp.OpConcat (regexp.OpRepeat 8 8 regexp.perl_d) regexp.OpEndText).

(** ** The process: what a handler reads and changes *)

(** A span as the SDK records it when it is started; a span that is
    not sampled is not recorded. *)
Record SpanData : Type :=
  { Name : string;
    SpanContext : trace.SpanContext;
    Parent : option trace.SpanContext }.

(** What lies outside the program: the random identifiers the SDK
    draws, and the network behind [http.DefaultTransport]. *)
Record Env : Type :=
  { idgen : nat -> positive;
    DefaultTransport : http.Request -> error + http.Response }.

Record Proc : Type :=
  { nextID : nat;
    spans : list SpanData;
    sent : list http.Request;
    w : http.ResponseWriter }.

Definition start : Proc :=
  {| nextID := 0; spans := []; sent := []; w := http.newResponseWriter |}.

Definition M (A : Type) : Type := Env -> Proc -> A * Proc.

Definition ret {A : Type} (a : A) : M A := fun _ p => (a, p).

Definition bind {A B : Type} (m : M A) (f : A -> M B) : M B :=
  fun env p => let (a, p') := m env p in f a env p'.

Notation "'let*' x ':=' m 'in' k" := (bind m (fun x => k))
  (at level 10, x pattern, m at level 100, k at level 200).

(** The handler's writes to [w]. *)
Definition modifyW (f : http.ResponseWriter -> http.ResponseWriter) : M unit :=
  fun _ p =>
    (tt, {| nextID := nextID p; spans := spans p; sent := sent p; w := f (w p) |}).

Definition newID : M positive :=
  fun env p =>
    (idgen env (nextID p),
     {| nextID := S (nextID p); spans := spans p; sent := sent p; w := w p |}).

Definition recordSpan (sd : SpanData) : M unit :=
  fun _ p =>
    (tt, {| nextID := nextID p; spans := spans p ++ [sd]; sent := sent p; w := w p |}).

(** The base transport: the request leaves the process. *)
Definition roundTrip (r : http.Request) : M (error + http.Response) :=
  fun env p =>
    (DefaultTransport env r,
     {| nextID := nextID p; spans := spans p; sent := sent p ++ [r]; w := w p |}).

(** ** The tracer of the SDK *)
Module sdktrace.

(** [tracer.Start(ctx, name)] with the sampler of a provider made
    without one, [ParentBased(AlwaysSample())]: a child of the span
    in [ctx] keeps its trace identifier and its sampled flag, a root
    span draws a new trace identifier and is sampled.  A span
    identifier is drawn in either case, and the span context goes
    into the returned context; only a sampled span is recorded.  The
    span ends when the function that started it returns
    ([defer span.End()]). *)
Definition Start (g : otel.Globals) (ctx : context.Context) (name : string)
  : M context.Context :=
  match otel.tracerProvider g with
  | None => ret ctx
  | Some _ =>
      match context.spanContext ctx with
      | Some parent =>
          let* sid := newID in
          let sc := {| trace.TraceID := trace.TraceID parent; trace.SpanID := sid;
                       trace.Sampled := trace.Sampled parent |} in
          let* _ := if trace.Sampled parent
                    then recordSpan {| Name := name; SpanContext := sc;
                                       Parent := Some parent |}
                    else ret tt in
          ret (context.withSpanContext ctx sc)
      | None =>
          let* tid := newID in
          let* sid := newID in
          let sc := {| trace.TraceID := tid; trace.SpanID := sid;
                       trace.Sampled := true |} in
          let* _ := recordSpan {| Name := name; SpanContext := sc; Parent := None |} in
          ret (context.withSpanContext ctx sc)
      end
  end.

End sdktrace.

(** ** otelhttp: instrumented handlers and transports *)
Module otelhttp.

(** [otelhttp.NewHandler(handler, operation)]: the context is
    extracted from the inbound header with the global propagator, a
    server span is started in it, and the handler runs in the
    context of that span. *)
Definition NewHandler (g : otel.Globals) (handler : http.Request -> M unit)
           (operation : string) (r : http.Request) : M unit :=
  let ctx := propagation.Extract (otel.GetTextMapPropagator g)
                                 (http.Context r) (http.Header_ r) in
  let* ctx := sdktrace.Start g ctx operation in
  handler (http.WithContext r ctx).

(** [client.Do] for a client whose transport is
    [otelhttp.NewTransport(http.DefaultTransport)]: a client span is
    started in the request's context, that context is injected into
    the outbound header with the global propagator, and the request
    goes to the base transport.  The response has no [Location] to
    follow, so there is one round trip.  A failure is given by its
    cause: the [*url.Error] in which the client wraps it, naming the
    method and the URL, is not spelled out. *)
Definition Do (g : otel.Globals) (r : http.Request) : M (error + http.Response) :=
  let* ctx := sdktrace.Start g (http.Context r) ("HTTP " +:+ http.Method r) in
  let h := propagation.Inject (otel.GetTextMapPropagator g) ctx (http.Header_ r) in
  roundTrip (http.withHeader (http.WithContext r ctx) h).

End otelhttp.

(** The server with [mux.Handle(pattern, handler)] for a pattern
    without a trailing slash.  A target whose path has a bad escape
    is refused before the mux sees it; otherwise the decoded path,
    taken to be clean (the mux redirects a path that is not to the
    clean one), must be the pattern. *)
Definition ServeMux (pattern : string) (handler : http.Request -> M unit)
           (r : http.Request) : M unit :=
  match url.Path (http.URL r) with
  | None => modifyW (fun _ => http.badRequest)
  | Some path =>
      if String.eqb path pattern then handler r
      else modifyW (http.Error "404 page not found" http.StatusNotFound)
  end.

(** ** servico-a/main.go *)
Module ServicoA.

Record CepRequest : Type := { Cep : string }.

(** [json.NewDecoder(r.Body).Decode(&req)] for [req] of type
    [CepRequest], whose only field is tagged [json:"cep"]. *)
Definition decodeMember (st : CepRequest * option error)
           (m : string * json.Value) : CepRequest * option error :=
  let (key, v) := m in
  if json.keyMatches "cep" key then
    let (c, saved) :=
      json.storeString "struct field CepRequest.cep of type string"
                       v (Cep (fst st)) (snd st) in
    ({| Cep := c |}, saved)
  else st.

Definition Decode (body : json.Scanned) : error + CepRequest :=
  match body with
  | inl err => inl err
  | inr (json.Object members) =>
      let (req, saved) := fold_left decodeMember members ({| Cep := "" |}, None) in
      match saved with
      | Some err => inl err
      | None => inr req
      end
  | inr json.Null => inr {| Cep := "" |}
  | inr v => inl (json.UnmarshalTypeError v "value of type main.CepRequest")
  end.

Definition validateCEP (cep : string) : bool :=
  let re := cepPattern in
  regexp.MatchString re cep.

(** Only the tracer provider is installed. *)
Definition initTracer (g : otel.Globals) : otel.Globals :=
  otel.SetTracerProvider "servico-a" g.

Definition CepHandler (g : otel.Globals) (r : http.Request) : M unit :=
  let* ctx := sdktrace.Start g (http.Context r) "Processar CEP" in
  if negb (String.eqb (http.Method r) http.MethodPost) then
    modifyW (http.Error "Método não permitido" http.StatusMethodNotAllowed)
  else
    match Decode (http.Body r) with
    | inl err =>
        modifyW (http.Error "invalid request body" http.StatusBadRequest)
    | inr req =>
        if negb (validateCEP (Cep req)) then
          modifyW (http.Error "invalid zipcode" http.StatusUnprocessableEntity)
        else
          let serviceBURL := "http://servico-b:8080/tempo?cep=" +:+ Cep req in
          let reqB := http.NewRequestWithContext ctx "GET" serviceBURL in
          let* res := otelhttp.Do g reqB in
          match res with
          | inl err =>
              modifyW (http.Error "erro ao conectar com serviço B"
                                  http.StatusInternalServerError)
          | inr resp =>
              let (body, _) := http.ReadAll resp in
              let* _ := modifyW (http.Set_ "Content-Type" "application/json") in
              let* _ := modifyW (http.WriteHeader (http.StatusCode resp)) in
              modifyW (http.Write body)
          end
    end.

(** [main]: the globals after [initTracer], and the handler the
    server runs for each request. *)
Definition globals : otel.Globals := initTracer otel.initial.

Definition main : http.Request -> M unit :=
  ServeMux "/cep" (otelhttp.NewHandler globals (CepHandler globals) "CepHandler").

End ServicoA.

(** ** servico-b/main.go *)
Module ServicoB.

Record ViaCEP : Type := { Localidade : string; Uf : string }.

Record OpenMeteoResponse : Type := { Temperature : float }.

Record TempResp : Type :=
  { City : string; TempC : float; TempF : float; TempK : float }.

(** The anonymous struct [geoResult] of [fetchWeather]. *)
Record Coordinates : Type := { Latitude : float; Longitude : float }.
Record GeoResult : Type := { Results : list Coordinates }.

(** The library functions applied to these types: [json.Unmarshal]
    on the three payloads, the encoder on [TempResp] (the bytes and
    the final newline, or the error), and [fmt]'s verb [%.6f]. *)
Record Codec : Type :=
  { Unmarshal_ViaCEP : string -> error + ViaCEP;
    Unmarshal_GeoResult : string -> error + GeoResult;
    Unmarshal_OpenMeteoResponse : string -> error + OpenMeteoResponse;
    Encode_TempResp : TempResp -> error + string;
    Sprintf_f6 : float -> string }.

Definition validateCEP (cep : string) : bool :=
  let re := cepPattern in
  regexp.MatchString re cep.

Definition convertTemps (celsius : float) (cidade : string) : TempResp :=
  {| City := cidade;
     TempC := celsius;
     TempF := celsius * 1.8 + 32;
     TempK := celsius + 273 |}%float.

(** The tracer provider and the propagator are installed. *)
Definition initTracer (g : otel.Globals) : otel.Globals :=
  let g := otel.SetTracerProvider "servico-b" g in
  otel.SetTextMapPropagator [propagation.TraceContext; propagation.Baggage] g.

Section Handlers.

Variable codec : Codec.
Variable g : otel.Globals.

Definition BuscaCEP (ctx : context.Context) (cep : string) : M (error + ViaCEP) :=
  let* ctx := sdktrace.Start g ctx "ViaCEP API" in
  let req := http.NewRequestWithContext
               ctx "GET" ("https://viacep.com.br/ws/" +:+ cep +:+ "/json/") in
  let* res := otelhttp.Do g req in
  match res with
  | inl err => ret (inl err)
  | inr resp =>
      match http.ReadAll resp with
      | (_, Some err) => ret (inl err)
      | (body, None) =>
          match Unmarshal_ViaCEP codec body with
          | inl err => ret (inl err)
          | inr c => ret (inr c)
          end
      end
  end.

Definition fetchWeather (ctx : context.Context) (cidade : string) : M (error + float) :=
  let* ctx := sdktrace.Start g ctx "Buscar clima Open-Meteo" in
  let geoAPIURL :=
    "https://geocoding-api.open-meteo.com/v1/search?name="
      +:+ url.QueryEscape cidade +:+ "&count=1&language=pt&format=json" in
  let reqGeo := http.NewRequestWithContext ctx "GET" geoAPIURL in
  let* resGeo := otelhttp.Do g reqGeo in
  match resGeo with
  | inl err => ret (inl err)
  | inr respGeo =>
      match http.ReadAll respGeo with
      | (_, Some err) => ret (inl err)
      | (bodyGeo, None) =>
          match Unmarshal_GeoResult codec bodyGeo with
          | inl err => ret (inl err)
          | inr geoResult =>
              match Results geoResult with
              | [] =>
                  ret (inl ("não foi possível encontrar coordenadas para a cidade: "
                              +:+ cidade))
              | first :: _ =>
                  let latitude := Latitude first in
                  let longitude := Longitude first in
                  let weatherURL :=
                    "https://api.open-meteo.com/v1/forecast?latitude="
                      +:+ Sprintf_f6 codec latitude +:+ "&longitude="
                      +:+ Sprintf_f6 codec longitude +:+ "&current_weather=true" in
                  let reqWeather := http.NewRequestWithContext ctx "GET" weatherURL in
                  let* resWeather := otelhttp.Do g reqWeather in
                  match resWeather with
                  | inl err => ret (inl err)
                  | inr respWeather =>
                      match http.ReadAll respWeather with
                      | (_, Some err) => ret (inl err)
                      | (body, None) =>
                          match Unmarshal_OpenMeteoResponse codec body with
                          | inl err => ret (inl err)
                          | inr weatherData => ret (inr (Temperature weatherData))
                          end
                      end
                  end
              end
          end
      end
  end.

(** [json.NewEncoder(w).Encode(temps)]: nothing is written when the
    value cannot be encoded. *)
Definition Encode (temps : TempResp) : M unit :=
  match Encode_TempResp codec temps with
  | inl _ => ret tt
  | inr bytes => modifyW (http.Write bytes)
  end.

(** The lines written with [log.Printf] are not part of the state. *)
Definition WeatherHandler (r : http.Request) : M unit :=
  let* ctx := sdktrace.Start g (http.Context r) "Processar tempo por CEP" in
  let cepParam := url.Get (http.Query r) "cep" in
  if negb (validateCEP cepParam) then
    modifyW (http.Error "invalid zipcode" http.StatusUnprocessableEntity)
  else
    let* res := BuscaCEP ctx cepParam in
    match res with
    | inl err => modifyW (http.Error "can not find zipcode" http.StatusNotFound)
    | inr cepData =>
        if String.eqb (Localidade cepData) "" then
          modifyW (http.Error "can not find zipcode" http.StatusNotFound)
        else
          let* res := fetchWeather ctx (Localidade cepData) in
          match res with
          | inl err =>
              modifyW (http.Error "erro ao buscar temperatura"
                                  http.StatusInternalServerError)
          | inr tempC =>
              let temps := convertTemps tempC (Localidade cepData) in
              let* _ := modifyW (http.Set_ "Content-Type" "application/json") in
              Encode temps
          end
    end.

End Handlers.

Definition globals : otel.Globals := initTracer otel.initial.

Definition main (codec : Codec) : http.Request -> M unit :=
  ServeMux "/tempo"
           (otelhttp.NewHandler globals (WeatherHandler codec globals) "WeatherHandler").

End ServicoB.

(** ** The two services on one network *)
Module System.

Fixpoint trimPrefix (prefix s : string) : option string :=
  match prefix, s with
  | EmptyString, _ => Some s
  | String a prefix', String b s' =>
      if Ascii.eqb a b then trimPrefix prefix' s' else None
  | String _ _, EmptyString => None
  end.

(** What a server answers, as its client reads it. *)
Definition response (p : Proc) : http.Response :=
  {| http.StatusCode := http.sentStatus (w p);
     http.ReadAll := (http.written (w p), None) |}.

(** The request servico-b receives for a request sent to its
    address: same method and header fields, the request target in
    place of the URL, a fresh background context. *)
Definition inbound (r : http.Request) (target : string) : http.Request :=
  {| http.Method := http.Method r;
     http.URL := target;
     http.Header_ := http.Header_ r;
     http.Body := http.Body r;
     http.Context := context.Background |}.

(** The run of servico-b on a request sent by the gateway. *)
Definition orchestrator (codec : ServicoB.Codec) (envB : Env) (r : http.Request)
  : option Proc :=
  match trimPrefix "http://servico-b:8080" (http.URL r) with
  | Some target => Some (snd (ServicoB.main codec (inbound r target) envB start))
  | None => None
  end.

(** The network of the gateway: servico-b at its address, nothing else. *)
Definition network (codec : ServicoB.Codec) (envB : Env) (r : http.Request)
  : error + http.Response :=
  match orchestrator codec envB r with
  | Some p => inr (response p)
  | None => inl "dial tcp: no such host"
  end.

(** The runs of servico-b that the requests sent in [p] set off. *)
Definition orchestratorRuns (codec : ServicoB.Codec) (envB : Env) (p : Proc)
  : list Proc :=
  omap (orchestrator codec envB) (sent p).

Definition gateway (idsA : nat -> positive) (codec : ServicoB.Codec) (envB : Env)
           (r : http.Request) : Proc :=
  snd (ServicoA.main r {| idgen := idsA; DefaultTransport := network codec envB |} start).

End System.

(** ** Vocabulary of the properties *)

(** The addresses the orchestrator calls. *)
Definition viacepURL (cep : string) : string :=
  "https://viacep.com.br/ws/" +:+ cep +:+ "/json/".

Definition geocodingURL (cidade : string) : string :=
  "https://geocoding-api.open-meteo.com/v1/search?name="
    +:+ url.QueryEscape cidade +:+ "&count=1&language=pt&format=json".

Definition forecastURL (codec : ServicoB.Codec) (at_ : ServicoB.Coordinates) : string :=
  "https://api.open-meteo.com/v1/forecast?latitude="
    +:+ ServicoB.Sprintf_f6 codec (ServicoB.Latitude at_) +:+ "&longitude="
    +:+ ServicoB.Sprintf_f6 codec (ServicoB.Longitude at_) +:+ "&current_weather=true".

(** The address the gateway calls. *)
Definition tempoURL (cep : string) : string :=
  "http://servico-b:8080/tempo?cep=" +:+ cep.

(** The network answers every request to [u] in a way that satisfies [P]. *)
Definition answers (env : Env) (u : string) (P : error + http.Response -> Prop) : Prop :=
  forall req, http.URL req = u -> P (DefaultTransport env req).

(** An answer read to its end and decoded: the transport's error, the
    error of reading the body, the decoder's error, or the value. *)
Definition decoded {A : Type} (Unmarshal : string -> error + A)
           (ans : error + http.Response) : error + A :=
  match ans with
  | inl err => inl err
  | inr resp =>
      match http.ReadAll resp with
      | (_, Some err) => inl err
      | (body, None) => Unmarshal body
      end
  end.

(** The query parameter the orchestrator validates. *)
Definition cepParam (r : http.Request) : string := url.Get (http.Query r) "cep".

Definition setMethod (method : string) (r : http.Request) : http.Request :=
  {| http.Method := method; http.URL := http.URL r; http.Header_ := http.Header_ r;
     http.Body := http.Body r; http.Context := http.Context r |}.

(** The error [fetchWeather] makes when the geocoder knows no place
    of that name. *)
Definition coordinatesNotFound (cidade : string) : error :=
  "não foi possível encontrar coordenadas para a cidade: " +:+ cidade.

Definition temperatureOf (res : error + ServicoB.OpenMeteoResponse) : error + float :=
  match res with
  | inl err => inl err
  | inr weatherData => inr (ServicoB.Temperature weatherData)
  end.

(** What the tracing backend sees of a run: each span with its trace
    identifier, and the trace identifier announced to each callee. *)
Definition traces (p : Proc) : list (string * positive) :=
  map (fun sd => (Name sd, trace.TraceID (SpanContext sd))) (spans p).

Definition traceparent (r : http.Request) : option positive :=
  match http.Header_ r !! "Traceparent" with
  | Some (propagation.TraceParent sc) => Some (trace.TraceID sc)
  | _ => None
  end.

(** From [p] to [p'] every span started and every request sent
    belongs to trace [t]. *)
Definition carries (t : positive) (p p' : Proc) : Prop :=
  exists newSpans newSent,
    spans p' = spans p ++ newSpans
    /\ sent p' = sent p ++ newSent
    /\ Forall (fun sd => trace.TraceID (SpanContext sd) = t) newSpans
    /\ Forall (fun o => traceparent o = Some t) newSent.

(** The current span of [ctx] belongs to trace [t]. *)
Definition inTrace (t : positive) (ctx : context.Context) : Prop :=
  exists sc, context.spanContext ctx = Some sc /\ trace.TraceID sc = t.

(** A step that stays in trace [t] and returns a value satisfying [Q]. *)
Definition staysIn {A : Type} (t : positive) (m : M A) (Q : A -> Prop) : Prop :=
  forall env p, carries t p (snd (m env p)) /\ Q (fst (m env p)).

(** The ways in which the coordinate and weather stages fail for a
    city, each with the error [fetchWeather] returns: the call to the
    geocoder fails (in transport, while its body is read, or in
    decoding); it succeeds with no result; or it gives coordinates
    and the call to the forecast fails in one of those three ways. *)
Inductive WeatherStageFails (codec : ServicoB.Codec) (env : Env) (cidade : string)
  : error -> Prop :=
| geocoder_fails err :
    answers env (geocodingURL cidade)
            (fun ans => decoded (ServicoB.Unmarshal_GeoResult codec) ans = inl err) ->
    WeatherStageFails codec env cidade err
| no_coordinates :
    answers env (geocodingURL cidade)
            (fun ans => exists geoResult,
                 decoded (ServicoB.Unmarshal_GeoResult codec) ans = inr geoResult
                 /\ ServicoB.Results geoResult = []) ->
    WeatherStageFails codec env cidade (coordinatesNotFound cidade)
| forecast_fails first err :
    answers env (geocodingURL cidade)
            (fun ans => exists geoResult rest,
                 decoded (ServicoB.Unmarshal_GeoResult codec) ans = inr geoResult
                 /\ ServicoB.Results geoResult = first :: rest) ->
    answers env (forecastURL codec first)
            (fun ans => decoded (ServicoB.Unmarshal_OpenMeteoResponse codec) ans = inl err) ->
    WeatherStageFails codec env cidade err.

(** ** Sample worlds, on which the properties are exercised *)
Module Sample.

Definition ids (base : nat) (n : nat) : positive := Pos.of_nat (base + n).

(** Bodies are short tokens; the codec reads them as the payloads
    they stand for. *)
Definition codec : ServicoB.Codec :=
  {| ServicoB.Unmarshal_ViaCEP := fun body =>
       if String.eqb body "sao-paulo" then
         inr {| ServicoB.Localidade := "São Paulo"; ServicoB.Uf := "SP" |}
       else if String.eqb body "empty" then
         inr {| ServicoB.Localidade := ""; ServicoB.Uf := "" |}
       else inl "invalid character";
     ServicoB.Unmarshal_GeoResult := fun body =>
       if String.eqb body "one-match" then
         inr {| ServicoB.Results :=
                  [{| ServicoB.Latitude := (-23.5475)%float;
                      ServicoB.Longitude := (-46.63611)%float |}] |}
       else if String.eqb body "empty" then inr {| ServicoB.Results := [] |}
       else inl "invalid character";
     ServicoB.Unmarshal_OpenMeteoResponse := fun body =>
       if String.eqb body "25-degrees" then inr {| ServicoB.Temperature := 25%float |}
       else inl "invalid character";
     ServicoB.Encode_TempResp := fun temps => inr ("report" +:+ String "010" "");
     ServicoB.Sprintf_f6 := fun x =>
       if (x =? -23.5475)%float then "-23.547500" else "-46.636110" |}.

Definition ok (body : string) : error + http.Response :=
  inr {| http.StatusCode := 200; http.ReadAll := (body, None) |}.

(** The three collaborators of servico-b, each with its answer. *)
Definition collaborators (directory geocoder forecast : error + http.Response)
           (r : http.Request) : error + http.Response :=
  if String.prefix "https://viacep.com.br/" (http.URL r) then directory
  else if String.prefix "https://geocoding-api.open-meteo.com/" (http.URL r) then geocoder
  else forecast.

Definition refused : error + http.Response := inl "dial tcp: connection refused".

Definition world (directory geocoder forecast : error + http.Response) : Env :=
  {| idgen := ids 200;
     DefaultTransport := collaborators directory geocoder forecast |}.

Definition allUp : Env := world (ok "sao-paulo") (ok "one-match") (ok "25-degrees").
Definition directoryDown : Env := world refused (ok "one-match") (ok "25-degrees").
Definition unknownCep : Env := world (ok "empty") (ok "one-match") (ok "25-degrees").
Definition unknownCity : Env := world (ok "sao-paulo") (ok "empty") (ok "25-degrees").
Definition forecastDown : Env := world (ok "sao-paulo") (ok "one-match") refused.

(** A gateway whose servico-b answers [answer] to everything. *)
Definition behind (answer : error + http.Response) : Env :=
  {| idgen := ids 100; DefaultTransport := fun _ => answer |}.

Definition get (target : string) : http.Request :=
  {| http.Method := "GET"; http.URL := target; http.Header_ := ∅;
     http.Body := inl "EOF"; http.Context := context.Background |}.

Definition post (target : string) (body : json.Scanned) : http.Request :=
  {| http.Method := "POST"; http.URL := target; http.Header_ := ∅;
     http.Body := body; http.Context := context.Background |}.

Definition cepBody (cep : string) : json.Scanned :=
  inr (json.Object [("cep", json.Str cep)]).

End Sample.

(** Every byte of [s] is one that [QueryEscape] leaves as it is. *)
Fixpoint unreserved (s : string) : bool :=
  match s with
  | EmptyString => true
  | String c s' => negb (url.shouldEscape c) && unreserved s'
  end.

(** Every byte of [s] is unreserved, a percent sign or a plus sign:
    the alphabet of escaped text. *)
Fixpoint escapedText (s : string) : bool :=
  match s with
  | EmptyString => true
  | String c s' =>
      (negb (url.shouldEscape c) || Ascii.eqb c "%" || Ascii.eqb c "+")
      && escapedText s'
  end.

(** Two answers that differ at most in their status code. *)
Definition sameBody (a b : error + http.Response) : Prop :=
  match a, b with
  | inl e, inl e' => e = e'
  | inr x, inr y => http.ReadAll x = http.ReadAll y
  | _, _ => False
  end.

(** From [p] to [p'] every span started satisfies [S] and every
    request sent satisfies [O]. *)
Definition keeps (S : SpanData -> Prop) (O : http.Request -> Prop) (p p' : Proc) : Prop :=
  exists newSpans newSent,
    spans p' = spans p ++ newSpans
    /\ sent p' = sent p ++ newSent
    /\ Forall S newSpans
    /\ Forall O newSent.

(** A step that keeps [S] and [O] and returns a value satisfying [Q]. *)
Definition respects {A : Type} (S : SpanData -> Prop) (O : http.Request -> Prop)
           (m : M A) (Q : A -> Prop) : Prop :=
  forall env p, keeps S O p (snd (m env p)) /\ Q (fst (m env p)).

(** A request with one more header field. *)
Definition withField (key : string) (v : propagation.FieldValue) (r : http.Request)
  : http.Request :=
  http.withHeader r (<[key := v]> (http.Header_ r)).

(** The span [sd] is a child of the span context [parent], under the
    name [name]. *)
Definition child (name : string) (parent : trace.SpanContext) (sd : SpanData) : Prop :=
  Name sd = name
  /\ Parent sd = Some parent
  /\ trace.TraceID (SpanContext sd) = trace.TraceID parent.

(** The request [o] names the span [sd] as the parent of what the
    callee will start. *)
Definition announces (sd : SpanData) (o : http.Request) : Prop :=
  http.Header_ o !! "Traceparent" = Some (propagation.TraceParent (SpanContext sd)).

(** The [Baggage] field the propagator writes for a baggage: none
    when there is no member. *)
Definition baggageField (b : baggage.Baggage) : option propagation.FieldValue :=
  if decide (b = ∅) then None else Some (propagation.Members b).

(** The status codes on which [http.Client] follows the [Location]
    of a response. *)
Definition redirects (code : Z) : bool :=
  ((code =? 301) || (code =? 302) || (code =? 303) || (code =? 307) || (code =? 308))%Z.

(** An answer that is no redirect, and a network that gives no
    other: whatever the header of an answer holds, the client has one
    round trip with it. *)
Definition directAnswer (ans : error + http.Response) : Prop :=
  match ans with
  | inl _ => True
  | inr resp => redirects (http.StatusCode resp) = false
  end.

Definition direct (env : Env) : Prop :=
  forall req, directAnswer (DefaultTransport env req).

(** The text of a JSON string without escapes, and the text of the
    object with the one member [cep]. *)
Definition quoted (s : string) : string := String json.quote (s +:+ String json.quote "").

Definition cepObject (cep : string) : string :=
  "{" +:+ quoted "cep" +:+ ":" +:+ quoted cep +:+ "}".

(** A JSON value that a Go string cannot take: anything but a string
    and [null]. *)
Definition wrongType (v : json.Value) : bool :=
  match v with
  | json.Null | json.Str _ => false
  | _ => true
  end.

(** Whole numbers as binary64 values, exact below 2^53. *)
Fixpoint ofPos (n : positive) : float :=
  match n with
  | xH => 1%float
  | xO n => (2 * ofPos n)%float
  | xI n => (2 * ofPos n + 1)%float
  end.

Definition ofZ (z : Z) : float :=
  match z with
  | Z0 => 0%float
  | Zpos n => ofPos n
  | Zneg n => (- ofPos n)%float
  end.

(** The binary64 value nearest to [k/10]: what a decimal literal with
    one digit after the point is parsed to. *)
Definition tenths (k : Z) : float := (ofZ k / 10)%float.

(** [f] holds on the [n] integers from [lo] on. *)
Fixpoint allFrom (lo : Z) (n : nat) (f : Z -> bool) : bool :=
  match n with
  | O => true
  | S n => f lo && allFrom (lo + 1) n f
  end.

(** A decimal digit, as a byte. *)
Definition isDigit (c : ascii) : Prop := (48 <= N_of_ascii c <= 57)%N.

Lemma inClass_digit c : regexp.inClass [(48, 57)%N] c = true <-> isDigit c.
Proof.
  unfold regexp.inClass, isDigit; simpl.
  rewrite orb_false_r, andb_true_iff, !N.leb_le. tauto.
Qed.

Lemma search_not_bot s :
  regexp.search cepPattern false s = false.
Proof.
  induction s as [|c s IH]; simpl; [reflexivity|].
  rewrite IH. reflexivity.
Qed.

Lemma search_bot s :
  regexp.search cepPattern true s = regexp.matchK cepPattern true s (fun _ _ => true).
Proof.
  destruct s as [|c s]; cbn [regexp.search]; [apply orb_false_r|].
  rewrite search_not_bot. apply orb_false_r.
Qed.

Lemma validate_spec s :
  ServicoA.validateCEP s = true <->
  String.length s = 8 /\ Forall isDigit (list_ascii_of_string s).
Proof.
  unfold ServicoA.validateCEP, regexp.MatchString.
  rewrite search_bot.
  destruct s as [|c1 [|c2 [|c3 [|c4 [|c5 [|c6 [|c7 [|c8 [|c9 s]]]]]]]]];
    cbn -[regexp.inClass];
    rewrite ?andb_true_iff, ?inClass_digit;
    (split; [intros H | intros [Hl HF]]);
    try discriminate; try (intuition discriminate).
  - split; [reflexivity|]. repeat (apply List.Forall_cons; [tauto|]). apply List.Forall_nil.
  - repeat match goal with
           | H : Forall _ (_ :: _) |- _ => inversion H; clear H; subst
           end.
    tauto.
Qed.

(** ** Runs of the monadic steps *)

Lemma Start_frame g ctx name env p :
  sent (snd (sdktrace.Start g ctx name env p)) = sent p
  /\ w (snd (sdktrace.Start g ctx name env p)) = w p.
Proof.
  unfold sdktrace.Start.
  destruct (otel.tracerProvider g); [|split; reflexivity].
  destruct (context.spanContext ctx) as [parent|]; [|split; reflexivity].
  destruct (trace.Sampled parent); split; reflexivity.
Qed.

Lemma Do_run g r env p :
  exists r' p',
    otelhttp.Do g r env p = (DefaultTransport env r', p')
    /\ http.URL r' = http.URL r
    /\ http.Method r' = http.Method r
    /\ sent p' = sent p ++ [r']
    /\ w p' = w p
    /\ exists ctx,
        http.Header_ r'
        = propagation.Inject (otel.GetTextMapPropagator g) ctx (http.Header_ r).
Proof.
  unfold otelhttp.Do, bind.
  destruct (sdktrace.Start g (http.Context r) ("HTTP " +:+ http.Method r) env p)
    as [ctx p1] eqn:E.
  pose proof (Start_frame g (http.Context r) ("HTTP " +:+ http.Method r) env p) as [Hs Hw].
  rewrite E in Hs, Hw; simpl in Hs, Hw.
  eexists _, _; split; [reflexivity|].
  simpl. rewrite Hs, Hw. repeat split. exists ctx. reflexivity.
Qed.

Lemma BuscaCEP_run codec g ctx cep env p :
  exists req p',
    ServicoB.BuscaCEP codec g ctx cep env p
    = (decoded (ServicoB.Unmarshal_ViaCEP codec) (DefaultTransport env req), p')
    /\ http.URL req = viacepURL cep
    /\ sent p' = sent p ++ [req]
    /\ w p' = w p.
Proof.
  unfold ServicoB.BuscaCEP, bind.
  destruct (sdktrace.Start g ctx "ViaCEP API" env p) as [ctx1 p1] eqn:E.
  pose proof (Start_frame g ctx "ViaCEP API" env p) as [Hs Hw].
  rewrite E in Hs, Hw; simpl in Hs, Hw.
  destruct (Do_run g (http.NewRequestWithContext ctx1 "GET"
                        ("https://viacep.com.br/ws/" +:+ cep +:+ "/json/")) env p1)
    as (req & p2 & HD & HU & _ & Hs2 & Hw2 & _).
  rewrite HD. exists req, p2.
  rewrite Hs2, Hw2, Hs, Hw. split; [|auto].
  unfold decoded.
  destruct (DefaultTransport env req) as [err|resp]; [reflexivity|].
  destruct (http.ReadAll resp) as [body [err|]]; [reflexivity|].
  destruct (ServicoB.Unmarshal_ViaCEP codec body); reflexivity.
Qed.

Lemma fetchWeather_run codec g ctx cidade env p :
  exists reqGeo,
    http.URL reqGeo = geocodingURL cidade /\
    match decoded (ServicoB.Unmarshal_GeoResult codec) (DefaultTransport env reqGeo) with
    | inl err =>
        exists p',
          ServicoB.fetchWeather codec g ctx cidade env p = (inl err, p')
          /\ sent p' = sent p ++ [reqGeo] /\ w p' = w p
    | inr geoResult =>
        match ServicoB.Results geoResult with
        | [] =>
            exists p',
              ServicoB.fetchWeather codec g ctx cidade env p
              = (inl (coordinatesNotFound cidade), p')
              /\ sent p' = sent p ++ [reqGeo] /\ w p' = w p
        | first :: _ =>
            exists reqWeather p',
              http.URL reqWeather = forecastURL codec first
              /\ ServicoB.fetchWeather codec g ctx cidade env p
                 = (temperatureOf
                      (decoded (ServicoB.Unmarshal_OpenMeteoResponse codec)
                               (DefaultTransport env reqWeather)), p')
              /\ sent p' = sent p ++ [reqGeo; reqWeather] /\ w p' = w p
        end
    end.
Proof.
  unfold ServicoB.fetchWeather, bind.
  destruct (sdktrace.Start g ctx "Buscar clima Open-Meteo" env p) as [ctx1 p1] eqn:E.
  pose proof (Start_frame g ctx "Buscar clima Open-Meteo" env p) as [Hs Hw].
  rewrite E in Hs, Hw; simpl in Hs, Hw.
  match goal with
  | |- context [otelhttp.Do g ?r env p1] =>
      destruct (Do_run g r env p1) as (reqGeo & p2 & HD & HU & _ & Hs2 & Hw2 & _)
  end.
  rewrite HD. exists reqGeo. split; [exact HU|].
  unfold decoded at 1.
  destruct (DefaultTransport env reqGeo) as [err|respGeo].
  { exists p2. rewrite Hs2, Hw2, Hs, Hw. auto. }
  destruct (http.ReadAll respGeo) as [bodyGeo [err|]].
  { exists p2. rewrite Hs2, Hw2, Hs, Hw. auto. }
  destruct (ServicoB.Unmarshal_GeoResult codec bodyGeo) as [err|geoResult].
  { exists p2. rewrite Hs2, Hw2, Hs, Hw. auto. }
  destruct (ServicoB.Results geoResult) as [|first rest].
  { exists p2. rewrite Hs2, Hw2, Hs, Hw. auto. }
  match goal with
  | |- context [otelhttp.Do g ?r env p2] =>
      destruct (Do_run g r env p2) as (reqW & p3 & HD3 & HU3 & _ & Hs3 & Hw3 & _)
  end.
  rewrite HD3. exists reqW, p3.
  rewrite Hs3, Hw3, Hs2, Hw2, Hs, Hw, <- app_assoc.
  split; [exact HU3|]. split; [|auto].
  unfold decoded, temperatureOf.
  destruct (DefaultTransport env reqW) as [err|respW]; [reflexivity|].
  destruct (http.ReadAll respW) as [body [err|]]; [reflexivity|].
  destruct (ServicoB.Unmarshal_OpenMeteoResponse codec body); reflexivity.
Qed.

(** The whole of [WeatherHandler], stage by stage: what is written to
    [w] and which requests leave, as decided by the network's answers. *)
Lemma WeatherHandler_run codec g r env p :
  let p' := snd (ServicoB.WeatherHandler codec g r env p) in
  if ServicoB.validateCEP (cepParam r) then
    exists reqCep,
      http.URL reqCep = viacepURL (cepParam r) /\
      let notFound :=
        w p' = http.Error "can not find zipcode" http.StatusNotFound (w p)
        /\ sent p' = sent p ++ [reqCep] in
      match decoded (ServicoB.Unmarshal_ViaCEP codec) (DefaultTransport env reqCep) with
      | inl _ => notFound
      | inr cepData =>
          let cidade := ServicoB.Localidade cepData in
          if String.eqb cidade "" then notFound
          else
            exists reqGeo,
              http.URL reqGeo = geocodingURL cidade /\
              let failed (rest : list http.Request) :=
                w p' = http.Error "erro ao buscar temperatura"
                                  http.StatusInternalServerError (w p)
                /\ sent p' = sent p ++ reqCep :: reqGeo :: rest in
              match decoded (ServicoB.Unmarshal_GeoResult codec)
                            (DefaultTransport env reqGeo) with
              | inl _ => failed []
              | inr geoResult =>
                  match ServicoB.Results geoResult with
                  | [] => failed []
                  | first :: _ =>
                      exists reqWeather,
                        http.URL reqWeather = forecastURL codec first /\
                        match decoded (ServicoB.Unmarshal_OpenMeteoResponse codec)
                                      (DefaultTransport env reqWeather) with
                        | inl _ => failed [reqWeather]
                        | inr weatherData =>
                            let temps :=
                              ServicoB.convertTemps (ServicoB.Temperature weatherData)
                                                    cidade in
                            let w1 := http.Set_ "Content-Type" "application/json" (w p) in
                            w p' = match ServicoB.Encode_TempResp codec temps with
                                   | inl _ => w1
                                   | inr bytes => http.Write bytes w1
                                   end
                            /\ sent p' = sent p ++ [reqCep; reqGeo; reqWeather]
                        end
                  end
              end
      end
  else
    w p' = http.Error "invalid zipcode" http.StatusUnprocessableEntity (w p)
    /\ sent p' = sent p.
Proof.
  unfold ServicoB.WeatherHandler, bind. fold (cepParam r).
  destruct (sdktrace.Start g (http.Context r) "Processar tempo por CEP" env p)
    as [ctx p1] eqn:E.
  pose proof (Start_frame g (http.Context r) "Processar tempo por CEP" env p) as [Hs Hw].
  rewrite E in Hs, Hw; simpl in Hs, Hw.
  destruct (ServicoB.validateCEP (cepParam r)); cbn [negb].
  2:{ simpl. rewrite Hs, Hw. auto. }
  destruct (BuscaCEP_run codec g ctx (cepParam r) env p1)
    as (reqCep & p2 & HB & HU & Hs2 & Hw2).
  rewrite HB. exists reqCep. split; [exact HU|].
  rewrite Hs in Hs2. rewrite Hw in Hw2.
  destruct (decoded (ServicoB.Unmarshal_ViaCEP codec) (DefaultTransport env reqCep))
    as [err|cepData]; cbn zeta.
  { simpl. rewrite Hs2, Hw2. auto. }
  destruct (String.eqb (ServicoB.Localidade cepData) "").
  { simpl. rewrite Hs2, Hw2. auto. }
  destruct (fetchWeather_run codec g ctx (ServicoB.Localidade cepData) env p2)
    as (reqGeo & HUg & HF).
  exists reqGeo. split; [exact HUg|].
  destruct (decoded (ServicoB.Unmarshal_GeoResult codec) (DefaultTransport env reqGeo))
    as [err|geoResult].
  { destruct HF as (p3 & HF & Hs3 & Hw3). rewrite HF. simpl.
    rewrite Hs3, Hw3, Hs2, Hw2, <- app_assoc. auto. }
  destruct (ServicoB.Results geoResult) as [|first rest].
  { destruct HF as (p3 & HF & Hs3 & Hw3). rewrite HF. simpl.
    rewrite Hs3, Hw3, Hs2, Hw2, <- app_assoc. auto. }
  destruct HF as (reqW & p3 & HUw & HF & Hs3 & Hw3).
  exists reqW. split; [exact HUw|]. rewrite HF.
  destruct (decoded (ServicoB.Unmarshal_OpenMeteoResponse codec) (DefaultTransport env reqW))
    as [err|weatherData]; simpl.
  { rewrite Hs3, Hw3, Hs2, Hw2, <- app_assoc. auto. }
  unfold ServicoB.Encode.
  destruct (ServicoB.Encode_TempResp codec _) as [err|bytes]; simpl;
    rewrite Hs3, Hw3, Hs2, Hw2, <- app_assoc; auto.
Qed.

(** The whole of [CepHandler], check by check. *)
Lemma CepHandler_run g r env p :
  let p' := snd (ServicoA.CepHandler g r env p) in
  if String.eqb (http.Method r) http.MethodPost then
    match ServicoA.Decode (http.Body r) with
    | inl _ =>
        w p' = http.Error "invalid request body" http.StatusBadRequest (w p)
        /\ sent p' = sent p
    | inr req =>
        if ServicoA.validateCEP (ServicoA.Cep req) then
          exists reqB,
            http.URL reqB = tempoURL (ServicoA.Cep req)
            /\ http.Method reqB = "GET"
            /\ (exists ctx, http.Header_ reqB
                            = propagation.Inject (otel.GetTextMapPropagator g) ctx ∅)
            /\ sent p' = sent p ++ [reqB]
            /\ w p' = match DefaultTransport env reqB with
                      | inl _ =>
                          http.Error "erro ao conectar com serviço B"
                                     http.StatusInternalServerError (w p)
                      | inr resp =>
                          http.Write (fst (http.ReadAll resp))
                            (http.WriteHeader (http.StatusCode resp)
                               (http.Set_ "Content-Type" "application/json" (w p)))
                      end
        else
          w p' = http.Error "invalid zipcode" http.StatusUnprocessableEntity (w p)
          /\ sent p' = sent p
    end
  else
    w p' = http.Error "Método não permitido" http.StatusMethodNotAllowed (w p)
    /\ sent p' = sent p.
Proof.
  unfold ServicoA.CepHandler, bind.
  destruct (sdktrace.Start g (http.Context r) "Processar CEP" env p) as [ctx p1] eqn:E.
  pose proof (Start_frame g (http.Context r) "Processar CEP" env p) as [Hs Hw].
  rewrite E in Hs, Hw; simpl in Hs, Hw.
  destruct (String.eqb (http.Method r) http.MethodPost); cbn [negb].
  2:{ simpl. rewrite Hs, Hw. auto. }
  destruct (ServicoA.Decode (http.Body r)) as [err|req].
  { simpl. rewrite Hs, Hw. auto. }
  destruct (ServicoA.validateCEP (ServicoA.Cep req)); cbn [negb].
  2:{ simpl. rewrite Hs, Hw. auto. }
  destruct (Do_run g (http.NewRequestWithContext ctx "GET"
                        ("http://servico-b:8080/tempo?cep=" +:+ ServicoA.Cep req)) env p1)
    as (reqB & p2 & HD & HU & HM & Hs2 & Hw2 & HH).
  rewrite HD. exists reqB.
  split; [exact HU|]. split; [exact HM|]. split; [exact HH|].
  destruct (DefaultTransport env reqB) as [err|resp].
  { simpl. rewrite Hs2, Hw2, Hs, Hw. auto. }
  destruct (http.ReadAll resp) as [body rerr]; simpl.
  rewrite Hs2, Hw2, Hs, Hw. auto.
Qed.

(** ** The bytes of a request body *)

Ltac each_byte c := destruct c as [[] [] [] [] [] [] [] []].

Lemma append_nil s : "" +:+ s = s.
Proof. reflexivity. Qed.

Lemma append_cons c a s : String c a +:+ s = String c (a +:+ s).
Proof. reflexivity. Qed.

Lemma append_assoc' a b c : (a +:+ b) +:+ c = a +:+ (b +:+ c).
Proof.
  induction a as [|x a IH]; rewrite ?append_nil, ?append_cons; [reflexivity|].
  rewrite IH. reflexivity.
Qed.

(** A digit inside a string literal stands for itself. *)
Lemma stringBody_digit c s :
  isDigit c ->
  json.stringBody 0 (String c s) = json.then_ (String c) (json.stringBody 0 s).
Proof.
  intros H. apply inClass_digit in H. revert H.
  each_byte c; cbn; intros H; try discriminate H; reflexivity.
Qed.

Lemma stringBody_digits s rest :
  Forall isDigit (list_ascii_of_string s) ->
  json.stringBody 0 (s +:+ String json.quote rest) = inr (s, rest).
Proof.
  induction s as [|c s IH]; intros H; [reflexivity|].
  cbn in H. inversion H as [|? ? Hc Hrest]; subst.
  rewrite append_cons, (stringBody_digit c _ Hc), (IH Hrest). reflexivity.
Qed.

Lemma value_string d s :
  json.value d (String json.quote s) = json.then_ json.Str (json.stringBody 0 s).
Proof. destruct d; reflexivity. Qed.

Lemma value_cepObject d cep rest :
  Forall isDigit (list_ascii_of_string cep) ->
  json.value (S d)
    (String "{" (String json.quote
       ("cep" +:+ String json.quote
          (String ":" (String json.quote
             (cep +:+ String json.quote (String "}" rest)))))))
  = inr (json.Object [("cep", json.Str cep)], rest).
Proof.
  intros Hcep.
  cbn [json.value json.skipSpace json.isSpace Ascii.eqb Bool.eqb json.quote].
  cbn [json.members json.skipSpace json.isSpace Ascii.eqb Bool.eqb json.quote].
  match goal with
  | |- context [json.stringBody 0 ("cep" +:+ String json.quote ?t)] =>
      change (json.stringBody 0 ("cep" +:+ String json.quote t)) with
        (inr ("cep", t) : json.Read string)
  end.
  cbn [json.skipSpace json.isSpace].
  rewrite value_string, (stringBody_digits cep _ Hcep).
  reflexivity.
Qed.

(** Whatever follows the object in the body, the decoder reads the
    object. *)
Lemma readValue_cepObject cep rest :
  ServicoA.validateCEP cep = true ->
  json.readValue (cepObject cep +:+ rest) = inr (json.Object [("cep", json.Str cep)]).
Proof.
  intros Hcep. apply validate_spec in Hcep. destruct Hcep as [_ Hcep].
  assert (E : cepObject cep +:+ rest
              = String "{" (String json.quote
                  ("cep" +:+ String json.quote
                     (String ":" (String json.quote
                        (cep +:+ String json.quote (String "}" rest))))))).
  { unfold cepObject, quoted.
    repeat first [rewrite append_cons | rewrite append_nil | rewrite append_assoc'].
    reflexivity. }
  rewrite E. unfold json.readValue. cbn [json.skipSpace json.isSpace].
  replace json.maxNestingDepth with (S 9999) by reflexivity.
  rewrite (value_cepObject 9999 cep rest Hcep). reflexivity.
Qed.

(** ** The claims *)

(** C2.  Location stage of the orchestrator.  For a request whose [cep]
    passes the format check, when the call to the directory ends in an
    error (of the transport, or met later in [BuscaCEP] while the body
    is read and decoded), and equally when it succeeds with an empty
    [Localidade], the handler answers 404 with the text
    [can not find zipcode], and the call to the directory is the only
    request that leaves. *)
Theorem C2_location_not_found codec g env r p :
  ServicoB.validateCEP (cepParam r) = true ->
  w p = http.newResponseWriter ->
  answers env (viacepURL (cepParam r))
          (fun ans =>
             (exists err, decoded (ServicoB.Unmarshal_ViaCEP codec) ans = inl err)
             \/ (exists cepData,
                    decoded (ServicoB.Unmarshal_ViaCEP codec) ans = inr cepData
                    /\ ServicoB.Localidade cepData = "")) ->
  let p' := snd (ServicoB.WeatherHandler codec g r env p) in
  http.status (w p') = Some 404%Z
  /\ http.written (w p') = "can not find zipcode" +:+ String "010" ""
  /\ exists reqCep,
      http.URL reqCep = viacepURL (cepParam r) /\ sent p' = sent p ++ [reqCep].
Proof.
  intros Hv Hw Hans p'.
  pose proof (WeatherHandler_run codec g r env p) as H. cbn zeta in H.
  rewrite Hv in H. destruct H as (reqCep & HU & H).
  assert (Hnf : w p' = http.Error "can not find zipcode" http.StatusNotFound (w p)
                /\ sent p' = sent p ++ [reqCep]).
  { destruct (Hans reqCep HU) as [[err He]|(cepData & He & Hl)];
      rewrite He in H; [exact H|].
    rewrite Hl in H. exact H. }
  destruct Hnf as [Hw' Hs']. rewrite Hw', Hw.
  split; [reflexivity|]. split; [reflexivity|].
  exists reqCep. auto.
Qed.

(** Both cases on the sample worlds: the directory refuses the
    connection; the directory answers with empty fields. *)
Lemma C2_witness :
  (let p' := snd (ServicoB.WeatherHandler Sample.codec ServicoB.globals
                    (Sample.get "/tempo?cep=01001000") Sample.directoryDown start) in
   http.status (w p') = Some 404%Z
   /\ http.written (w p') = "can not find zipcode" +:+ String "010" ""
   /\ exists reqCep,
       http.URL reqCep = viacepURL "01001000" /\ sent p' = [reqCep])
  /\ (let p' := snd (ServicoB.WeatherHandler Sample.codec ServicoB.globals
                       (Sample.get "/tempo?cep=00000000") Sample.unknownCep start) in
      http.status (w p') = Some 404%Z
      /\ http.written (w p') = "can not find zipcode" +:+ String "010" ""
      /\ exists reqCep,
          http.URL reqCep = viacepURL "00000000" /\ sent p' = [reqCep]).
Proof.
  split.
  - apply (C2_location_not_found Sample.codec ServicoB.globals Sample.directoryDown
             (Sample.get "/tempo?cep=01001000") start);
      [reflexivity | reflexivity |].
    intros req Hr. left. exists "dial tcp: connection refused".
    simpl. unfold Sample.collaborators. rewrite Hr. reflexivity.
  - apply (C2_location_not_found Sample.codec ServicoB.globals Sample.unknownCep
             (Sample.get "/tempo?cep=00000000") start);
      [reflexivity | reflexivity |].
    intros req Hr. right.
    exists {| ServicoB.Localidade := ""; ServicoB.Uf := "" |}.
    simpl. unfold Sample.collaborators. rewrite Hr. split; reflexivity.
Defined.

Lemma fetchWeather_fails codec g env cidade err :
  WeatherStageFails codec env cidade err ->
  forall ctx q, fst (ServicoB.fetchWeather codec g ctx cidade env q) = inl err.
Proof.
  intros Hfail ctx q.
  destruct (fetchWeather_run codec g ctx cidade env q) as (reqGeo & HU & H).
  destruct Hfail as [err Hgeo | Hgeo | first err Hgeo Hfc].
  - rewrite (Hgeo reqGeo HU) in H. destruct H as (q' & -> & _). reflexivity.
  - destruct (Hgeo reqGeo HU) as (geoResult & Hd & Hr).
    rewrite Hd, Hr in H. destruct H as (q' & -> & _). reflexivity.
  - destruct (Hgeo reqGeo HU) as (geoResult & rest & Hd & Hr).
    rewrite Hd, Hr in H. destruct H as (reqW & q' & HUw & -> & _).
    rewrite (Hfc reqW HUw). reflexivity.
Qed.

(** C3.  Coordinate and weather stages of the orchestrator.  Once the
    directory has given a city, a geocoder answer with an empty result
    list makes [fetchWeather] return the error that names the city
    ([coordinatesNotFound]); that error, and every transport, read or
    decoding error of the geocoder call or of the forecast call, is
    returned by [fetchWeather] and answered by the handler with 500
    and the text [erro ao buscar temperatura], never with 404. *)
Theorem C3_weather_stage_errors_are_500 codec g env r p cepData err :
  ServicoB.validateCEP (cepParam r) = true ->
  w p = http.newResponseWriter ->
  answers env (viacepURL (cepParam r))
          (fun ans => decoded (ServicoB.Unmarshal_ViaCEP codec) ans = inr cepData) ->
  ServicoB.Localidade cepData <> "" ->
  WeatherStageFails codec env (ServicoB.Localidade cepData) err ->
  (forall ctx q,
      fst (ServicoB.fetchWeather codec g ctx (ServicoB.Localidade cepData) env q) = inl err)
  /\ let p' := snd (ServicoB.WeatherHandler codec g r env p) in
     http.status (w p') = Some 500%Z
     /\ http.status (w p') <> Some 404%Z
     /\ http.written (w p') = "erro ao buscar temperatura" +:+ String "010" "".
Proof.
  intros Hv Hw Hdir Hcity Hfail.
  split; [exact (fetchWeather_fails codec g env _ err Hfail)|].
  intros p'.
  pose proof (WeatherHandler_run codec g r env p) as H. cbn zeta in H.
  rewrite Hv in H. destruct H as (reqCep & HU & H).
  rewrite (Hdir reqCep HU) in H.
  apply String.eqb_neq in Hcity. rewrite Hcity in H.
  destruct H as (reqGeo & HUg & H).
  assert (Hw' : w p' = http.Error "erro ao buscar temperatura"
                                  http.StatusInternalServerError (w p)).
  { destruct Hfail as [err Hgeo | Hgeo | first err Hgeo Hfc].
    - rewrite (Hgeo reqGeo HUg) in H. apply H.
    - destruct (Hgeo reqGeo HUg) as (geoResult & Hd & Hr).
      rewrite Hd, Hr in H. apply H.
    - destruct (Hgeo reqGeo HUg) as (geoResult & rest & Hd & Hr).
      rewrite Hd, Hr in H. destruct H as (reqW & HUw & H).
      rewrite (Hfc reqW HUw) in H. apply H. }
  rewrite Hw', Hw. repeat split; [discriminate].
Qed.

(** On the sample worlds: the geocoder knows no such city; the
    forecast refuses the connection. *)
Lemma C3_witness :
  let city := "São Paulo" in
  let r := Sample.get "/tempo?cep=01001000" in
  ((forall ctx q,
       fst (ServicoB.fetchWeather Sample.codec ServicoB.globals ctx city
                                  Sample.unknownCity q)
       = inl ("não foi possível encontrar coordenadas para a cidade: " +:+ city))
   /\ let p' := snd (ServicoB.WeatherHandler Sample.codec ServicoB.globals r
                       Sample.unknownCity start) in
      http.status (w p') = Some 500%Z
      /\ http.status (w p') <> Some 404%Z
      /\ http.written (w p') = "erro ao buscar temperatura" +:+ String "010" "")
  /\ ((forall ctx q,
          fst (ServicoB.fetchWeather Sample.codec ServicoB.globals ctx city
                                     Sample.forecastDown q)
          = inl "dial tcp: connection refused")
      /\ let p' := snd (ServicoB.WeatherHandler Sample.codec ServicoB.globals r
                          Sample.forecastDown start) in
         http.status (w p') = Some 500%Z
         /\ http.status (w p') <> Some 404%Z
         /\ http.written (w p') = "erro ao buscar temperatura" +:+ String "010" "").
Proof.
  intros city r.
  assert (Hdir : forall geocoder forecast,
             answers (Sample.world (Sample.ok "sao-paulo") geocoder forecast)
                     (viacepURL (cepParam r))
                     (fun ans => decoded (ServicoB.Unmarshal_ViaCEP Sample.codec) ans
                                 = inr {| ServicoB.Localidade := city; ServicoB.Uf := "SP" |})).
  { intros geocoder forecast req Hr. simpl. unfold Sample.collaborators.
    rewrite Hr. reflexivity. }
  split.
  - apply (C3_weather_stage_errors_are_500 Sample.codec ServicoB.globals
             Sample.unknownCity r start
             {| ServicoB.Localidade := city; ServicoB.Uf := "SP" |}
             (coordinatesNotFound city));
      [reflexivity | reflexivity | apply Hdir | discriminate |].
    apply no_coordinates. intros req Hr.
    exists {| ServicoB.Results := [] |}.
    simpl. unfold Sample.collaborators. rewrite Hr. split; reflexivity.
  - apply (C3_weather_stage_errors_are_500 Sample.codec ServicoB.globals
             Sample.forecastDown r start
             {| ServicoB.Localidade := city; ServicoB.Uf := "SP" |}
             "dial tcp: connection refused");
      [reflexivity | reflexivity | apply Hdir | discriminate |].
    apply (forecast_fails _ _ _
             {| ServicoB.Latitude := (-23.5475)%float;
                ServicoB.Longitude := (-46.63611)%float |}).
    + intros req Hr. eexists _, []. simpl. unfold Sample.collaborators.
      rewrite Hr. split; reflexivity.
    + intros req Hr. simpl. unfold Sample.collaborators. rewrite Hr. reflexivity.
Defined.

(** C6.  The gateway relays.  For a POST whose body decodes to a code
    that passes the format check, when servico-b answers, the gateway
    writes the status code of that answer and the bytes read from its
    body, unchanged, with [Content-Type: application/json] as its only
    header field; one request has left, a GET to servico-b. *)
Theorem C6_gateway_relays_response g env r p req resp :
  http.Method r = "POST" ->
  ServicoA.Decode (http.Body r) = inr req ->
  ServicoA.validateCEP (ServicoA.Cep req) = true ->
  answers env (tempoURL (ServicoA.Cep req)) (fun ans => ans = inr resp) ->
  w p = http.newResponseWriter ->
  let p' := snd (ServicoA.CepHandler g r env p) in
  http.status (w p') = Some (http.StatusCode resp)
  /\ http.written (w p') = fst (http.ReadAll resp)
  /\ http.header (w p') = {[ "Content-Type" := propagation.Text "application/json" ]}
  /\ exists reqB,
      sent p' = sent p ++ [reqB]
      /\ http.Method reqB = "GET" /\ http.URL reqB = tempoURL (ServicoA.Cep req).
Proof.
  intros Hm Hd Hv Hans Hw p'.
  pose proof (CepHandler_run g r env p) as H. cbn zeta in H.
  rewrite Hm, Hd, Hv in H. simpl in H.
  destruct H as (reqB & HU & HM & _ & Hs & Hw').
  rewrite (Hans reqB HU) in Hw'. fold p' in Hw', Hs.
  rewrite Hw', Hw.
  split; [reflexivity|]. split; [reflexivity|]. split; [reflexivity|].
  exists reqB. auto.
Qed.

(** A 404 of servico-b goes through as it is. *)
Lemma C6_witness :
  let answer := {| http.StatusCode := 404;
                   http.ReadAll := ("can not find zipcode" +:+ String "010" "", None) |} in
  let p' := snd (ServicoA.CepHandler ServicoA.globals
                   (Sample.post "/cep" (Sample.cepBody "00000000"))
                   (Sample.behind (inr answer)) start) in
  http.status (w p') = Some 404%Z
  /\ http.written (w p') = "can not find zipcode" +:+ String "010" ""
  /\ http.header (w p') = {[ "Content-Type" := propagation.Text "application/json" ]}
  /\ exists reqB,
      sent p' = [reqB]
      /\ http.Method reqB = "GET"
      /\ http.URL reqB = "http://servico-b:8080/tempo?cep=00000000".
Proof.
  intros answer.
  apply (C6_gateway_relays_response ServicoA.globals (Sample.behind (inr answer))
           (Sample.post "/cep" (Sample.cepBody "00000000")) start
           {| ServicoA.Cep := "00000000" |} answer);
    [reflexivity | reflexivity | reflexivity | | reflexivity].
  intros reqB _. reflexivity.
Defined.

(** C7.  Error mapping of the gateway, in the order of the checks.  A
    method other than POST gives 405, whatever the body.  A POST whose
    body does not decode (the end of the body or a syntax error
    before the end of its first value, or a first value of the wrong
    type) gives 400, whatever the code.  A POST whose body decodes to
    a code that fails the format check gives 422 with the text
    [invalid zipcode].  A POST with a valid code gives 500 when the
    call to servico-b fails in transport.  What follows the first
    value of the body is not read: a body that starts with the object
    of a valid code is sent on to servico-b, whatever bytes come
    after the object. *)
Theorem C7_gateway_error_mapping g env r p :
  w p = http.newResponseWriter ->
  let p' := snd (ServicoA.CepHandler g r env p) in
  (http.Method r <> "POST" -> http.status (w p') = Some 405%Z)
  /\ (http.Method r = "POST" ->
      forall err, ServicoA.Decode (http.Body r) = inl err ->
                  http.status (w p') = Some 400%Z)
  /\ (http.Method r = "POST" ->
      forall req, ServicoA.Decode (http.Body r) = inr req ->
                  ServicoA.validateCEP (ServicoA.Cep req) = false ->
                  http.status (w p') = Some 422%Z
                  /\ http.written (w p') = "invalid zipcode" +:+ String "010" "")
  /\ (http.Method r = "POST" ->
      forall req, ServicoA.Decode (http.Body r) = inr req ->
                  ServicoA.validateCEP (ServicoA.Cep req) = true ->
                  answers env (tempoURL (ServicoA.Cep req))
                          (fun ans => exists err, ans = inl err) ->
                  http.status (w p') = Some 500%Z)
  /\ (http.Method r = "POST" ->
      forall cep rest, ServicoA.validateCEP cep = true ->
                       http.Body r = json.readValue (cepObject cep +:+ rest) ->
                       exists reqB,
                         sent p' = sent p ++ [reqB]
                         /\ http.URL reqB = tempoURL cep).
Proof.
  intros Hw p'.
  pose proof (CepHandler_run g r env p) as H. cbn zeta in H. fold p' in H.
  split; [|split; [|split; [|split]]].
  - intros Hm. apply String.eqb_neq in Hm. unfold http.MethodPost in H.
    rewrite Hm in H. destruct H as [-> _]. rewrite Hw. reflexivity.
  - intros Hm err Hd. rewrite Hm, Hd in H. simpl in H.
    destruct H as [-> _]. rewrite Hw. reflexivity.
  - intros Hm req Hd Hv. rewrite Hm, Hd, Hv in H. simpl in H.
    destruct H as [-> _]. rewrite Hw. split; reflexivity.
  - intros Hm req Hd Hv Hans. rewrite Hm, Hd, Hv in H. simpl in H.
    destruct H as (reqB & HU & _ & _ & _ & ->).
    destruct (Hans reqB HU) as [err ->]. rewrite Hw. reflexivity.
  - intros Hm cep rest Hv Hb.
    rewrite Hm, Hb, (readValue_cepObject cep rest Hv) in H.
    change (ServicoA.Decode (inr (json.Object [("cep", json.Str cep)])))
      with (inr {| ServicoA.Cep := cep |} : error + ServicoA.CepRequest) in H.
    cbn [ServicoA.Cep] in H. rewrite Hv in H. simpl in H.
    destruct H as (reqB & HU & _ & _ & Hs & _). eauto.
Qed.

(** One request for each of the four checks, and a valid code
    followed by other bytes. *)
Lemma C7_witness :
  http.status (w (snd (ServicoA.CepHandler ServicoA.globals (Sample.get "/cep")
                         (Sample.behind Sample.refused) start))) = Some 405%Z
  /\ http.status (w (snd (ServicoA.CepHandler ServicoA.globals
                            (Sample.post "/cep" (json.readValue "{"))
                            (Sample.behind Sample.refused) start))) = Some 400%Z
  /\ (let p' := snd (ServicoA.CepHandler ServicoA.globals
                       (Sample.post "/cep" (Sample.cepBody "1234-567"))
                       (Sample.behind Sample.refused) start) in
      http.status (w p') = Some 422%Z
      /\ http.written (w p') = "invalid zipcode" +:+ String "010" "")
  /\ http.status (w (snd (ServicoA.CepHandler ServicoA.globals
                            (Sample.post "/cep" (Sample.cepBody "01001000"))
                            (Sample.behind Sample.refused) start))) = Some 500%Z
  /\ (let r := Sample.post "/cep" (json.readValue (cepObject "01001000" +:+ "]")) in
      exists reqB,
        sent (snd (ServicoA.CepHandler ServicoA.globals r
                     (Sample.behind Sample.refused) start)) = [] ++ [reqB]
        /\ http.URL reqB = tempoURL "01001000").
Proof.
  split; [|split; [|split; [|split]]].
  - apply (C7_gateway_error_mapping ServicoA.globals (Sample.behind Sample.refused)
             (Sample.get "/cep") start eq_refl).
    discriminate.
  - apply (proj1 (proj2 (C7_gateway_error_mapping
                           ServicoA.globals (Sample.behind Sample.refused)
                           (Sample.post "/cep" (json.readValue "{")) start eq_refl))
             eq_refl "unexpected EOF" eq_refl).
  - apply (proj1 (proj2 (proj2 (C7_gateway_error_mapping
                                  ServicoA.globals (Sample.behind Sample.refused)
                                  (Sample.post "/cep" (Sample.cepBody "1234-567"))
                                  start eq_refl)))
             eq_refl {| ServicoA.Cep := "1234-567" |} eq_refl eq_refl).
  - apply (proj1 (proj2 (proj2 (proj2 (C7_gateway_error_mapping
                                  ServicoA.globals (Sample.behind Sample.refused)
                                  (Sample.post "/cep" (Sample.cepBody "01001000"))
                                  start eq_refl))))
             eq_refl {| ServicoA.Cep := "01001000" |} eq_refl eq_refl).
    intros req _. exists "dial tcp: connection refused". reflexivity.
  - apply (proj2 (proj2 (proj2 (proj2 (C7_gateway_error_mapping
                                  ServicoA.globals (Sample.behind Sample.refused)
                                  (Sample.post "/cep"
                                     (json.readValue (cepObject "01001000" +:+ "]")))
                                  start eq_refl))))
             eq_refl "01001000" "]" eq_refl eq_refl).
Defined.

(** C7, as stated, fails: a body that is not a JSON text, because
    other bytes follow its first value, is not answered 400.  The
    object of a valid code followed by [ junk] is sent on to
    servico-b, whose answer is relayed. *)
Lemma C7_counterexample :
  let bytes := cepObject "01001000" +:+ " junk" in
  let r := Sample.post "/cep" (json.readValue bytes) in
  let p' := snd (ServicoA.CepHandler ServicoA.globals r
                   (Sample.behind (Sample.ok "report")) start) in
  json.Valid bytes = false
  /\ http.status (w p') = Some 200%Z
  /\ http.status (w p') <> Some 400%Z
  /\ map http.URL (sent p') = ["http://servico-b:8080/tempo?cep=01001000"].
Proof.
  vm_compute. repeat split. discriminate.
Qed.

(** C8.  Validation comes before every outbound call, in both
    services.  When the code fails the format check the gateway
    answers 422 and sends nothing, and so does the orchestrator;
    conversely a handler that has sent a request had a code that
    passed the check. *)
Theorem C8_validation_precedes_calls gA gB codec env rA rB p :
  w p = http.newResponseWriter ->
  let pA := snd (ServicoA.CepHandler gA rA env p) in
  let pB := snd (ServicoB.WeatherHandler codec gB rB env p) in
  (http.Method rA = "POST" ->
   forall req, ServicoA.Decode (http.Body rA) = inr req ->
               ServicoA.validateCEP (ServicoA.Cep req) = false ->
               http.status (w pA) = Some 422%Z /\ sent pA = sent p)
  /\ (ServicoB.validateCEP (cepParam rB) = false ->
      http.status (w pB) = Some 422%Z /\ sent pB = sent p)
  /\ (sent pA <> sent p ->
      exists req, ServicoA.Decode (http.Body rA) = inr req
                  /\ ServicoA.validateCEP (ServicoA.Cep req) = true)
  /\ (sent pB <> sent p -> ServicoB.validateCEP (cepParam rB) = true).
Proof.
  intros Hw pA pB.
  pose proof (CepHandler_run gA rA env p) as HA. cbn zeta in HA. fold pA in HA.
  pose proof (WeatherHandler_run codec gB rB env p) as HB. cbn zeta in HB. fold pB in HB.
  split; [|split; [|split]].
  - intros Hm req Hd Hv. rewrite Hm, Hd, Hv in HA. simpl in HA.
    destruct HA as [-> ->]. rewrite Hw. split; reflexivity.
  - intros Hv. rewrite Hv in HB. destruct HB as [-> ->]. rewrite Hw. split; reflexivity.
  - intros Hsent.
    destruct (String.eqb (http.Method rA) http.MethodPost); [|tauto].
    destruct (ServicoA.Decode (http.Body rA)) as [err|req]; [tauto|].
    destruct (ServicoA.validateCEP (ServicoA.Cep req)) eqn:Hv; [eauto|tauto].
  - intros Hsent.
    destruct (ServicoB.validateCEP (cepParam rB)); [reflexivity|tauto].
Qed.

(** Seven digits at the gateway, a letter at the orchestrator. *)
Lemma C8_witness :
  let pA := snd (ServicoA.CepHandler ServicoA.globals
                   (Sample.post "/cep" (Sample.cepBody "0100100"))
                   Sample.allUp start) in
  let pB := snd (ServicoB.WeatherHandler Sample.codec ServicoB.globals
                   (Sample.get "/tempo?cep=0100100x") Sample.allUp start) in
  (http.status (w pA) = Some 422%Z /\ sent pA = [])
  /\ (http.status (w pB) = Some 422%Z /\ sent pB = []).
Proof.
  intros pA pB.
  pose proof (C8_validation_precedes_calls
                ServicoA.globals ServicoB.globals Sample.codec Sample.allUp
                (Sample.post "/cep" (Sample.cepBody "0100100"))
                (Sample.get "/tempo?cep=0100100x") start eq_refl) as (HA & HB & _).
  split.
  - exact (HA eq_refl {| ServicoA.Cep := "0100100" |} eq_refl eq_refl).
  - exact (HB eq_refl).
Defined.

(** C9.  The orchestrator does not look at the method.  Changing the
    method of a request changes nothing in the run of the handler, nor
    in the run of the instrumented handler mounted on [/tempo], and
    the status the handler answers is 422, 404, 500 or 200, never 405. *)
Theorem C9_method_not_inspected codec g env r p method :
  w p = http.newResponseWriter ->
  ServicoB.WeatherHandler codec g (setMethod method r) env p
  = ServicoB.WeatherHandler codec g r env p
  /\ ServicoB.main codec (setMethod method r) env p = ServicoB.main codec r env p
  /\ let status := http.sentStatus (w (snd (ServicoB.WeatherHandler
                                             codec g (setMethod method r) env p))) in
     (status = 422 \/ status = 404 \/ status = 500 \/ status = 200)%Z
     /\ status <> 405%Z.
Proof.
  intros Hw. split; [reflexivity|]. split; [reflexivity|]. cbn zeta.
  change (ServicoB.WeatherHandler codec g (setMethod method r) env p)
    with (ServicoB.WeatherHandler codec g r env p).
  pose proof (WeatherHandler_run codec g r env p) as H. cbn zeta in H.
  set (p' := snd (ServicoB.WeatherHandler codec g r env p)) in *.
  assert (Hst : (http.sentStatus (w p') = 422 \/ http.sentStatus (w p') = 404
                 \/ http.sentStatus (w p') = 500 \/ http.sentStatus (w p') = 200)%Z).
  { destruct (ServicoB.validateCEP (cepParam r)).
    2:{ destruct H as [-> _]. rewrite Hw. left. reflexivity. }
    destruct H as (reqCep & _ & H).
    destruct (decoded (ServicoB.Unmarshal_ViaCEP codec) (DefaultTransport env reqCep))
      as [err|cepData].
    { destruct H as [-> _]. rewrite Hw. right; left. reflexivity. }
    cbn zeta in H. destruct (String.eqb (ServicoB.Localidade cepData) "").
    { destruct H as [-> _]. rewrite Hw. right; left. reflexivity. }
    destruct H as (reqGeo & _ & H).
    destruct (decoded (ServicoB.Unmarshal_GeoResult codec) (DefaultTransport env reqGeo))
      as [err|geoResult].
    { destruct H as [-> _]. rewrite Hw. right; right; left. reflexivity. }
    destruct (ServicoB.Results geoResult) as [|first rest].
    { destruct H as [-> _]. rewrite Hw. right; right; left. reflexivity. }
    destruct H as (reqW & _ & H).
    destruct (decoded (ServicoB.Unmarshal_OpenMeteoResponse codec)
                      (DefaultTransport env reqW)) as [err|weatherData].
    { destruct H as [-> _]. rewrite Hw. right; right; left. reflexivity. }
    destruct H as [-> _]. rewrite Hw.
    destruct (ServicoB.Encode_TempResp codec _); right; right; right; reflexivity. }
  split; [exact Hst|]. lia.
Qed.

(** A DELETE is served like a GET. *)
Lemma C9_witness :
  ServicoB.WeatherHandler Sample.codec ServicoB.globals
    (setMethod "DELETE" (Sample.get "/tempo?cep=01001000")) Sample.allUp start
  = ServicoB.WeatherHandler Sample.codec ServicoB.globals
      (Sample.get "/tempo?cep=01001000") Sample.allUp start
  /\ ServicoB.main Sample.codec (setMethod "DELETE" (Sample.get "/tempo?cep=01001000"))
                   Sample.allUp start
     = ServicoB.main Sample.codec (Sample.get "/tempo?cep=01001000") Sample.allUp start
  /\ let status := http.sentStatus
                     (w (snd (ServicoB.WeatherHandler Sample.codec ServicoB.globals
                                (setMethod "DELETE" (Sample.get "/tempo?cep=01001000"))
                                Sample.allUp start))) in
     (status = 422 \/ status = 404 \/ status = 500 \/ status = 200)%Z
     /\ status <> 405%Z.
Proof.
  exact (C9_method_not_inspected Sample.codec ServicoB.globals Sample.allUp
           (Sample.get "/tempo?cep=01001000") start "DELETE" eq_refl).
Defined.

(** ** Staying in one trace *)
Section OneTrace.

Variable t : positive.

Lemma carries_refl p : carries t p p.
Proof. exists [], []. rewrite !app_nil_r. auto. Qed.

Lemma carries_trans p1 p2 p3 : carries t p1 p2 -> carries t p2 p3 -> carries t p1 p3.
Proof.
  intros (s1 & o1 & Hs1 & Ho1 & Fs1 & Fo1) (s2 & o2 & Hs2 & Ho2 & Fs2 & Fo2).
  exists (s1 ++ s2), (o1 ++ o2).
  rewrite Hs2, Hs1, Ho2, Ho1, <- !app_assoc.
  repeat split; apply Forall_app; auto.
Qed.

Lemma staysIn_ret {A : Type} (a : A) (Q : A -> Prop) : Q a -> staysIn t (ret a) Q.
Proof. intros HQ env p. split; [apply carries_refl|exact HQ]. Qed.

Lemma staysIn_bind {A B : Type} (m : M A) (f : A -> M B) Q R :
  staysIn t m Q -> (forall a, Q a -> staysIn t (f a) R) -> staysIn t (bind m f) R.
Proof.
  intros Hm Hf env p. unfold bind.
  destruct (Hm env p) as [Hc HQ]. destruct (m env p) as [a p1]. simpl in Hc, HQ.
  destruct (Hf a HQ env p1) as [Hc' HR].
  split; [exact (carries_trans _ _ _ Hc Hc')|exact HR].
Qed.

Lemma staysIn_weaken {A : Type} (m : M A) (Q R : A -> Prop) :
  staysIn t m Q -> (forall a, Q a -> R a) -> staysIn t m R.
Proof. intros Hm HQR env p. destruct (Hm env p). auto. Qed.

Lemma staysIn_modifyW f : staysIn t (modifyW f) (fun _ => True).
Proof. intros env p. split; [|exact I]. exists [], []. simpl. rewrite !app_nil_r. auto. Qed.

(** A child span stays in the trace of its parent. *)
Lemma staysIn_Start g ctx name :
  otel.tracerProvider g <> None -> inTrace t ctx ->
  staysIn t (sdktrace.Start g ctx name) (inTrace t).
Proof.
  intros Hg (sc & Hsc & Ht) env p. unfold sdktrace.Start.
  destruct (otel.tracerProvider g); [|congruence].
  rewrite Hsc. destruct (trace.Sampled sc); cbn; split.
  - eexists [_], []. rewrite app_nil_r. repeat split; [|constructor].
    constructor; [exact Ht|constructor].
  - eexists. split; [reflexivity|exact Ht].
  - exists [], []. rewrite !app_nil_r. repeat split; constructor.
  - eexists. split; [reflexivity|exact Ht].
Qed.

(** With the propagator of servico-b, a request sent in a context of
    trace [t] announces [t]. *)
Lemma traceparent_injected ctx h :
  inTrace t ctx ->
  forall r, http.Header_ r
            = propagation.Inject (otel.GetTextMapPropagator ServicoB.globals) ctx h ->
            traceparent r = Some t.
Proof.
  intros (sc & Hsc & Ht) r Hr. unfold traceparent. rewrite Hr. cbn.
  rewrite Hsc.
  destruct (decide (context.baggage ctx = ∅)).
  - rewrite lookup_insert_eq. rewrite Ht. reflexivity.
  - rewrite lookup_insert_ne by discriminate.
    rewrite lookup_insert_eq. rewrite Ht. reflexivity.
Qed.

Lemma staysIn_Do r :
  inTrace t (http.Context r) ->
  staysIn t (otelhttp.Do ServicoB.globals r) (fun _ => True).
Proof.
  intros Hctx. unfold otelhttp.Do.
  apply (staysIn_bind _ _ (inTrace t)).
  - apply staysIn_Start; [discriminate|exact Hctx].
  - intros ctx Hin env p. split; [|exact I].
    eexists [], [_]. cbn. rewrite app_nil_r. repeat split; [constructor|].
    constructor; [|constructor].
    apply (traceparent_injected ctx (http.Header_ r) Hin). reflexivity.
Qed.

Lemma staysIn_BuscaCEP codec ctx cep :
  inTrace t ctx ->
  staysIn t (ServicoB.BuscaCEP codec ServicoB.globals ctx cep) (fun _ => True).
Proof.
  intros Hctx. unfold ServicoB.BuscaCEP.
  apply (staysIn_bind _ _ (inTrace t)).
  { apply staysIn_Start; [discriminate|exact Hctx]. }
  intros ctx1 Hin.
  apply (staysIn_bind _ _ (fun _ => True)).
  { apply staysIn_Do. exact Hin. }
  intros [err|resp] _; [apply staysIn_ret; exact I|].
  destruct (http.ReadAll resp) as [body [err|]]; [apply staysIn_ret; exact I|].
  destruct (ServicoB.Unmarshal_ViaCEP codec body); apply staysIn_ret; exact I.
Qed.

Lemma staysIn_fetchWeather codec ctx cidade :
  inTrace t ctx ->
  staysIn t (ServicoB.fetchWeather codec ServicoB.globals ctx cidade) (fun _ => True).
Proof.
  intros Hctx. unfold ServicoB.fetchWeather.
  apply (staysIn_bind _ _ (inTrace t)).
  { apply staysIn_Start; [discriminate|exact Hctx]. }
  intros ctx1 Hin.
  apply (staysIn_bind _ _ (fun _ => True)).
  { apply staysIn_Do. exact Hin. }
  intros [err|respGeo] _; [apply staysIn_ret; exact I|].
  destruct (http.ReadAll respGeo) as [bodyGeo [err|]]; [apply staysIn_ret; exact I|].
  destruct (ServicoB.Unmarshal_GeoResult codec bodyGeo) as [err|geoResult];
    [apply staysIn_ret; exact I|].
  destruct (ServicoB.Results geoResult) as [|first rest]; [apply staysIn_ret; exact I|].
  apply (staysIn_bind _ _ (fun _ => True)).
  { apply staysIn_Do. exact Hin. }
  intros [err|respWeather] _; [apply staysIn_ret; exact I|].
  destruct (http.ReadAll respWeather) as [body [err|]]; [apply staysIn_ret; exact I|].
  destruct (ServicoB.Unmarshal_OpenMeteoResponse codec body); apply staysIn_ret; exact I.
Qed.

(** The handler of servico-b carries the trace of its inbound context
    into every span it starts and every call it makes. *)
Lemma staysIn_WeatherHandler codec r :
  inTrace t (http.Context r) ->
  staysIn t (ServicoB.WeatherHandler codec ServicoB.globals r) (fun _ => True).
Proof.
  intros Hctx. unfold ServicoB.WeatherHandler.
  apply (staysIn_bind _ _ (inTrace t)).
  { apply staysIn_Start; [discriminate|exact Hctx]. }
  intros ctx Hin.
  destruct (negb (ServicoB.validateCEP (url.Get (http.Query r) "cep")));
    [apply staysIn_modifyW|].
  apply (staysIn_bind _ _ (fun _ => True)).
  { apply staysIn_BuscaCEP. exact Hin. }
  intros [err|cepData] _; [apply staysIn_modifyW|].
  destruct (String.eqb (ServicoB.Localidade cepData) ""); [apply staysIn_modifyW|].
  apply (staysIn_bind _ _ (fun _ => True)).
  { apply staysIn_fetchWeather. exact Hin. }
  intros [err|tempC] _; [apply staysIn_modifyW|].
  apply (staysIn_bind _ _ (fun _ => True)); [apply staysIn_modifyW|].
  intros _ _. unfold ServicoB.Encode.
  destruct (ServicoB.Encode_TempResp codec _);
    [apply staysIn_ret; exact I|apply staysIn_modifyW].
Qed.

End OneTrace.

Lemma Extract_empty ctx :
  propagation.Extract (otel.GetTextMapPropagator ServicoB.globals) ctx ∅ = ctx.
Proof.
  unfold propagation.Extract, propagation.extract; cbn [fold_left otel.GetTextMapPropagator
    ServicoB.globals ServicoB.initTracer otel.SetTextMapPropagator otel.textMapPropagator].
  rewrite !lookup_empty. reflexivity.
Qed.

(** A request that reaches servico-b with an empty header starts a
    trace of its own there: the identifier is the next one the
    generator of servico-b draws. *)
Lemma orchestrator_starts_own_trace codec env r p :
  http.Header_ r = ∅ ->
  http.Context r = context.Background ->
  carries (idgen env (nextID p)) p (snd (ServicoB.main codec r env p)).
Proof.
  intros Hh Hc. unfold ServicoB.main, ServeMux.
  destruct (url.Path (http.URL r)) as [path|].
  2:{ exists [], []. simpl. rewrite !app_nil_r. auto. }
  destruct (String.eqb path "/tempo").
  2:{ exists [], []. simpl. rewrite !app_nil_r. auto. }
  unfold otelhttp.NewHandler. rewrite Hh, Hc, Extract_empty. unfold bind at 1.
  destruct (sdktrace.Start ServicoB.globals context.Background "WeatherHandler" env p)
    as [ctx p1] eqn:E.
  cbn in E. injection E as <- <-.
  set (t := idgen env (nextID p)).
  eapply (carries_trans t).
  2:{ apply (staysIn_WeatherHandler t codec). eexists. split; reflexivity. }
  eexists [_], []. cbn. rewrite app_nil_r.
  repeat split; constructor; [reflexivity|constructor].
Qed.

(** A request that announces a trace is served in that trace: the
    orchestrator's side of the propagation works. *)
Lemma orchestrator_continues_announced_trace codec env r p sc :
  http.Header_ r !! "Traceparent" = Some (propagation.TraceParent sc) ->
  carries (trace.TraceID sc) p (snd (ServicoB.main codec r env p)).
Proof.
  intros Hh. unfold ServicoB.main, ServeMux.
  destruct (url.Path (http.URL r)) as [path|].
  2:{ exists [], []. simpl. rewrite !app_nil_r. auto. }
  destruct (String.eqb path "/tempo").
  2:{ exists [], []. simpl. rewrite !app_nil_r. auto. }
  unfold otelhttp.NewHandler.
  apply (staysIn_bind (trace.TraceID sc) _ _ (inTrace (trace.TraceID sc)) (fun _ => True)).
  - apply staysIn_Start; [discriminate|].
    unfold propagation.Extract, propagation.extract;
      cbn [fold_left otel.GetTextMapPropagator ServicoB.globals ServicoB.initTracer
           otel.SetTextMapPropagator otel.textMapPropagator].
    rewrite Hh. exists sc.
    destruct (http.Header_ r !! "Baggage") as [[text|sc'|b]|];
      [| |destruct (decide (b = ∅))|]; split; reflexivity.
  - intros ctx Hin. apply staysIn_WeatherHandler. exact Hin.
Qed.

(** Every request the gateway sends leaves with an empty header. *)
Lemma gateway_sends_bare_requests r env p :
  exists out,
    sent (snd (ServicoA.main r env p)) = sent p ++ out
    /\ Forall (fun o => http.Header_ o = ∅) out.
Proof.
  unfold ServicoA.main, ServeMux.
  destruct (url.Path (http.URL r)) as [path|].
  2:{ exists []. simpl. rewrite app_nil_r. auto. }
  destruct (String.eqb path "/cep").
  2:{ exists []. simpl. rewrite app_nil_r. auto. }
  unfold otelhttp.NewHandler, bind.
  match goal with
  | |- context [sdktrace.Start ?g ?c ?n env p] =>
      destruct (sdktrace.Start g c n env p) as [ctx p1] eqn:E;
      pose proof (Start_frame g c n env p) as [Hs _]
  end.
  rewrite E in Hs; simpl in Hs.
  pose proof (CepHandler_run ServicoA.globals (http.WithContext r ctx) env p1) as H.
  cbn zeta in H. rewrite <- Hs.
  destruct (String.eqb (http.Method (http.WithContext r ctx)) http.MethodPost).
  2:{ exists []. rewrite app_nil_r. split; [apply H|constructor]. }
  destruct (ServicoA.Decode (http.Body (http.WithContext r ctx))) as [err|req].
  { exists []. rewrite app_nil_r. split; [apply H|constructor]. }
  destruct (ServicoA.validateCEP (ServicoA.Cep req)).
  2:{ exists []. rewrite app_nil_r. split; [apply H|constructor]. }
  destruct H as (reqB & _ & _ & [ctx' HH] & Hsent & _).
  exists [reqB]. split; [exact Hsent|].
  constructor; [exact HH|constructor].
Qed.

(** C1.  Trace propagation from the gateway to the orchestrator.  The
    gateway never installs a propagator, so every request it sends
    leaves with an empty header, and servico-b serves such a request
    in a trace of its own, named by its own generator.  On the sample
    world the spans of the gateway belong to trace 100, the request to
    servico-b announces no trace, and servico-b starts trace 200,
    which it does carry into its own spans and into the header of its
    three outbound calls. *)
Theorem C1_gateway_does_not_propagate_trace :
  (forall r env p,
      exists out,
        sent (snd (ServicoA.main r env p)) = sent p ++ out
        /\ Forall (fun o => http.Header_ o = ∅) out)
  /\ (forall codec envB reqB pB,
         http.Header_ reqB = ∅ ->
         System.orchestrator codec envB reqB = Some pB ->
         carries (idgen envB 0) start pB)
  /\ let pA := System.gateway (Sample.ids 100) Sample.codec Sample.allUp
                 (Sample.post "/cep" (Sample.cepBody "01001000")) in
     traces pA = [("CepHandler", 100); ("Processar CEP", 100); ("HTTP GET", 100)]%positive
     /\ map http.URL (sent pA) = ["http://servico-b:8080/tempo?cep=01001000"]
     /\ map traceparent (sent pA) = [None]
     /\ map traces (System.orchestratorRuns Sample.codec Sample.allUp pA)
        = [[("WeatherHandler", 200); ("Processar tempo por CEP", 200);
            ("ViaCEP API", 200); ("HTTP GET", 200);
            ("Buscar clima Open-Meteo", 200); ("HTTP GET", 200);
            ("HTTP GET", 200)]]%positive
     /\ map (fun pB => map traceparent (sent pB))
            (System.orchestratorRuns Sample.codec Sample.allUp pA)
        = [[Some 200; Some 200; Some 200]]%positive
     /\ http.status (w pA) = Some 200%Z.
Proof.
  split; [exact gateway_sends_bare_requests|]. split.
  - intros codec envB reqB pB Hh Hrun. unfold System.orchestrator in Hrun.
    destruct (System.trimPrefix "http://servico-b:8080" (http.URL reqB)) as [target|];
      [|discriminate].
    injection Hrun as <-.
    apply (orchestrator_starts_own_trace codec envB (System.inbound reqB target) start);
      [exact Hh|reflexivity].
  - vm_compute. repeat split; reflexivity.
Qed.

(** C4.  The temperature converter.  For every Celsius value and city
    the report carries the city and the value, [TempF] is the value
    times 1.8 plus 32 and [TempK] is the value plus 273, in binary64
    arithmetic with each operation rounded on its own; 0 gives 32 and
    273 (not 273.15), 100 gives 212, and -40 gives -40. *)
Theorem C4_convertTemps_formulas :
  (forall celsius cidade,
      let temps := ServicoB.convertTemps celsius cidade in
      ServicoB.City temps = cidade
      /\ ServicoB.TempC temps = celsius
      /\ ServicoB.TempF temps = (celsius * 1.8 + 32)%float
      /\ ServicoB.TempK temps = (celsius + 273)%float)
  /\ (forall cidade,
         ServicoB.TempF (ServicoB.convertTemps 0 cidade) = 32%float
         /\ ServicoB.TempK (ServicoB.convertTemps 0 cidade) = 273%float
         /\ (ServicoB.TempK (ServicoB.convertTemps 0 cidade) =? 273.15)%float = false
         /\ ServicoB.TempF (ServicoB.convertTemps 100 cidade) = 212%float
         /\ ServicoB.TempF (ServicoB.convertTemps (-40) cidade) = (-40)%float).
Proof.
  split.
  - intros celsius cidade. cbn. repeat split.
  - intros cidade. cbn. repeat split.
Qed.

(** C5.  The validator.  In both services [validateCEP] accepts a
    string exactly when it is eight bytes long and each byte is a
    decimal digit; seven or nine digits, a letter, a hyphen, and a
    space or a newline before or after eight digits are rejected. *)
Theorem C5_validateCEP_eight_digits :
  (forall s,
      ServicoA.validateCEP s = true
      <-> String.length s = 8 /\ Forall isDigit (list_ascii_of_string s))
  /\ (forall s, ServicoB.validateCEP s = ServicoA.validateCEP s)
  /\ ServicoA.validateCEP "01001000" = true
  /\ ServicoA.validateCEP "0100100" = false
  /\ ServicoA.validateCEP "010010000" = false
  /\ ServicoA.validateCEP "0100100a" = false
  /\ ServicoA.validateCEP "01001-000" = false
  /\ ServicoA.validateCEP " 01001000" = false
  /\ ServicoA.validateCEP "01001000 " = false
  /\ ServicoA.validateCEP ("01001000" +:+ String "010" "") = false.
Proof.
  split; [exact validate_spec|].
  split; [reflexivity|].
  repeat split.
Qed.

(** Members that do not reach the field, or set it to the empty
    string, leave the decoded request blank. *)
Lemma decode_blank members :
  (forall key v, In (key, v) members ->
                 json.keyMatches "cep" key = true -> v = json.Str "") ->
  fold_left ServicoA.decodeMember members ({| ServicoA.Cep := "" |}, None)
  = ({| ServicoA.Cep := "" |}, None).
Proof.
  induction members as [|[key v] members IH]; intros Hm; [reflexivity|].
  cbn [fold_left]. unfold ServicoA.decodeMember at 2.
  destruct (json.keyMatches "cep" key) eqn:Hk.
  - rewrite (Hm key v (or_introl eq_refl) Hk). cbn.
    apply IH. intros k' v' Hin. apply Hm. right. exact Hin.
  - apply IH. intros k' v' Hin. apply Hm. right. exact Hin.
Qed.

(** C10, as amended.  A POST whose body is a JSON object in which no
    member name equals [cep] up to the case of its letters, or in
    which every such member carries the empty string, decodes without
    error to an empty code, which fails the format check: the gateway
    answers 422 with the text [invalid zipcode], not 400, and sends
    nothing. *)
Theorem C10_missing_cep_is_422 g env r p members :
  http.Method r = "POST" ->
  http.Body r = inr (json.Object members) ->
  (forall key v, In (key, v) members ->
                 json.keyMatches "cep" key = true -> v = json.Str "") ->
  w p = http.newResponseWriter ->
  let p' := snd (ServicoA.CepHandler g r env p) in
  ServicoA.Decode (http.Body r) = inr {| ServicoA.Cep := "" |}
  /\ ServicoA.validateCEP "" = false
  /\ http.status (w p') = Some 422%Z
  /\ http.status (w p') <> Some 400%Z
  /\ http.written (w p') = "invalid zipcode" +:+ String "010" ""
  /\ sent p' = sent p.
Proof.
  intros Hm Hb Hmem Hw p'.
  assert (Hd : ServicoA.Decode (http.Body r) = inr {| ServicoA.Cep := "" |}).
  { rewrite Hb. unfold ServicoA.Decode. rewrite (decode_blank members Hmem). reflexivity. }
  pose proof (CepHandler_run g r env p) as H. cbn zeta in H. fold p' in H.
  rewrite Hm, Hd in H. simpl in H. destruct H as [Hw' Hs].
  rewrite Hw', Hw.
  split; [exact Hd|]. split; [reflexivity|]. split; [reflexivity|].
  split; [discriminate|]. split; [reflexivity|exact Hs].
Qed.

(** An object with another member only, and one with an empty [cep]. *)
Lemma C10_witness :
  let absent := Sample.post "/cep" (inr (json.Object [("zip", json.Str "01001000")])) in
  let blank := Sample.post "/cep" (Sample.cepBody "") in
  (ServicoA.Decode (http.Body absent) = inr {| ServicoA.Cep := "" |}
   /\ http.status (w (snd (ServicoA.CepHandler ServicoA.globals absent
                             Sample.allUp start))) = Some 422%Z)
  /\ (ServicoA.Decode (http.Body blank) = inr {| ServicoA.Cep := "" |}
      /\ http.status (w (snd (ServicoA.CepHandler ServicoA.globals blank
                                Sample.allUp start))) = Some 422%Z).
Proof.
  intros absent blank. split.
  - pose proof (C10_missing_cep_is_422 ServicoA.globals Sample.allUp absent start
                  [("zip", json.Str "01001000")] eq_refl eq_refl) as H.
    cbn zeta in H. refine (let H' := H _ eq_refl in conj (proj1 H') (proj1 (proj2 (proj2 H')))).
    intros key v [Heq|[]] Hk. inversion Heq; subst. discriminate Hk.
  - pose proof (C10_missing_cep_is_422 ServicoA.globals Sample.allUp blank start
                  [("cep", json.Str "")] eq_refl eq_refl) as H.
    cbn zeta in H. refine (let H' := H _ eq_refl in conj (proj1 H') (proj1 (proj2 (proj2 H')))).
    intros key v [Heq|[]] Hk. inversion Heq; subst. reflexivity.
Defined.

(** C10, as stated, fails: an object without a member named [cep]
    whose member [CEP] holds a valid code decodes to that code, and
    the gateway forwards it and relays 200 instead of answering 422. *)
Lemma C10_counterexample :
  let members := [("CEP", json.Str "01001000")] in
  let r := Sample.post "/cep" (inr (json.Object members)) in
  let p' := snd (ServicoA.CepHandler ServicoA.globals r
                   (Sample.behind (Sample.ok "report")) start) in
  (forall v, ~ In ("cep", v) members)
  /\ ServicoA.Decode (http.Body r) = inr {| ServicoA.Cep := "01001000" |}
  /\ http.status (w p') = Some 200%Z
  /\ http.status (w p') <> Some 422%Z
  /\ map http.URL (sent p') = ["http://servico-b:8080/tempo?cep=01001000"].
Proof.
  cbn zeta. split.
  - intros v [Heq|[]]. discriminate Heq.
  - vm_compute. repeat split. discriminate.
Qed.

(** ** Query strings: escaping and parsing *)

Lemma escapedText_no_separator c :
  (negb (url.shouldEscape c) || Ascii.eqb c "%" || Ascii.eqb c "+") = true ->
  Ascii.eqb "&" c = false /\ Ascii.eqb ";" c = false /\ Ascii.eqb "=" c = false.
Proof. each_byte c; cbn; intros H; try discriminate H; repeat split. Qed.

Lemma unreserved_plain c :
  url.shouldEscape c = false ->
  Ascii.eqb c " " = false /\ Ascii.eqb c "%" = false /\ Ascii.eqb c "+" = false.
Proof. each_byte c; cbn; intros H; try discriminate H; repeat split. Qed.

Lemma unreserved_escapedText s : unreserved s = true -> escapedText s = true.
Proof.
  induction s as [|c s IH]; [reflexivity|]. cbn.
  rewrite !andb_true_iff. intros [Hc Hs]. rewrite Hc. auto.
Qed.

Lemma escapedText_contains s :
  escapedText s = true ->
  url.contains "&" s = false /\ url.contains ";" s = false /\ url.contains "=" s = false.
Proof.
  induction s as [|c s IH]; [repeat split|]. cbn [escapedText url.contains].
  rewrite andb_true_iff. intros [Hc Hs].
  destruct (escapedText_no_separator c Hc) as (-> & -> & ->).
  exact (IH Hs).
Qed.

Lemma QueryEscape_escapedText s : escapedText (url.QueryEscape s) = true.
Proof.
  induction s as [|c s IH]; [reflexivity|].
  each_byte c; cbn; exact IH.
Qed.

Lemma QueryUnescape_step c rest :
  url.QueryUnescape
    (if Ascii.eqb c " " then String "+" rest
     else if url.shouldEscape c then
       String "%" (String (url.upperhex (N_of_ascii c / 16))
                          (String (url.upperhex (N_of_ascii c mod 16)) rest))
     else String c rest)
  = String c <$> url.QueryUnescape rest.
Proof. each_byte c; reflexivity. Qed.

(** What is escaped is read back as it was. *)
Lemma QueryUnescape_QueryEscape s : url.QueryUnescape (url.QueryEscape s) = Some s.
Proof.
  induction s as [|c s IH]; [reflexivity|].
  transitivity (String c <$> url.QueryUnescape (url.QueryEscape s)).
  - exact (QueryUnescape_step c (url.QueryEscape s)).
  - rewrite IH. reflexivity.
Qed.

Lemma QueryEscape_unreserved s : unreserved s = true -> url.QueryEscape s = s.
Proof.
  induction s as [|c s IH]; [reflexivity|]. cbn [unreserved url.QueryEscape].
  rewrite andb_true_iff, negb_true_iff. intros [Hc Hs].
  destruct (unreserved_plain c Hc) as (-> & _ & _). rewrite Hc, (IH Hs). reflexivity.
Qed.

Lemma QueryUnescape_unreserved s : unreserved s = true -> url.QueryUnescape s = Some s.
Proof.
  intros H. rewrite <- (QueryEscape_unreserved s H) at 1. apply QueryUnescape_QueryEscape.
Qed.

Lemma Cut_append sep a b :
  url.contains sep a = false -> url.Cut sep (a +:+ String sep b) = (a, b).
Proof.
  induction a as [|c a IH]; rewrite ?append_nil, ?append_cons; cbn -[Ascii.eqb].
  - rewrite Ascii.eqb_refl. reflexivity.
  - rewrite orb_false_iff. intros [Hc Ha].
    rewrite Ascii.eqb_sym, Hc, (IH Ha). reflexivity.
Qed.

Lemma Cut_absent sep a : url.contains sep a = false -> url.Cut sep a = (a, "").
Proof.
  induction a as [|c a IH]; cbn -[Ascii.eqb]; [reflexivity|].
  rewrite orb_false_iff. intros [Hc Ha].
  rewrite Ascii.eqb_sym, Hc, (IH Ha). reflexivity.
Qed.

Lemma split_append sep a b :
  url.contains sep a = false ->
  url.split sep (a +:+ String sep b) = a :: url.split sep b.
Proof.
  induction a as [|c a IH]; rewrite ?append_nil, ?append_cons; cbn -[Ascii.eqb].
  - rewrite Ascii.eqb_refl. reflexivity.
  - rewrite orb_false_iff. intros [Hc Ha].
    rewrite Ascii.eqb_sym, Hc, (IH Ha). reflexivity.
Qed.

Lemma split_absent sep a : url.contains sep a = false -> url.split sep a = [a].
Proof.
  induction a as [|c a IH]; cbn -[Ascii.eqb]; [reflexivity|].
  rewrite orb_false_iff. intros [Hc Ha].
  rewrite Ascii.eqb_sym, Hc, (IH Ha). reflexivity.
Qed.

Lemma contains_append c a b :
  url.contains c (a +:+ b) = url.contains c a || url.contains c b.
Proof.
  induction a as [|d a IH]; rewrite ?append_nil, ?append_cons; cbn -[Ascii.eqb];
    [reflexivity|].
  rewrite IH. apply orb_assoc.
Qed.

Lemma unreserved_contains s :
  unreserved s = true ->
  url.contains "&" s = false /\ url.contains ";" s = false /\ url.contains "=" s = false.
Proof. intros H. apply escapedText_contains, unreserved_escapedText, H. Qed.

(** A pair [key=value] written with an unreserved, non-empty key and
    an escaped value is read back as that key and that value. *)
Lemma parsePair_escaped key v :
  unreserved key = true -> key <> "" ->
  url.parsePair (key +:+ String "=" (url.QueryEscape v)) = [(key, v)].
Proof.
  intros Hk Hne. unfold url.parsePair.
  destruct (unreserved_contains key Hk) as (_ & Hsemi & Heq).
  destruct (escapedText_contains _ (QueryEscape_escapedText v)) as (_ & Hsemi' & _).
  rewrite contains_append, Hsemi. cbn [url.contains orb]. rewrite Hsemi'.
  replace (String.eqb (key +:+ String "=" (url.QueryEscape v)) "") with false
    by (destruct key; [congruence|reflexivity]).
  rewrite (Cut_append "=" key _ Heq).
  rewrite (QueryUnescape_unreserved key Hk), QueryUnescape_QueryEscape. reflexivity.
Qed.

Lemma pair_no_ampersand key v :
  unreserved key = true ->
  url.contains "&" (key +:+ String "=" (url.QueryEscape v)) = false.
Proof.
  intros Hk. destruct (unreserved_contains key Hk) as (Hamp & _ & _).
  destruct (escapedText_contains _ (QueryEscape_escapedText v)) as (Hamp' & _ & _).
  rewrite contains_append, Hamp. cbn [url.contains orb]. exact Hamp'.
Qed.

Lemma Query_cons piece rest :
  url.contains "&" piece = false ->
  url.Query (piece +:+ String "&" rest) = url.parsePair piece ++ url.Query rest.
Proof. intros H. unfold url.Query. rewrite (split_append "&" piece rest H). reflexivity. Qed.

Lemma Query_single piece :
  url.contains "&" piece = false -> url.Query piece = url.parsePair piece.
Proof.
  intros H. unfold url.Query. rewrite (split_absent "&" piece H).
  cbn [flat_map]. apply app_nil_r.
Qed.

Lemma digit_unreserved c :
  regexp.inClass [(48, 57)%N] c = true -> url.shouldEscape c = false.
Proof. each_byte c; vm_compute; intros H; first [reflexivity | discriminate H]. Qed.

(** A code that passes the format check needs no escaping. *)
Lemma valid_unreserved cep : ServicoA.validateCEP cep = true -> unreserved cep = true.
Proof.
  intros H. apply validate_spec in H. destruct H as [_ H].
  induction cep as [|c cep IH]; [reflexivity|].
  cbn in H. inversion H as [|? ? Hc Hrest]; subst.
  cbn [unreserved]. apply inClass_digit, digit_unreserved in Hc.
  rewrite Hc. cbn [negb andb]. apply IH, Hrest.
Qed.

Lemma valid_nonempty cep : ServicoA.validateCEP cep = true -> cep <> "".
Proof. intros H ->. discriminate H. Qed.

Lemma parsePair_value key e v :
  unreserved key = true -> key <> "" ->
  url.contains ";" e = false -> url.QueryUnescape e = Some v ->
  url.parsePair (key +:+ String "=" e) = [(key, v)].
Proof.
  intros Hk Hne Hsemi' He. unfold url.parsePair.
  destruct (unreserved_contains key Hk) as (_ & Hsemi & Heq).
  rewrite contains_append, Hsemi. cbn [url.contains orb]. rewrite Hsemi'.
  replace (String.eqb (key +:+ String "=" e) "") with false
    by (destruct key; [congruence|reflexivity]).
  rewrite (Cut_append "=" key _ Heq).
  rewrite (QueryUnescape_unreserved key Hk), He. reflexivity.
Qed.

Lemma fetchWeather_first_request codec g ctx cidade env p :
  exists reqGeo rest,
    sent (snd (ServicoB.fetchWeather codec g ctx cidade env p)) = sent p ++ reqGeo :: rest
    /\ http.URL reqGeo = geocodingURL cidade.
Proof.
  destruct (fetchWeather_run codec g ctx cidade env p) as (reqGeo & HU & H).
  exists reqGeo.
  destruct (decoded (ServicoB.Unmarshal_GeoResult codec) (DefaultTransport env reqGeo))
    as [err|geoResult].
  { destruct H as (p' & -> & Hs & _). exists []. auto. }
  destruct (ServicoB.Results geoResult) as [|first others].
  { destruct H as (p' & -> & Hs & _). exists []. auto. }
  destruct H as (reqW & p' & _ & -> & Hs & _). exists [reqW]. auto.
Qed.

(** X1.  The geocoder is always asked for one match of the city, as
    named.  Whatever bytes the city name holds, the query of the first
    request [fetchWeather] sends reads back as the four parameters
    [name] (the city, unchanged), [count=1], [language=pt] and
    [format=json]: the name cannot add, hide or change a parameter. *)
Theorem X1_geocoding_query_reads_back codec g ctx cidade env p :
  exists reqGeo rest,
    sent (snd (ServicoB.fetchWeather codec g ctx cidade env p)) = sent p ++ reqGeo :: rest
    /\ http.Query reqGeo
       = [("name", cidade); ("count", "1"); ("language", "pt"); ("format", "json")].
Proof.
  destruct (fetchWeather_first_request codec g ctx cidade env p)
    as (reqGeo & rest & Hs & HU).
  exists reqGeo, rest. split; [exact Hs|].
  unfold http.Query. rewrite HU.
  change (url.RawQuery (geocodingURL cidade))
    with (("name" +:+ String "=" (url.QueryEscape cidade))
            +:+ String "&" "count=1&language=pt&format=json").
  rewrite Query_cons by (apply pair_no_ampersand; reflexivity).
  rewrite parsePair_escaped by (reflexivity || discriminate).
  reflexivity.
Qed.

(** ** The orchestrator, stage by stage *)

(** The sample collaborators do not redirect. *)
Lemma world_direct directory geocoder forecast :
  directAnswer directory -> directAnswer geocoder -> directAnswer forecast ->
  direct (Sample.world directory geocoder forecast).
Proof.
  intros Hd Hg Hf req. cbn. unfold Sample.collaborators.
  destruct (String.prefix "https://viacep.com.br/" (http.URL req)); [exact Hd|].
  destruct (String.prefix "https://geocoding-api.open-meteo.com/" (http.URL req));
    [exact Hg|exact Hf].
Qed.

Lemma allUp_direct : direct Sample.allUp.
Proof. apply world_direct; reflexivity. Qed.

(** X2.  The full chain.  On a network that answers with no
    redirect, for a code that passes the format check, when the
    directory gives a city, the geocoder at least one match and the
    forecast a temperature, the handler answers 200 with
    [Content-Type: application/json] and the encoding of
    [convertTemps] of that temperature and city as its body, after
    exactly three requests: to the directory, to the geocoder for
    that city, to the forecast for the first match. *)
Theorem X2_full_chain_reports codec g env r p cepData geoResult first others
        weatherData bytes :
  direct env ->
  ServicoB.validateCEP (cepParam r) = true ->
  w p = http.newResponseWriter ->
  answers env (viacepURL (cepParam r))
          (fun ans => decoded (ServicoB.Unmarshal_ViaCEP codec) ans = inr cepData) ->
  ServicoB.Localidade cepData <> "" ->
  answers env (geocodingURL (ServicoB.Localidade cepData))
          (fun ans => decoded (ServicoB.Unmarshal_GeoResult codec) ans = inr geoResult) ->
  ServicoB.Results geoResult = first :: others ->
  answers env (forecastURL codec first)
          (fun ans => decoded (ServicoB.Unmarshal_OpenMeteoResponse codec) ans
                      = inr weatherData) ->
  ServicoB.Encode_TempResp
    codec (ServicoB.convertTemps (ServicoB.Temperature weatherData)
                                 (ServicoB.Localidade cepData)) = inr bytes ->
  let p' := snd (ServicoB.WeatherHandler codec g r env p) in
  http.status (w p') = Some 200%Z
  /\ http.written (w p') = bytes
  /\ http.header (w p') = {[ "Content-Type" := propagation.Text "application/json" ]}
  /\ map http.URL (sent p')
     = map http.URL (sent p)
           ++ [viacepURL (cepParam r);
               geocodingURL (ServicoB.Localidade cepData);
               forecastURL codec first].
Proof.
  intros _ Hv Hw Hdir Hcity Hgeo Hres Hfc Henc p'.
  pose proof (WeatherHandler_run codec g r env p) as H. cbn zeta in H. fold p' in H.
  rewrite Hv in H. destruct H as (reqCep & HU & H).
  rewrite (Hdir reqCep HU) in H.
  apply String.eqb_neq in Hcity. rewrite Hcity in H.
  destruct H as (reqGeo & HUg & H).
  rewrite (Hgeo reqGeo HUg), Hres in H.
  destruct H as (reqW & HUw & H).
  rewrite (Hfc reqW HUw), Henc in H.
  destruct H as [-> ->]. rewrite Hw, map_app. cbn [map].
  rewrite HU, HUg, HUw. repeat split.
Qed.

(** On the sample world where every collaborator is up. *)
Lemma X2_witness :
  let p' := snd (ServicoB.WeatherHandler Sample.codec ServicoB.globals
                   (Sample.get "/tempo?cep=01001000") Sample.allUp start) in
  http.status (w p') = Some 200%Z
  /\ http.written (w p') = "report" +:+ String "010" ""
  /\ http.header (w p') = {[ "Content-Type" := propagation.Text "application/json" ]}
  /\ map http.URL (sent p')
     = [viacepURL "01001000"; geocodingURL "São Paulo";
        forecastURL Sample.codec {| ServicoB.Latitude := (-23.5475)%float;
                                    ServicoB.Longitude := (-46.63611)%float |}].
Proof.
  apply (X2_full_chain_reports Sample.codec ServicoB.globals Sample.allUp
           (Sample.get "/tempo?cep=01001000") start
           {| ServicoB.Localidade := "São Paulo"; ServicoB.Uf := "SP" |}
           {| ServicoB.Results := [{| ServicoB.Latitude := (-23.5475)%float;
                                      ServicoB.Longitude := (-46.63611)%float |}] |}
           {| ServicoB.Latitude := (-23.5475)%float;
              ServicoB.Longitude := (-46.63611)%float |} []
           {| ServicoB.Temperature := 25%float |} ("report" +:+ String "010" ""));
    try reflexivity; try discriminate; try exact allUp_direct;
    intros req Hr; simpl; unfold Sample.collaborators; rewrite Hr; reflexivity.
Defined.

(** X3.  A report that cannot be encoded.  The error of the encoder
    is dropped: when every stage succeeds but the report is refused by
    the encoder, nothing is written, so the client receives 200 with
    [Content-Type: application/json] and an empty body, not 500.  The
    converter does produce values the encoder refuses from finite
    input: at 1e308 degrees the Fahrenheit value is infinite. *)
Theorem X3_unencodable_report_is_empty_200 codec g env r p cepData geoResult
        first others weatherData err :
  ServicoB.validateCEP (cepParam r) = true ->
  w p = http.newResponseWriter ->
  answers env (viacepURL (cepParam r))
          (fun ans => decoded (ServicoB.Unmarshal_ViaCEP codec) ans = inr cepData) ->
  ServicoB.Localidade cepData <> "" ->
  answers env (geocodingURL (ServicoB.Localidade cepData))
          (fun ans => decoded (ServicoB.Unmarshal_GeoResult codec) ans = inr geoResult) ->
  ServicoB.Results geoResult = first :: others ->
  answers env (forecastURL codec first)
          (fun ans => decoded (ServicoB.Unmarshal_OpenMeteoResponse codec) ans
                      = inr weatherData) ->
  ServicoB.Encode_TempResp
    codec (ServicoB.convertTemps (ServicoB.Temperature weatherData)
                                 (ServicoB.Localidade cepData)) = inl err ->
  let p' := snd (ServicoB.WeatherHandler codec g r env p) in
  http.status (w p') = None
  /\ http.sentStatus (w p') = 200%Z
  /\ http.written (w p') = ""
  /\ http.header (w p') = {[ "Content-Type" := propagation.Text "application/json" ]}
  /\ forall cidade,
      PrimFloat.is_infinity (ServicoB.TempF (ServicoB.convertTemps 1e308 cidade)) = true.
Proof.
  intros Hv Hw Hdir Hcity Hgeo Hres Hfc Henc p'.
  pose proof (WeatherHandler_run codec g r env p) as H. cbn zeta in H. fold p' in H.
  rewrite Hv in H. destruct H as (reqCep & HU & H).
  rewrite (Hdir reqCep HU) in H.
  apply String.eqb_neq in Hcity. rewrite Hcity in H.
  destruct H as (reqGeo & HUg & H).
  rewrite (Hgeo reqGeo HUg), Hres in H.
  destruct H as (reqW & HUw & H).
  rewrite (Hfc reqW HUw), Henc in H.
  destruct H as [-> _]. rewrite Hw. repeat split.
Qed.

(** The sample world with an encoder that refuses infinite values and
    a forecast of 1e308 degrees. *)
Lemma X3_witness :
  let codec :=
    {| ServicoB.Unmarshal_ViaCEP := ServicoB.Unmarshal_ViaCEP Sample.codec;
       ServicoB.Unmarshal_GeoResult := ServicoB.Unmarshal_GeoResult Sample.codec;
       ServicoB.Unmarshal_OpenMeteoResponse := fun _ =>
         inr {| ServicoB.Temperature := 1e308%float |};
       ServicoB.Encode_TempResp := fun temps =>
         if PrimFloat.is_infinity (ServicoB.TempF temps)
         then inl "json: unsupported value: +Inf"
         else inr "report";
       ServicoB.Sprintf_f6 := ServicoB.Sprintf_f6 Sample.codec |} in
  let p' := snd (ServicoB.WeatherHandler codec ServicoB.globals
                   (Sample.get "/tempo?cep=01001000") Sample.allUp start) in
  http.status (w p') = None
  /\ http.sentStatus (w p') = 200%Z
  /\ http.written (w p') = "".
Proof.
  intros codec p'.
  refine (let H := X3_unencodable_report_is_empty_200 codec ServicoB.globals Sample.allUp
             (Sample.get "/tempo?cep=01001000") start
             {| ServicoB.Localidade := "São Paulo"; ServicoB.Uf := "SP" |}
             {| ServicoB.Results := [{| ServicoB.Latitude := (-23.5475)%float;
                                        ServicoB.Longitude := (-46.63611)%float |}] |}
             {| ServicoB.Latitude := (-23.5475)%float;
                ServicoB.Longitude := (-46.63611)%float |} []
             {| ServicoB.Temperature := 1e308%float |} "json: unsupported value: +Inf"
             eq_refl eq_refl _ _ _ eq_refl _ eq_refl in
          conj (proj1 H) (conj (proj1 (proj2 H)) (proj1 (proj2 (proj2 H)))));
    try discriminate;
    intros req Hr; simpl; unfold Sample.collaborators; rewrite Hr; reflexivity.
Defined.

(** X4.  The answers of the orchestrator.  Whatever the network does,
    what the handler writes to a fresh [ResponseWriter] is one of:
    the plain-text error [invalid zipcode] with 422, [can not find
    zipcode] with 404, [erro ao buscar temperatura] with 500 (each as
    [http.Error] writes it), or the JSON header followed by the
    encoded report or by nothing.  No text of an error met on the way
    reaches the client. *)
Theorem X4_orchestrator_answers codec g env r p :
  w p = http.newResponseWriter ->
  let w' := w (snd (ServicoB.WeatherHandler codec g r env p)) in
  let json := http.Set_ "Content-Type" "application/json" http.newResponseWriter in
  w' = http.Error "invalid zipcode" 422 http.newResponseWriter
  \/ w' = http.Error "can not find zipcode" 404 http.newResponseWriter
  \/ w' = http.Error "erro ao buscar temperatura" 500 http.newResponseWriter
  \/ w' = json
  \/ exists temps bytes,
      ServicoB.Encode_TempResp codec temps = inr bytes /\ w' = http.Write bytes json.
Proof.
  intros Hw w' json.
  pose proof (WeatherHandler_run codec g r env p) as H. cbn zeta in H.
  fold w' in H. rewrite Hw in H. fold json in H.
  destruct (ServicoB.validateCEP (cepParam r)).
  2:{ left. apply H. }
  destruct H as (reqCep & _ & H).
  destruct (decoded (ServicoB.Unmarshal_ViaCEP codec) (DefaultTransport env reqCep))
    as [err|cepData].
  { right; left. apply H. }
  destruct (String.eqb (ServicoB.Localidade cepData) "").
  { right; left. apply H. }
  destruct H as (reqGeo & _ & H).
  destruct (decoded (ServicoB.Unmarshal_GeoResult codec) (DefaultTransport env reqGeo))
    as [err|geoResult].
  { right; right; left. apply H. }
  destruct (ServicoB.Results geoResult) as [|first others].
  { right; right; left. apply H. }
  destruct H as (reqW & _ & H).
  destruct (decoded (ServicoB.Unmarshal_OpenMeteoResponse codec) (DefaultTransport env reqW))
    as [err|weatherData].
  { right; right; left. apply H. }
  destruct H as [H _].
  destruct (ServicoB.Encode_TempResp codec _) as [err|bytes] eqn:E.
  - right; right; right; left. exact H.
  - right; right; right; right. eauto.
Qed.

(** On the sample world where the geocoder knows no such city. *)
Lemma X4_witness :
  let w' := w (snd (ServicoB.WeatherHandler Sample.codec ServicoB.globals
                      (Sample.get "/tempo?cep=01001000") Sample.unknownCity start)) in
  let json := http.Set_ "Content-Type" "application/json" http.newResponseWriter in
  w' = http.Error "invalid zipcode" 422 http.newResponseWriter
  \/ w' = http.Error "can not find zipcode" 404 http.newResponseWriter
  \/ w' = http.Error "erro ao buscar temperatura" 500 http.newResponseWriter
  \/ w' = json
  \/ exists temps bytes,
      ServicoB.Encode_TempResp Sample.codec temps = inr bytes
      /\ w' = http.Write bytes json.
Proof.
  exact (X4_orchestrator_answers Sample.codec ServicoB.globals Sample.unknownCity
           (Sample.get "/tempo?cep=01001000") start eq_refl).
Defined.

(** ** Two networks that differ in status codes only *)
Section StatusCodes.

Variables env env' : Env.
Hypothesis same_ids : forall n, idgen env n = idgen env' n.
Hypothesis same_bodies :
  forall req, sameBody (DefaultTransport env req) (DefaultTransport env' req).

Lemma decoded_sameBody {A : Type} (Unmarshal : string -> error + A) a b :
  sameBody a b -> decoded Unmarshal a = decoded Unmarshal b.
Proof.
  destruct a as [e|x], b as [e'|y]; cbn; try contradiction.
  - intros ->. reflexivity.
  - intros ->. reflexivity.
Qed.






End StatusCodes.



(** ** Invariants of the handlers

    A property [I] of contexts that [tracer.Start] preserves, with a
    property [S] of the spans it starts and a property [O] of the
    requests sent in such contexts, holds along every path of the
    helpers and handlers of both services. *)
Section Respects.

Variable g : otel.Globals.
Variable I : context.Context -> Prop.
Variable S : SpanData -> Prop.
Variable O : http.Request -> Prop.

Hypothesis Start_respects :
  forall ctx name, I ctx -> respects S O (sdktrace.Start g ctx name) I.

Hypothesis send_respects :
  forall ctx0 ctx u,
    I ctx ->
    O (http.withHeader (http.WithContext (http.NewRequestWithContext ctx0 "GET" u) ctx)
                       (propagation.Inject (otel.GetTextMapPropagator g) ctx ∅)).

Lemma keeps_refl p : keeps S O p p.
Proof. exists [], []. rewrite !app_nil_r. auto. Qed.

Lemma keeps_trans p1 p2 p3 : keeps S O p1 p2 -> keeps S O p2 p3 -> keeps S O p1 p3.
Proof.
  intros (s1 & o1 & Hs1 & Ho1 & Fs1 & Fo1) (s2 & o2 & Hs2 & Ho2 & Fs2 & Fo2).
  exists (s1 ++ s2), (o1 ++ o2).
  rewrite Hs2, Hs1, Ho2, Ho1, <- !app_assoc.
  repeat split; apply Forall_app; auto.
Qed.

Lemma respects_ret {A : Type} (a : A) (Q : A -> Prop) : Q a -> respects S O (ret a) Q.
Proof. intros HQ env p. split; [apply keeps_refl|exact HQ]. Qed.

Lemma respects_bind {A B : Type} (m : M A) (f : A -> M B) Q R :
  respects S O m Q -> (forall a, Q a -> respects S O (f a) R) ->
  respects S O (bind m f) R.
Proof.
  intros Hm Hf env p. unfold bind.
  destruct (Hm env p) as [Hc HQ]. destruct (m env p) as [a p1]. simpl in Hc, HQ.
  destruct (Hf a HQ env p1) as [Hc' HR].
  split; [exact (keeps_trans _ _ _ Hc Hc')|exact HR].
Qed.

Lemma respects_modifyW f : respects S O (modifyW f) (fun _ => True).
Proof. intros env p. split; [|exact Logic.I]. exists [], []. simpl. rewrite !app_nil_r. auto. Qed.

Lemma respects_Do ctx u :
  I ctx ->
  respects S O (otelhttp.Do g (http.NewRequestWithContext ctx "GET" u)) (fun _ => True).
Proof.
  intros Hctx. unfold otelhttp.Do.
  apply (respects_bind _ _ I).
  - apply Start_respects. exact Hctx.
  - intros ctx1 Hin env p. split; [|exact Logic.I].
    eexists [], [_]. cbn. rewrite app_nil_r. repeat split; [constructor|].
    constructor; [|constructor]. apply send_respects. exact Hin.
Qed.

Lemma respects_BuscaCEP codec ctx cep :
  I ctx -> respects S O (ServicoB.BuscaCEP codec g ctx cep) (fun _ => True).
Proof.
  intros Hctx. unfold ServicoB.BuscaCEP.
  apply (respects_bind _ _ I); [apply Start_respects; exact Hctx|].
  intros ctx1 Hin.
  apply (respects_bind _ _ (fun _ => True)); [apply respects_Do; exact Hin|].
  intros [err|resp] _; [apply respects_ret; exact Logic.I|].
  destruct (http.ReadAll resp) as [body [err|]]; [apply respects_ret; exact Logic.I|].
  destruct (ServicoB.Unmarshal_ViaCEP codec body); apply respects_ret; exact Logic.I.
Qed.

Lemma respects_fetchWeather codec ctx cidade :
  I ctx -> respects S O (ServicoB.fetchWeather codec g ctx cidade) (fun _ => True).
Proof.
  intros Hctx. unfold ServicoB.fetchWeather.
  apply (respects_bind _ _ I); [apply Start_respects; exact Hctx|].
  intros ctx1 Hin.
  apply (respects_bind _ _ (fun _ => True)); [apply respects_Do; exact Hin|].
  intros [err|respGeo] _; [apply respects_ret; exact Logic.I|].
  destruct (http.ReadAll respGeo) as [bodyGeo [err|]]; [apply respects_ret; exact Logic.I|].
  destruct (ServicoB.Unmarshal_GeoResult codec bodyGeo) as [err|geoResult];
    [apply respects_ret; exact Logic.I|].
  destruct (ServicoB.Results geoResult) as [|first others];
    [apply respects_ret; exact Logic.I|].
  apply (respects_bind _ _ (fun _ => True)); [apply respects_Do; exact Hin|].
  intros [err|respWeather] _; [apply respects_ret; exact Logic.I|].
  destruct (http.ReadAll respWeather) as [body [err|]]; [apply respects_ret; exact Logic.I|].
  destruct (ServicoB.Unmarshal_OpenMeteoResponse codec body); apply respects_ret; exact Logic.I.
Qed.

Lemma respects_WeatherHandler codec r :
  I (http.Context r) -> respects S O (ServicoB.WeatherHandler codec g r) (fun _ => True).
Proof.
  intros Hctx. unfold ServicoB.WeatherHandler.
  apply (respects_bind _ _ I); [apply Start_respects; exact Hctx|].
  intros ctx Hin.
  destruct (negb (ServicoB.validateCEP (url.Get (http.Query r) "cep")));
    [apply respects_modifyW|].
  apply (respects_bind _ _ (fun _ => True)); [apply respects_BuscaCEP; exact Hin|].
  intros [err|cepData] _; [apply respects_modifyW|].
  destruct (String.eqb (ServicoB.Localidade cepData) ""); [apply respects_modifyW|].
  apply (respects_bind _ _ (fun _ => True)); [apply respects_fetchWeather; exact Hin|].
  intros [err|tempC] _; [apply respects_modifyW|].
  apply (respects_bind _ _ (fun _ => True)); [apply respects_modifyW|].
  intros _ _. unfold ServicoB.Encode.
  destruct (ServicoB.Encode_TempResp codec _);
    [apply respects_ret; exact Logic.I|apply respects_modifyW].
Qed.

Lemma respects_CepHandler r :
  I (http.Context r) -> respects S O (ServicoA.CepHandler g r) (fun _ => True).
Proof.
  intros Hctx. unfold ServicoA.CepHandler.
  apply (respects_bind _ _ I); [apply Start_respects; exact Hctx|].
  intros ctx Hin.
  destruct (negb (String.eqb (http.Method r) http.MethodPost)); [apply respects_modifyW|].
  destruct (ServicoA.Decode (http.Body r)) as [err|req]; [apply respects_modifyW|].
  destruct (negb (ServicoA.validateCEP (ServicoA.Cep req))); [apply respects_modifyW|].
  apply (respects_bind _ _ (fun _ => True)); [apply respects_Do; exact Hin|].
  intros [err|resp] _; [apply respects_modifyW|].
  destruct (http.ReadAll resp) as [body rerr].
  apply (respects_bind _ _ (fun _ => True)); [apply respects_modifyW|].
  intros _ _.
  apply (respects_bind _ _ (fun _ => True)); [apply respects_modifyW|].
  intros _ _. apply respects_modifyW.
Qed.

End Respects.

Lemma Start_any g O ctx name :
  respects (fun _ => True) O (sdktrace.Start g ctx name) (fun _ => True).
Proof.
  intros env p. split; [|exact I]. unfold sdktrace.Start.
  destruct (otel.tracerProvider g); [|apply keeps_refl].
  destruct (context.spanContext ctx) as [parent|]; [destruct (trace.Sampled parent)|];
    cbn; [eexists [_], [] | exists [], [] | eexists [_], []];
    rewrite ?app_nil_r; repeat split; repeat constructor.
Qed.

(** Every request either handler sends is a GET without a body. *)
Lemma handlers_send_bare_GET g :
  (forall codec r,
      respects (fun _ => True) (fun o => http.Method o = "GET" /\ http.Body o = inl "EOF")
               (ServicoB.WeatherHandler codec g r) (fun _ => True))
  /\ (forall r,
         respects (fun _ => True) (fun o => http.Method o = "GET" /\ http.Body o = inl "EOF")
                  (ServicoA.CepHandler g r) (fun _ => True)).
Proof.
  split; intros.
  - apply (respects_WeatherHandler g (fun _ => True)); [| |exact I].
    + intros ctx name _. apply Start_any.
    + intros ctx0 ctx u _. split; reflexivity.
  - apply (respects_CepHandler g (fun _ => True)); [| |exact I].
    + intros ctx name _. apply Start_any.
    + intros ctx0 ctx u _. split; reflexivity.
Qed.

(** X6.  The calls of the orchestrator.  On a network that answers
    with no redirect, the handler sends nothing when the code fails
    the format check, and otherwise one of three sequences: the
    directory alone; the directory, then the geocoder for the city
    the directory gave; or these two, then the forecast for the first
    match.  Each request is a GET without a body. *)
Theorem X6_orchestrator_call_sequence codec g env r p :
  direct env ->
  exists new,
    sent (snd (ServicoB.WeatherHandler codec g r env p)) = sent p ++ new
    /\ Forall (fun o => http.Method o = "GET" /\ http.Body o = inl "EOF") new
    /\ ((new = [] /\ ServicoB.validateCEP (cepParam r) = false)
        \/ (ServicoB.validateCEP (cepParam r) = true
            /\ (map http.URL new = [viacepURL (cepParam r)]
                \/ (exists cidade,
                       cidade <> ""
                       /\ map http.URL new
                          = [viacepURL (cepParam r); geocodingURL cidade])
                \/ (exists cidade first,
                       cidade <> ""
                       /\ map http.URL new
                          = [viacepURL (cepParam r); geocodingURL cidade;
                             forecastURL codec first])))).
Proof.
  intros _.
  destruct (proj1 (handlers_send_bare_GET g) codec r env p)
    as [(ns & new & _ & Hsent & _ & HO) _].
  exists new. split; [exact Hsent|]. split; [exact HO|].
  pose proof (WeatherHandler_run codec g r env p) as H. cbn zeta in H.
  rewrite Hsent in H.
  destruct (ServicoB.validateCEP (cepParam r)).
  2:{ left. destruct H as [_ H]. split; [|reflexivity].
      rewrite <- (app_nil_r (sent p)) in H at 2. exact (app_inv_head _ _ _ H). }
  right. split; [reflexivity|].
  destruct H as (reqCep & HU & H).
  destruct (decoded (ServicoB.Unmarshal_ViaCEP codec) (DefaultTransport env reqCep))
    as [err|cepData].
  { left. destruct H as [_ H]. apply app_inv_head in H. subst new. cbn. rewrite HU.
    reflexivity. }
  cbn zeta in H. destruct (String.eqb (ServicoB.Localidade cepData) "") eqn:Hcity.
  { left. destruct H as [_ H]. apply app_inv_head in H. subst new. cbn. rewrite HU.
    reflexivity. }
  apply String.eqb_neq in Hcity.
  destruct H as (reqGeo & HUg & H).
  destruct (decoded (ServicoB.Unmarshal_GeoResult codec) (DefaultTransport env reqGeo))
    as [err|geoResult].
  { right; left. exists (ServicoB.Localidade cepData). split; [exact Hcity|].
    destruct H as [_ H]. apply app_inv_head in H. subst new. cbn. rewrite HU, HUg.
    reflexivity. }
  destruct (ServicoB.Results geoResult) as [|first others].
  { right; left. exists (ServicoB.Localidade cepData). split; [exact Hcity|].
    destruct H as [_ H]. apply app_inv_head in H. subst new. cbn. rewrite HU, HUg.
    reflexivity. }
  destruct H as (reqW & HUw & H).
  right; right. exists (ServicoB.Localidade cepData), first. split; [exact Hcity|].
  destruct (decoded (ServicoB.Unmarshal_OpenMeteoResponse codec) (DefaultTransport env reqW));
    destruct H as [_ H]; apply app_inv_head in H; subst new; cbn;
    rewrite HU, HUg, HUw; reflexivity.
Qed.

(** On the sample world where every collaborator is up. *)
Lemma X6_witness :
  let r := Sample.get "/tempo?cep=01001000" in
  exists new,
    sent (snd (ServicoB.WeatherHandler Sample.codec ServicoB.globals r
                 Sample.allUp start)) = [] ++ new
    /\ Forall (fun o => http.Method o = "GET" /\ http.Body o = inl "EOF") new
    /\ ((new = [] /\ ServicoB.validateCEP (cepParam r) = false)
        \/ (ServicoB.validateCEP (cepParam r) = true
            /\ (map http.URL new = [viacepURL (cepParam r)]
                \/ (exists cidade,
                       cidade <> ""
                       /\ map http.URL new
                          = [viacepURL (cepParam r); geocodingURL cidade])
                \/ (exists cidade first,
                       cidade <> ""
                       /\ map http.URL new
                          = [viacepURL (cepParam r); geocodingURL cidade;
                             forecastURL Sample.codec first])))).
Proof.
  exact (X6_orchestrator_call_sequence Sample.codec ServicoB.globals Sample.allUp
           (Sample.get "/tempo?cep=01001000") start allUp_direct).
Defined.

(** X7.  The call of the gateway.  When what it calls answers with
    no redirect, the handler sends at most one request; it is a GET
    without a body to [/tempo] of servico-b with a code that passed
    the gateway's check, and what the orchestrator reads back from
    its query is that very code, which passes the orchestrator's
    check too. *)
Theorem X7_gateway_call g env r p :
  direct env ->
  exists new,
    sent (snd (ServicoA.CepHandler g r env p)) = sent p ++ new
    /\ (new = []
        \/ exists reqB cep,
            new = [reqB]
            /\ http.Method reqB = "GET"
            /\ http.Body reqB = inl "EOF"
            /\ http.URL reqB = tempoURL cep
            /\ ServicoA.validateCEP cep = true
            /\ cepParam reqB = cep
            /\ ServicoB.validateCEP (cepParam reqB) = true).
Proof.
  intros _.
  destruct (proj2 (handlers_send_bare_GET g) r env p)
    as [(ns & new & _ & Hsent & _ & HO) _].
  exists new. split; [exact Hsent|].
  pose proof (CepHandler_run g r env p) as H. cbn zeta in H. rewrite Hsent in H.
  assert (Hnone : sent p ++ new = sent p -> new = []).
  { intros E. rewrite <- (app_nil_r (sent p)) in E at 2. exact (app_inv_head _ _ _ E). }
  destruct (String.eqb (http.Method r) http.MethodPost); [|left; apply Hnone, H].
  destruct (ServicoA.Decode (http.Body r)) as [err|req]; [left; apply Hnone, H|].
  destruct (ServicoA.validateCEP (ServicoA.Cep req)) eqn:Hv; [|left; apply Hnone, H].
  right. destruct H as (reqB & HU & HM & _ & Hs & _).
  apply app_inv_head in Hs. subst new.
  inversion HO as [|? ? [_ HB] _]; subst.
  assert (Hcep : cepParam reqB = ServicoA.Cep req).
  { unfold cepParam, http.Query. rewrite HU.
    change (url.RawQuery (tempoURL (ServicoA.Cep req)))
      with ("cep" +:+ String "=" (ServicoA.Cep req)).
    pose proof (valid_unreserved _ Hv) as Hun.
    destruct (unreserved_contains _ Hun) as (Hamp & Hsemi & _).
    rewrite Query_single
      by (rewrite contains_append; cbn [url.contains orb]; exact Hamp).
    rewrite (parsePair_value "cep" _ (ServicoA.Cep req));
      [reflexivity | reflexivity | discriminate | exact Hsemi
       | apply QueryUnescape_unreserved, Hun]. }
  exists reqB, (ServicoA.Cep req).
  rewrite Hcep. repeat split; assumption.
Qed.

(** Behind the gateway, a servico-b that answers 200. *)
Lemma X7_witness :
  exists new,
    sent (snd (ServicoA.CepHandler ServicoA.globals
                 (Sample.post "/cep" (Sample.cepBody "01001000"))
                 (Sample.behind (Sample.ok "report")) start)) = [] ++ new
    /\ (new = []
        \/ exists reqB cep,
            new = [reqB]
            /\ http.Method reqB = "GET"
            /\ http.Body reqB = inl "EOF"
            /\ http.URL reqB = tempoURL cep
            /\ ServicoA.validateCEP cep = true
            /\ cepParam reqB = cep
            /\ ServicoB.validateCEP (cepParam reqB) = true).
Proof.
  apply (X7_gateway_call ServicoA.globals (Sample.behind (Sample.ok "report"))
           (Sample.post "/cep" (Sample.cepBody "01001000")) start).
  intros req. reflexivity.
Defined.

(** ** Baggage and trace context at the two services *)

Lemma Start_baggage g ctx name env p :
  context.baggage (fst (sdktrace.Start g ctx name env p)) = context.baggage ctx.
Proof.
  unfold sdktrace.Start.
  destruct (otel.tracerProvider g); [|reflexivity].
  destruct (context.spanContext ctx) as [parent|]; [destruct (trace.Sampled parent)|];
    reflexivity.
Qed.

Lemma baggage_injected ctx :
  propagation.Inject (otel.GetTextMapPropagator ServicoB.globals) ctx ∅ !! "Baggage"
  = baggageField (context.baggage ctx).
Proof.
  unfold baggageField. cbn.
  destruct (decide (context.baggage ctx = ∅)).
  - destruct (context.spanContext ctx);
      rewrite ?lookup_insert_ne by discriminate; apply lookup_empty.
  - apply lookup_insert_eq.
Qed.

(** While servico-b serves a request, the [Baggage] field of what it
    sends is decided by the baggage extracted from that request. *)
Lemma orchestrator_baggage codec env r p :
  let b := context.baggage
             (propagation.Extract (otel.GetTextMapPropagator ServicoB.globals)
                                  (http.Context r) (http.Header_ r)) in
  keeps (fun _ => True) (fun o => http.Header_ o !! "Baggage" = baggageField b)
        p (snd (ServicoB.main codec r env p)).
Proof.
  intros b. unfold ServicoB.main, ServeMux.
  destruct (url.Path (http.URL r)) as [path|];
    [|apply (respects_modifyW _ _ _ env p)].
  destruct (String.eqb path "/tempo"); [|apply (respects_modifyW _ _ _ env p)].
  unfold otelhttp.NewHandler.
  assert (HS : forall ctx name,
             context.baggage ctx = b ->
             respects (fun _ => True)
                      (fun o => http.Header_ o !! "Baggage" = baggageField b)
                      (sdktrace.Start ServicoB.globals ctx name)
                      (fun ctx' => context.baggage ctx' = b)).
  { intros ctx name Hc env0 p0. split; [apply Start_any|].
    rewrite Start_baggage. exact Hc. }
  refine (proj1 (respects_bind _ _ _ _ (fun ctx => context.baggage ctx = b)
                               (fun _ => True) _ _ env p)).
  - apply HS. reflexivity.
  - intros ctx Hc.
    apply (respects_WeatherHandler ServicoB.globals (fun c => context.baggage c = b));
      [exact HS| |exact Hc].
    intros ctx0 ctx1 u Hc1. cbn [http.Header_ http.withHeader].
    rewrite baggage_injected, Hc1. reflexivity.
Qed.

(** X8.  Baggage goes through the orchestrator.  A request that
    reaches servico-b with a [Baggage] field the propagator can parse,
    listing at least one member, has those members in the [Baggage]
    field of every request the service sends while serving it.  When
    the field cannot be parsed it is dropped: no request sent carries
    a [Baggage] field.  (How the members are written out is the
    library's matter: the text sent need not be the text received.) *)
Theorem X8_orchestrator_forwards_baggage codec env r p :
  http.Context r = context.Background ->
  (forall b,
      b <> ∅ ->
      http.Header_ r !! "Baggage" = Some (propagation.Members b) ->
      exists new,
        sent (snd (ServicoB.main codec r env p)) = sent p ++ new
        /\ Forall (fun o => http.Header_ o !! "Baggage" = Some (propagation.Members b))
                  new)
  /\ (forall text,
         http.Header_ r !! "Baggage" = Some (propagation.Text text) ->
         exists new,
           sent (snd (ServicoB.main codec r env p)) = sent p ++ new
           /\ Forall (fun o => http.Header_ o !! "Baggage" = None) new).
Proof.
  intros Hctx.
  pose proof (orchestrator_baggage codec env r p) as H. cbn zeta in H.
  unfold propagation.Extract, propagation.extract in H;
    cbn [fold_left otel.GetTextMapPropagator ServicoB.globals ServicoB.initTracer
         otel.SetTextMapPropagator otel.textMapPropagator] in H.
  rewrite Hctx in H.
  split.
  - intros b Hb Hh. rewrite Hh in H.
    destruct (decide (b = ∅)) as [|_]; [contradiction|].
    assert (Hf : baggageField b = Some (propagation.Members b)).
    { unfold baggageField. destruct (decide (b = ∅)); [contradiction|reflexivity]. }
    destruct (http.Header_ r !! "Traceparent") as [[?|?|?]|];
      cbn in H; rewrite Hf in H;
      destruct H as (ns & new & _ & Hs & _ & HO); eauto.
  - intros text Hh. rewrite Hh in H.
    destruct (http.Header_ r !! "Traceparent") as [[?|?|?]|];
      cbn in H; destruct H as (ns & new & _ & Hs & _ & HO); eauto.
Qed.

(** One member on the sample world, and a field that does not parse. *)
Lemma X8_witness :
  let b : baggage.Baggage := {[ "tenant" := ("acme", []) ]} in
  (exists new,
      sent (snd (ServicoB.main Sample.codec
                   (withField "Baggage" (propagation.Members b)
                              (Sample.get "/tempo?cep=01001000"))
                   Sample.allUp start)) = [] ++ new
      /\ Forall (fun o => http.Header_ o !! "Baggage" = Some (propagation.Members b)) new)
  /\ (exists new,
         sent (snd (ServicoB.main Sample.codec
                      (withField "Baggage" (propagation.Text "tenant acme")
                                 (Sample.get "/tempo?cep=01001000"))
                      Sample.allUp start)) = [] ++ new
         /\ Forall (fun o => http.Header_ o !! "Baggage" = None) new).
Proof.
  intros b. split.
  - apply (proj1 (X8_orchestrator_forwards_baggage
                    Sample.codec Sample.allUp
                    (withField "Baggage" (propagation.Members b)
                               (Sample.get "/tempo?cep=01001000"))
                    start eq_refl) b);
      [|reflexivity].
    intros Hb. apply (f_equal (fun m => m !! "tenant")) in Hb. discriminate Hb.
  - apply (proj2 (X8_orchestrator_forwards_baggage
                    Sample.codec Sample.allUp
                    (withField "Baggage" (propagation.Text "tenant acme")
                               (Sample.get "/tempo?cep=01001000"))
                    start eq_refl) "tenant acme").
    reflexivity.
Defined.

(** X9.  The orchestrator continues an announced trace.  A request
    that reaches servico-b with a [Traceparent] field is served in
    the trace it names: every span started while serving it belongs
    to that trace, and every request sent announces it. *)
Theorem X9_orchestrator_continues_trace codec env r p sc :
  http.Header_ r !! "Traceparent" = Some (propagation.TraceParent sc) ->
  exists newSpans newSent,
    spans (snd (ServicoB.main codec r env p)) = spans p ++ newSpans
    /\ sent (snd (ServicoB.main codec r env p)) = sent p ++ newSent
    /\ Forall (fun sd => trace.TraceID (SpanContext sd) = trace.TraceID sc) newSpans
    /\ Forall (fun o => traceparent o = Some (trace.TraceID sc)) newSent.
Proof. intros Hh. exact (orchestrator_continues_announced_trace codec env r p sc Hh). Qed.

(** A request announcing trace 7 on the sample world. *)
Lemma X9_witness :
  let r := withField "Traceparent"
                     (propagation.TraceParent
                        {| trace.TraceID := 7; trace.SpanID := 9; trace.Sampled := true |})
                     (Sample.get "/tempo?cep=01001000") in
  exists newSpans newSent,
    spans (snd (ServicoB.main Sample.codec r Sample.allUp start)) = newSpans
    /\ sent (snd (ServicoB.main Sample.codec r Sample.allUp start)) = newSent
    /\ Forall (fun sd => trace.TraceID (SpanContext sd) = 7%positive) newSpans
    /\ Forall (fun o => traceparent o = Some 7%positive) newSent.
Proof.
  intros r.
  apply (X9_orchestrator_continues_trace Sample.codec Sample.allUp r start
           {| trace.TraceID := 7; trace.SpanID := 9; trace.Sampled := true |}).
  reflexivity.
Defined.

Lemma Start_child_trace g t O ctx name :
  otel.tracerProvider g <> None -> inTrace t ctx ->
  respects (fun sd => trace.TraceID (SpanContext sd) = t) O
           (sdktrace.Start g ctx name) (inTrace t).
Proof.
  intros Hg (sc & Hsc & Ht) env p. unfold sdktrace.Start.
  destruct (otel.tracerProvider g); [|congruence].
  rewrite Hsc. destruct (trace.Sampled sc); cbn; split.
  - eexists [_], []. rewrite app_nil_r. repeat split; [|constructor].
    constructor; [exact Ht|constructor].
  - eexists. split; [reflexivity|exact Ht].
  - exists [], []. rewrite !app_nil_r. repeat split; constructor.
  - eexists. split; [reflexivity|exact Ht].
Qed.

(** X10.  The gateway opens a trace of its own for every request.
    Whatever header fields the request carries, a [Traceparent]
    among them or not, every span servico-a starts while serving it
    belongs to one trace, whose identifier is the next one its
    generator draws. *)
Theorem X10_gateway_opens_own_trace r env p :
  http.Context r = context.Background ->
  exists newSpans,
    spans (snd (ServicoA.main r env p)) = spans p ++ newSpans
    /\ Forall (fun sd => trace.TraceID (SpanContext sd) = idgen env (nextID p)) newSpans.
Proof.
  intros Hc.
  cut (keeps (fun sd => trace.TraceID (SpanContext sd) = idgen env (nextID p))
             (fun _ => True) p (snd (ServicoA.main r env p))).
  { intros (ns & new & Hs & _ & HS & _). eauto. }
  unfold ServicoA.main, ServeMux.
  destruct (url.Path (http.URL r)) as [path|];
    [|apply (respects_modifyW _ _ _ env p)].
  destruct (String.eqb path "/cep"); [|apply (respects_modifyW _ _ _ env p)].
  unfold otelhttp.NewHandler. rewrite Hc. unfold bind at 1.
  change (propagation.Extract (otel.GetTextMapPropagator ServicoA.globals)
                              context.Background (http.Header_ r))
    with context.Background.
  destruct (sdktrace.Start ServicoA.globals context.Background "CepHandler" env p)
    as [ctx p1] eqn:E.
  cbn in E. injection E as <- <-.
  set (t := idgen env (nextID p)).
  eapply keeps_trans.
  2:{ apply (respects_CepHandler ServicoA.globals (inTrace t)).
      - intros ctx name Hin. apply Start_child_trace; [discriminate|exact Hin].
      - intros. exact I.
      - eexists. split; reflexivity. }
  eexists [_], []. cbn. rewrite app_nil_r.
  repeat split; constructor; [reflexivity|constructor].
Qed.

(** A request announcing trace 7 to the gateway is served in trace 100. *)
Lemma X10_witness :
  let r := withField "Traceparent"
                     (propagation.TraceParent
                        {| trace.TraceID := 7; trace.SpanID := 9; trace.Sampled := true |})
                     (Sample.post "/cep" (Sample.cepBody "01001000")) in
  exists newSpans,
    spans (snd (ServicoA.main r (Sample.behind (Sample.ok "report")) start)) = newSpans
    /\ Forall (fun sd => trace.TraceID (SpanContext sd) = 100%positive) newSpans.
Proof.
  intros r.
  apply (X10_gateway_opens_own_trace r (Sample.behind (Sample.ok "report")) start).
  reflexivity.
Defined.

(** ** The tree of spans of the orchestrator *)

Lemma Start_child g ctx name env p parent :
  otel.tracerProvider g <> None ->
  context.spanContext ctx = Some parent ->
  trace.Sampled parent = true ->
  exists sd ctx' p',
    sdktrace.Start g ctx name env p = (ctx', p')
    /\ child name parent sd
    /\ trace.Sampled (SpanContext sd) = true
    /\ context.spanContext ctx' = Some (SpanContext sd)
    /\ spans p' = spans p ++ [sd]
    /\ sent p' = sent p
    /\ w p' = w p.
Proof.
  intros Hg Hsc Hsampled. unfold sdktrace.Start.
  destruct (otel.tracerProvider g); [|congruence].
  rewrite Hsc, Hsampled. cbn. eexists _, _, _. split; [reflexivity|].
  unfold child. cbn. repeat split; reflexivity.
Qed.

Lemma Do_child r env p parent :
  context.spanContext (http.Context r) = Some parent ->
  trace.Sampled parent = true ->
  exists sd r' p',
    otelhttp.Do ServicoB.globals r env p = (DefaultTransport env r', p')
    /\ child ("HTTP " +:+ http.Method r) parent sd
    /\ announces sd r'
    /\ http.URL r' = http.URL r
    /\ spans p' = spans p ++ [sd]
    /\ sent p' = sent p ++ [r']
    /\ w p' = w p.
Proof.
  intros Hsc Hsampled. unfold otelhttp.Do, bind.
  destruct (Start_child ServicoB.globals (http.Context r) ("HTTP " +:+ http.Method r)
                        env p parent)
    as (sd & ctx' & p' & E & Hch & _ & Hctx & Hsp & Hse & Hw);
    [discriminate|exact Hsc|exact Hsampled|].
  rewrite E. eexists sd, _, _. split; [reflexivity|].
  split; [exact Hch|]. cbn. rewrite Hsp, Hse, Hw.
  repeat split. unfold announces. cbn. rewrite Hctx.
  destruct (decide (context.baggage ctx' = ∅)).
  - apply lookup_insert_eq.
  - rewrite lookup_insert_ne by discriminate. apply lookup_insert_eq.
Qed.

(** X11.  The spans of a full run.  When the handler runs under a
    sampled span, no collaborator answers with a redirect and every
    stage succeeds, it records exactly six spans: its own,
    [Processar tempo por CEP], as a child of the span it runs under;
    [ViaCEP API] and [Buscar clima Open-Meteo] as children of its
    own; and one [HTTP GET] for each request, the first under
    [ViaCEP API], the second and the third both under the one span
    [Buscar clima Open-Meteo].  Each request names its own [HTTP GET]
    span in its [Traceparent] field. *)
Theorem X11_span_tree_of_full_run codec env r p server cepData geoResult first others
        weatherData :
  context.spanContext (http.Context r) = Some server ->
  trace.Sampled server = true ->
  direct env ->
  ServicoB.validateCEP (cepParam r) = true ->
  answers env (viacepURL (cepParam r))
          (fun ans => decoded (ServicoB.Unmarshal_ViaCEP codec) ans = inr cepData) ->
  ServicoB.Localidade cepData <> "" ->
  answers env (geocodingURL (ServicoB.Localidade cepData))
          (fun ans => decoded (ServicoB.Unmarshal_GeoResult codec) ans = inr geoResult) ->
  ServicoB.Results geoResult = first :: others ->
  answers env (forecastURL codec first)
          (fun ans => decoded (ServicoB.Unmarshal_OpenMeteoResponse codec) ans
                      = inr weatherData) ->
  let p' := snd (ServicoB.WeatherHandler codec ServicoB.globals r env p) in
  exists handler directory get1 meteo get2 get3 req1 req2 req3,
    spans p' = spans p ++ [handler; directory; get1; meteo; get2; get3]
    /\ sent p' = sent p ++ [req1; req2; req3]
    /\ child "Processar tempo por CEP" server handler
    /\ child "ViaCEP API" (SpanContext handler) directory
    /\ child "HTTP GET" (SpanContext directory) get1
    /\ child "Buscar clima Open-Meteo" (SpanContext handler) meteo
    /\ child "HTTP GET" (SpanContext meteo) get2
    /\ child "HTTP GET" (SpanContext meteo) get3
    /\ announces get1 req1 /\ announces get2 req2 /\ announces get3 req3.
Proof.
  intros Hsrv Hsampled _ Hv Hdir Hcity Hgeo Hres Hfc p'. subst p'.
  unfold ServicoB.WeatherHandler, bind. fold (cepParam r).
  destruct (Start_child ServicoB.globals (http.Context r) "Processar tempo por CEP"
                        env p server)
    as (handler & ctx & p1 & E1 & Hh & HhS & Hctx & Hsp1 & Hse1 & _);
    [discriminate|exact Hsrv|exact Hsampled|].
  rewrite E1, Hv. cbn [negb].
  (* the directory *)
  unfold ServicoB.BuscaCEP, bind.
  destruct (Start_child ServicoB.globals ctx "ViaCEP API" env p1 (SpanContext handler))
    as (directory & ctxD & p2 & E2 & Hd & HdS & HctxD & Hsp2 & Hse2 & _);
    [discriminate|exact Hctx|exact HhS|].
  rewrite E2.
  match goal with
  | |- context [otelhttp.Do ServicoB.globals ?q env p2] =>
      destruct (Do_child q env p2 (SpanContext directory))
        as (get1 & req1 & p3 & E3 & Hg1 & Ha1 & HU1 & Hsp3 & Hse3 & _);
      [exact HctxD|exact HdS|]
  end.
  rewrite E3.
  pose proof (Hdir req1 HU1) as Hans1. unfold decoded in Hans1.
  destruct (DefaultTransport env req1) as [err|resp1]; [discriminate Hans1|].
  destruct (http.ReadAll resp1) as [body1 [err|]]; [discriminate Hans1|].
  rewrite Hans1.
  apply String.eqb_neq in Hcity. cbn [ret]. rewrite Hcity.
  (* the geocoder *)
  unfold ServicoB.fetchWeather, bind.
  destruct (Start_child ServicoB.globals ctx "Buscar clima Open-Meteo" env p3
                        (SpanContext handler))
    as (meteo & ctxM & p4 & E4 & Hm & HmS & HctxM & Hsp4 & Hse4 & _);
    [discriminate|exact Hctx|exact HhS|].
  rewrite E4.
  match goal with
  | |- context [otelhttp.Do ServicoB.globals ?q env p4] =>
      destruct (Do_child q env p4 (SpanContext meteo))
        as (get2 & req2 & p5 & E5 & Hg2 & Ha2 & HU2 & Hsp5 & Hse5 & _);
      [exact HctxM|exact HmS|]
  end.
  rewrite E5.
  pose proof (Hgeo req2 HU2) as Hans2. unfold decoded in Hans2.
  destruct (DefaultTransport env req2) as [err|resp2]; [discriminate Hans2|].
  destruct (http.ReadAll resp2) as [body2 [err|]]; [discriminate Hans2|].
  rewrite Hans2, Hres.
  (* the forecast *)
  match goal with
  | |- context [otelhttp.Do ServicoB.globals ?q env p5] =>
      destruct (Do_child q env p5 (SpanContext meteo))
        as (get3 & req3 & p6 & E6 & Hg3 & Ha3 & HU3 & Hsp6 & Hse6 & _);
      [exact HctxM|exact HmS|]
  end.
  rewrite E6.
  pose proof (Hfc req3 HU3) as Hans3. unfold decoded in Hans3.
  destruct (DefaultTransport env req3) as [err|resp3]; [discriminate Hans3|].
  destruct (http.ReadAll resp3) as [body3 [err|]]; [discriminate Hans3|].
  rewrite Hans3.
  exists handler, directory, get1, meteo, get2, get3, req1, req2, req3.
  cbn [ret]. unfold ServicoB.Encode.
  destruct (ServicoB.Encode_TempResp codec _); cbn [modifyW ret snd spans sent].
  all: rewrite Hsp6, Hsp5, Hsp4, Hsp3, Hsp2, Hsp1, Hse6, Hse5, Hse4, Hse3, Hse2, Hse1.
  all: rewrite <- !app_assoc; cbn [app].
  all: split; [reflexivity|]; split; [reflexivity|].
  all: repeat (split; [assumption|]); assumption.
Qed.

(** A request served under span (1, 2), every collaborator up. *)
Lemma X11_witness :
  let r := http.WithContext
             (Sample.get "/tempo?cep=01001000")
             (context.withSpanContext
                context.Background
                {| trace.TraceID := 1; trace.SpanID := 2; trace.Sampled := true |}) in
  let p' := snd (ServicoB.WeatherHandler Sample.codec ServicoB.globals r
                   Sample.allUp start) in
  exists handler directory get1 meteo get2 get3 req1 req2 req3,
    spans p' = [handler; directory; get1; meteo; get2; get3]
    /\ sent p' = [req1; req2; req3]
    /\ child "Processar tempo por CEP"
             {| trace.TraceID := 1; trace.SpanID := 2; trace.Sampled := true |} handler
    /\ child "ViaCEP API" (SpanContext handler) directory
    /\ child "HTTP GET" (SpanContext directory) get1
    /\ child "Buscar clima Open-Meteo" (SpanContext handler) meteo
    /\ child "HTTP GET" (SpanContext meteo) get2
    /\ child "HTTP GET" (SpanContext meteo) get3
    /\ announces get1 req1 /\ announces get2 req2 /\ announces get3 req3.
Proof.
  intros r.
  apply (X11_span_tree_of_full_run Sample.codec Sample.allUp r start
           {| trace.TraceID := 1; trace.SpanID := 2; trace.Sampled := true |}
           {| ServicoB.Localidade := "São Paulo"; ServicoB.Uf := "SP" |}
           {| ServicoB.Results := [{| ServicoB.Latitude := (-23.5475)%float;
                                      ServicoB.Longitude := (-46.63611)%float |}] |}
           {| ServicoB.Latitude := (-23.5475)%float;
              ServicoB.Longitude := (-46.63611)%float |} []
           {| ServicoB.Temperature := 25%float |});
    try reflexivity; try discriminate; try exact allUp_direct;
    intros req Hr; simpl; unfold Sample.collaborators; rewrite Hr; reflexivity.
Defined.

(** ** Decoding the body of the gateway's request *)

Lemma saved_error_stays members req e :
  snd (fold_left ServicoA.decodeMember members (req, Some e)) = Some e.
Proof.
  revert req. induction members as [|[key v] members IH]; intros req; [reflexivity|].
  cbn [fold_left]. unfold ServicoA.decodeMember at 2.
  destruct (json.keyMatches "cep" key); [|apply IH].
  destruct v; cbn; apply IH.
Qed.

Lemma wrong_type_is_saved members st key v :
  In (key, v) members -> json.keyMatches "cep" key = true -> wrongType v = true ->
  snd (fold_left ServicoA.decodeMember members st) <> None.
Proof.
  revert st. induction members as [|[key' v'] members IH]; intros st Hin Hk Hv;
    [contradiction|].
  cbn [fold_left]. destruct Hin as [Heq|Hin]; [|apply IH; assumption].
  injection Heq as -> ->. unfold ServicoA.decodeMember at 2. rewrite Hk.
  destruct st as [req [e|]]; destruct v; try discriminate Hv; cbn;
    rewrite saved_error_stays; discriminate.
Qed.

Lemma unmatched_members_change_nothing members st :
  (forall key v, In (key, v) members -> json.keyMatches "cep" key = false) ->
  fold_left ServicoA.decodeMember members st = st.
Proof.
  revert st. induction members as [|[key v] members IH]; intros st Hm; [reflexivity|].
  cbn [fold_left]. unfold ServicoA.decodeMember at 2.
  rewrite (Hm key v (or_introl eq_refl)).
  apply IH. intros k' v' Hin. apply (Hm k' v'). right. exact Hin.
Qed.

(** X12.  A [cep] of the wrong type.  When some member of the object
    whose name equals [cep] up to letter case holds a number, a
    boolean, an array or an object, the body is refused with 400 and
    the text [invalid request body], whatever the other members hold
    (a valid code under the same name before or after it included),
    and nothing is sent. *)
Theorem X12_wrong_type_is_400 g env r p members key v :
  http.Method r = "POST" ->
  http.Body r = inr (json.Object members) ->
  In (key, v) members ->
  json.keyMatches "cep" key = true ->
  wrongType v = true ->
  w p = http.newResponseWriter ->
  let p' := snd (ServicoA.CepHandler g r env p) in
  http.status (w p') = Some 400%Z
  /\ http.written (w p') = "invalid request body" +:+ String "010" ""
  /\ sent p' = sent p.
Proof.
  intros Hm Hb Hin Hk Hv Hw p'.
  assert (Hd : exists err, ServicoA.Decode (http.Body r) = inl err).
  { rewrite Hb. unfold ServicoA.Decode.
    pose proof (wrong_type_is_saved members ({| ServicoA.Cep := "" |}, None)
                                    key v Hin Hk Hv) as Hs.
    destruct (fold_left ServicoA.decodeMember members _) as [req [e|]];
      [eauto|contradiction]. }
  destruct Hd as [err Hd].
  pose proof (CepHandler_run g r env p) as H. cbn zeta in H. fold p' in H.
  rewrite Hm, Hd in H. simpl in H. destruct H as [-> ->]. rewrite Hw.
  repeat split.
Qed.

(** A number after a valid code. *)
Lemma X12_witness :
  let r := Sample.post "/cep"
             (inr (json.Object [("cep", json.Str "01001000");
                                ("Cep", json.Number "1001000")])) in
  let p' := snd (ServicoA.CepHandler ServicoA.globals r Sample.allUp start) in
  http.status (w p') = Some 400%Z
  /\ http.written (w p') = "invalid request body" +:+ String "010" ""
  /\ sent p' = [].
Proof.
  intros r.
  apply (X12_wrong_type_is_400 ServicoA.globals Sample.allUp r start
           [("cep", json.Str "01001000"); ("Cep", json.Number "1001000")]
           "Cep" (json.Number "1001000"));
    try reflexivity.
  right. left. reflexivity.
Defined.

(** X13.  A [cep] given more than once.  When the members before it
    decode without error, a string member whose name equals [cep] up
    to letter case, followed only by members of other names, decides
    the code: the request decodes to its value, and if that passes
    the format check it is the code sent to servico-b. *)
Theorem X13_last_cep_decides g env r p before key cep after req0 :
  http.Method r = "POST" ->
  http.Body r = inr (json.Object (before ++ (key, json.Str cep) :: after)) ->
  ServicoA.Decode (inr (json.Object before)) = inr req0 ->
  json.keyMatches "cep" key = true ->
  (forall k v, In (k, v) after -> json.keyMatches "cep" k = false) ->
  ServicoA.validateCEP cep = true ->
  ServicoA.Decode (http.Body r) = inr {| ServicoA.Cep := cep |}
  /\ exists reqB,
      sent (snd (ServicoA.CepHandler g r env p)) = sent p ++ [reqB]
      /\ http.URL reqB = tempoURL cep.
Proof.
  intros Hm Hb Hd0 Hk Hafter Hv.
  assert (Hd : ServicoA.Decode (http.Body r) = inr {| ServicoA.Cep := cep |}).
  { rewrite Hb. unfold ServicoA.Decode in *.
    rewrite fold_left_app. cbn [fold_left].
    destruct (fold_left ServicoA.decodeMember before _) as [req [e|]];
      [discriminate Hd0|].
    unfold ServicoA.decodeMember at 2. rewrite Hk. cbn.
    rewrite (unmatched_members_change_nothing after _ Hafter). reflexivity. }
  split; [exact Hd|].
  pose proof (CepHandler_run g r env p) as H. cbn zeta in H.
  rewrite Hm, Hd in H. cbn [ServicoA.Cep] in H. rewrite Hv in H. simpl in H.
  destruct H as (reqB & HU & _ & _ & Hs & _). eauto.
Qed.

(** Two codes: the second one is sent. *)
Lemma X13_witness :
  let r := Sample.post "/cep"
             (inr (json.Object [("cep", json.Str "99999999");
                                ("CEP", json.Str "01001000");
                                ("uf", json.Str "SP")])) in
  ServicoA.Decode (http.Body r) = inr {| ServicoA.Cep := "01001000" |}
  /\ exists reqB,
      sent (snd (ServicoA.CepHandler ServicoA.globals r Sample.allUp start)) = [reqB]
      /\ http.URL reqB = tempoURL "01001000".
Proof.
  intros r.
  apply (X13_last_cep_decides ServicoA.globals Sample.allUp r start
           [("cep", json.Str "99999999")] "CEP" "01001000" [("uf", json.Str "SP")]
           {| ServicoA.Cep := "99999999" |});
    try reflexivity.
  intros k v [Heq|[]]. injection Heq as <- <-. reflexivity.
Defined.

(** X14.  A body that is not an object.  A POST whose body is the
    JSON value [null] decodes to an empty code and is answered 422;
    a body that is a string, a number, a boolean or an array is
    answered 400.  Nothing is sent in either case. *)
Theorem X14_body_not_an_object g env r p v :
  http.Method r = "POST" ->
  http.Body r = inr v ->
  (forall members, v <> json.Object members) ->
  w p = http.newResponseWriter ->
  let p' := snd (ServicoA.CepHandler g r env p) in
  http.status (w p') = Some (match v with json.Null => 422 | _ => 400 end)%Z
  /\ sent p' = sent p.
Proof.
  intros Hm Hb Hv Hw p'.
  pose proof (CepHandler_run g r env p) as H. cbn zeta in H. fold p' in H.
  rewrite Hm, Hb in H.
  destruct v as [| | | | |members];
    cbn in H; try (destruct H as [-> ->]; rewrite Hw; split; reflexivity).
  exfalso. exact (Hv members eq_refl).
Qed.

(** The body [null]. *)
Lemma X14_witness :
  let p' := snd (ServicoA.CepHandler ServicoA.globals
                   (Sample.post "/cep" (inr json.Null)) Sample.allUp start) in
  http.status (w p') = Some 422%Z /\ sent p' = [].
Proof.
  apply (X14_body_not_an_object ServicoA.globals Sample.allUp
           (Sample.post "/cep" (inr json.Null)) start json.Null);
    try reflexivity.
  discriminate.
Defined.

(** ** The two services together *)

Lemma tempo_target cep r :
  ServicoA.validateCEP cep = true ->
  http.URL r = "/tempo?cep=" +:+ cep ->
  fst (url.Cut "?" (http.URL r)) = "/tempo" /\ cepParam r = cep.
Proof.
  intros Hv HU. unfold cepParam, http.Query, url.RawQuery. rewrite HU.
  change ("/tempo?cep=" +:+ cep) with ("/tempo" +:+ String "?" ("cep" +:+ String "=" cep)).
  rewrite Cut_append by reflexivity. cbn [fst snd]. split; [reflexivity|].
  pose proof (valid_unreserved _ Hv) as Hun.
  destruct (unreserved_contains _ Hun) as (Hamp & Hsemi & _).
  rewrite Query_single
    by (rewrite contains_append; cbn [url.contains orb]; exact Hamp).
  rewrite (parsePair_value "cep" _ cep);
    [reflexivity | reflexivity | discriminate | exact Hsemi
     | apply QueryUnescape_unreserved, Hun].
Qed.

(** What the orchestrator answers to a well-formed code. *)
Lemma orchestrator_valid_answer codec g r env p :
  ServicoB.validateCEP (cepParam r) = true ->
  w p = http.newResponseWriter ->
  let w' := w (snd (ServicoB.WeatherHandler codec g r env p)) in
  (http.sentStatus w' = 404%Z
   /\ http.written w' = "can not find zipcode" +:+ String "010" "")
  \/ (http.sentStatus w' = 500%Z
      /\ http.written w' = "erro ao buscar temperatura" +:+ String "010" "")
  \/ (http.sentStatus w' = 200%Z
      /\ (http.written w' = ""
          \/ exists temps, ServicoB.Encode_TempResp codec temps = inr (http.written w'))).
Proof.
  intros Hv Hw w'.
  pose proof (WeatherHandler_run codec g r env p) as H. cbn zeta in H.
  fold w' in H. rewrite Hv, Hw in H.
  destruct H as (reqCep & _ & H).
  destruct (decoded (ServicoB.Unmarshal_ViaCEP codec) (DefaultTransport env reqCep))
    as [err|cepData].
  { left. destruct H as [-> _]. split; reflexivity. }
  destruct (String.eqb (ServicoB.Localidade cepData) "").
  { left. destruct H as [-> _]. split; reflexivity. }
  destruct H as (reqGeo & _ & H).
  destruct (decoded (ServicoB.Unmarshal_GeoResult codec) (DefaultTransport env reqGeo))
    as [err|geoResult].
  { right; left. destruct H as [-> _]. split; reflexivity. }
  destruct (ServicoB.Results geoResult) as [|first others].
  { right; left. destruct H as [-> _]. split; reflexivity. }
  destruct H as (reqW & _ & H).
  destruct (decoded (ServicoB.Unmarshal_OpenMeteoResponse codec) (DefaultTransport env reqW))
    as [err|weatherData].
  { right; left. destruct H as [-> _]. split; reflexivity. }
  destruct H as [H _]. right; right.
  destruct (ServicoB.Encode_TempResp codec _) as [err|bytes] eqn:E; rewrite H.
  - split; [reflexivity|]. left. reflexivity.
  - split; [reflexivity|]. right. eexists. exact E.
Qed.

(** X15.  The gateway in front of the orchestrator.  For a POST to
    [/cep] whose body decodes to a well-formed code, with servico-b
    as the gateway's network, servico-b runs exactly once and the
    client receives the status servico-b sent and the bytes it
    wrote, under the content type [application/json] also when those
    bytes are the plain text of an error.  The answer is 404 with
    [can not find zipcode], 500 with [erro ao buscar temperatura], or
    200 with the encoded report or with nothing; servico-b's 422 is
    never seen through the gateway. *)
Theorem X15_gateway_in_front_of_orchestrator idsA codec envB r cep :
  fst (url.Cut "?" (http.URL r)) = "/cep" ->
  http.Method r = "POST" ->
  ServicoA.Decode (http.Body r) = inr {| ServicoA.Cep := cep |} ->
  ServicoA.validateCEP cep = true ->
  let pA := System.gateway idsA codec envB r in
  exists pB,
    System.orchestratorRuns codec envB pA = [pB]
    /\ http.status (w pA) = Some (http.sentStatus (w pB))
    /\ http.written (w pA) = http.written (w pB)
    /\ http.header (w pA) !! "Content-Type" = Some (propagation.Text "application/json")
    /\ ((http.sentStatus (w pB) = 404%Z
         /\ http.written (w pB) = "can not find zipcode" +:+ String "010" "")
        \/ (http.sentStatus (w pB) = 500%Z
            /\ http.written (w pB) = "erro ao buscar temperatura" +:+ String "010" "")
        \/ (http.sentStatus (w pB) = 200%Z
            /\ (http.written (w pB) = ""
                \/ exists temps,
                    ServicoB.Encode_TempResp codec temps = inr (http.written (w pB))))).
Proof.
  intros Hpath Hm Hd Hv pA. subst pA.
  unfold System.gateway, ServicoA.main, ServeMux, url.Path. rewrite Hpath.
  change (url.PathUnescape "/cep") with (Some "/cep"). cbv beta iota.
  change (String.eqb "/cep" "/cep") with true. cbv iota.
  set (envA := {| idgen := idsA; DefaultTransport := System.network codec envB |}).
  unfold otelhttp.NewHandler, bind.
  match goal with
  | |- context [sdktrace.Start ?g ?c ?n envA start] =>
      destruct (sdktrace.Start g c n envA start) as [ctx p1] eqn:E;
      pose proof (Start_frame g c n envA start) as [Hs Hw]
  end.
  rewrite E in Hs, Hw; simpl in Hs, Hw.
  pose proof (CepHandler_run ServicoA.globals (http.WithContext r ctx) envA p1) as H.
  cbn zeta in H. cbn [http.Method http.Body http.WithContext] in H.
  rewrite Hm, Hd in H. cbn [ServicoA.Cep] in H. rewrite Hv in H.
  change (String.eqb "POST" http.MethodPost) with true in H. cbv iota in H.
  destruct H as (reqB & HU & _ & _ & Hsent & Hans).
  rewrite Hs in Hsent. rewrite Hw in Hans. cbn [app] in Hsent.
  set (pB := snd (ServicoB.main codec (System.inbound reqB ("/tempo?cep=" +:+ cep))
                                envB start)).
  assert (Hrun : System.orchestrator codec envB reqB = Some pB).
  { unfold System.orchestrator. rewrite HU. reflexivity. }
  change (DefaultTransport envA reqB) with (System.network codec envB reqB) in Hans.
  unfold System.network in Hans. rewrite Hrun in Hans.
  exists pB. unfold System.orchestratorRuns. rewrite Hsent, Hans.
  cbn [omap list_omap]. rewrite Hrun.
  split; [reflexivity|]. split; [reflexivity|]. split; [reflexivity|].
  split; [reflexivity|].
  subst pB. unfold ServicoB.main, ServeMux, url.Path.
  destruct (tempo_target cep (System.inbound reqB ("/tempo?cep=" +:+ cep)) Hv eq_refl)
    as [Hp Hc].
  rewrite Hp. change (url.PathUnescape "/tempo") with (Some "/tempo"). cbv beta iota.
  change (String.eqb "/tempo" "/tempo") with true. cbv iota.
  unfold otelhttp.NewHandler, bind.
  match goal with
  | |- context [sdktrace.Start ?g ?c ?n envB start] =>
      destruct (sdktrace.Start g c n envB start) as [ctxB pB1] eqn:EB;
      pose proof (Start_frame g c n envB start) as [_ HwB]
  end.
  rewrite EB in HwB; simpl in HwB.
  apply orchestrator_valid_answer; [|exact HwB].
  change (cepParam (http.WithContext (System.inbound reqB ("/tempo?cep=" +:+ cep)) ctxB))
    with (cepParam (System.inbound reqB ("/tempo?cep=" +:+ cep))).
  rewrite Hc. exact Hv.
Qed.

(** A code the public directory does not know, through both services. *)
Lemma X15_witness :
  let pA := System.gateway (Sample.ids 100) Sample.codec Sample.unknownCep
              (Sample.post "/cep" (Sample.cepBody "01001000")) in
  exists pB,
    System.orchestratorRuns Sample.codec Sample.unknownCep pA = [pB]
    /\ http.status (w pA) = Some (http.sentStatus (w pB))
    /\ http.written (w pA) = http.written (w pB)
    /\ http.header (w pA) !! "Content-Type" = Some (propagation.Text "application/json")
    /\ ((http.sentStatus (w pB) = 404%Z
         /\ http.written (w pB) = "can not find zipcode" +:+ String "010" "")
        \/ (http.sentStatus (w pB) = 500%Z
            /\ http.written (w pB) = "erro ao buscar temperatura" +:+ String "010" "")
        \/ (http.sentStatus (w pB) = 200%Z
            /\ (http.written (w pB) = ""
                \/ exists temps,
                    ServicoB.Encode_TempResp Sample.codec temps
                    = inr (http.written (w pB))))).
Proof.
  exact (X15_gateway_in_front_of_orchestrator
           (Sample.ids 100) Sample.codec Sample.unknownCep
           (Sample.post "/cep" (Sample.cepBody "01001000")) "01001000"
           eq_refl eq_refl eq_refl eq_refl).
Defined.

(** X16.  A [cep] parameter given more than once.  When the query of
    the request starts with [cep=] followed by an escaped value and
    an ampersand, the code the orchestrator validates is that value,
    unescaped; what follows the ampersand, later [cep] parameters
    included, is not looked at. *)
Theorem X16_first_cep_parameter_decides r path v rest :
  url.contains "?" path = false ->
  http.URL r = path +:+ "?cep=" +:+ url.QueryEscape v +:+ "&" +:+ rest ->
  cepParam r = v.
Proof.
  intros Hpath HU. unfold cepParam, http.Query, url.RawQuery. rewrite HU.
  assert (Heq : path +:+ "?cep=" +:+ url.QueryEscape v +:+ "&" +:+ rest
                = path +:+ String "?" (("cep" +:+ String "=" (url.QueryEscape v))
                                         +:+ String "&" rest)).
  { rewrite append_assoc'. reflexivity. }
  rewrite Heq, (Cut_append "?" path _ Hpath). cbn [snd].
  rewrite Query_cons by (apply pair_no_ampersand; reflexivity).
  rewrite parsePair_escaped by (reflexivity || discriminate).
  reflexivity.
Qed.

(** Two codes in the query: the first is validated. *)
Lemma X16_witness :
  cepParam (Sample.get "/tempo?cep=01001000&cep=99999999") = "01001000".
Proof.
  apply (X16_first_cep_parameter_decides
           (Sample.get "/tempo?cep=01001000&cep=99999999")
           "/tempo" "01001000" "cep=99999999");
    reflexivity.
Defined.

(** ** The Kelvin value on decimal input *)

Lemma allFrom_spec f n : forall lo k,
  allFrom lo n f = true -> (lo <= k < lo + Z.of_nat n)%Z -> f k = true.
Proof.
  induction n as [|n IH]; intros lo k H Hk; [lia|].
  cbn [allFrom] in H. apply andb_true_iff in H. destruct H as [Hlo Hrest].
  destruct (Z.eq_dec k lo) as [->|Hne]; [exact Hlo|].
  apply (IH (lo + 1)%Z k Hrest). lia.
Qed.

(** X17.  Kelvin without rounding noise.  For a Celsius value with
    one digit after the point between -100.0 and 100.0, read as the
    nearest binary64 value, [TempK] is the binary64 value nearest to
    the exact sum with 273: the addition loses nothing that a
    one-digit decimal would show.  Close to -273 this fails: -272.9
    gives a value that is not the one nearest to 0.1. *)
Theorem X17_kelvin_of_one_decimal cidade :
  (forall k, (-1000 <= k <= 1000)%Z ->
             (ServicoB.TempK (ServicoB.convertTemps (tenths k) cidade)
              =? tenths (k + 2730))%float = true)
  /\ (ServicoB.TempK (ServicoB.convertTemps (tenths (-2729)) cidade)
      =? tenths 1)%float = false.
Proof.
  split; [|reflexivity].
  intros k Hk.
  apply (allFrom_spec
           (fun k => (ServicoB.TempK (ServicoB.convertTemps (tenths k) "")
                      =? tenths (k + 2730))%float)
           2001 (-1000)%Z k); [vm_compute; reflexivity | lia].
Qed.
